(** * dividendsomatic: the PDF extractor and the market-data fetcher

    A shallow embedding of [scripts/extract_lynx_pdfs.py] and
    [tools/yfinance_fetch.py], with the properties their specification states.

    Conventions of the embedding.
    - A Python [str] is a [string]; a character is read as the code point of
      the same number, so the development covers the code points 0..255 and
      the character classes below are Python's classes on that range.
    - [None] or a value is an [option]; a [dict] with string keys is an
      association list in insertion order.
    - The external libraries are inputs: a PDF is the list of its pages, each
      with the tables and the text that pdfplumber extracts from it; the
      market-data provider is a record of the calls the code makes on it,
      each of which may raise.
    - [float] keeps the exact decimal that a literal denotes; the rounding to
      a binary64 double is not modelled. *)

From Stdlib Require Import Bool Arith List String Ascii ZArith QArith Qabs Lia.
Import ListNotations.
Local Open Scope string_scope.
Local Open Scope nat_scope.

(** ** Python strings *)

Module PyStr.

Definition code (c : ascii) : nat := nat_of_ascii c.

Definition between (lo hi : nat) (c : ascii) : bool :=
  (lo <=? code c) && (code c <=? hi).

(** [str.isspace] on one character; also the class [\s] of [re]. *)
Definition isspace_char (c : ascii) : bool :=
  between 9 13 c || between 28 32 c || (code c =? 133) || (code c =? 160).

(** Category Nd: the class [\d] of [re], and the digits [float] reads. *)
Definition isdecimal_char (c : ascii) : bool := between 48 57 c.

(** [str.isdigit] on one character: the decimal digits and the superscripts
    one, two and three. *)
Definition isdigit_char (c : ascii) : bool :=
  isdecimal_char c || (code c =? 178) || (code c =? 179) || (code c =? 185).

Definition isupper_ascii (c : ascii) : bool := between 65 90 c.
Definition islower_ascii (c : ascii) : bool := between 97 122 c.

(** [str.isalpha] on one character: the letter categories. *)
Definition isalpha_char (c : ascii) : bool :=
  isupper_ascii c || islower_ascii c
  || (code c =? 170) || (code c =? 181) || (code c =? 186)
  || between 192 214 c || between 216 246 c || between 248 255 c.

(** Case folding of the ASCII letters, as [re.IGNORECASE] needs it. *)
Definition fold_case (c : ascii) : ascii :=
  if isupper_ascii c then ascii_of_nat (code c + 32) else c.

Fixpoint all_chars (p : ascii -> bool) (s : string) : bool :=
  match s with
  | EmptyString => true
  | String c t => p c && all_chars p t
  end.

Definition nonempty (s : string) : bool :=
  match s with EmptyString => false | String _ _ => true end.

Definition isdigit (s : string) : bool := nonempty s && all_chars isdigit_char s.
Definition isalpha (s : string) : bool := nonempty s && all_chars isalpha_char s.

Fixpoint lstrip (s : string) : string :=
  match s with
  | EmptyString => EmptyString
  | String c t => if isspace_char c then lstrip t else s
  end.

Fixpoint rstrip (s : string) : string :=
  match s with
  | EmptyString => EmptyString
  | String c t =>
      match rstrip t with
      | EmptyString => if isspace_char c then EmptyString else String c EmptyString
      | t' => String c t'
      end
  end.

Definition strip (s : string) : string := rstrip (lstrip s).

Fixpoint startswith (s p : string) : bool :=
  match p, s with
  | EmptyString, _ => true
  | String _ _, EmptyString => false
  | String a p', String b s' => Ascii.eqb a b && startswith s' p'
  end.

Fixpoint endswith (s suf : string) : bool :=
  String.eqb s suf
  || match s with
     | EmptyString => false
     | String _ t => endswith t suf
     end.

(** [sub in s] *)
Fixpoint contains (sub s : string) : bool :=
  startswith s sub
  || match s with
     | EmptyString => false
     | String _ t => contains sub t
     end.

Fixpoint take (n : nat) (s : string) : string :=
  match n, s with
  | S k, String c t => String c (take k t)
  | _, _ => EmptyString
  end.

Fixpoint drop (n : nat) (s : string) : string :=
  match n, s with
  | S k, String _ t => drop k t
  | _, _ => s
  end.

(** All but the last character: [s[:-1]]. *)
Fixpoint drop_last (s : string) : string :=
  match s with
  | EmptyString => EmptyString
  | String _ EmptyString => EmptyString
  | String c t => String c (drop_last t)
  end.

(** [s.replace(old, new)] for a non-empty [old]: the occurrences are taken
    from the left and do not overlap; [skip] counts the characters of the
    occurrence just replaced that are still to be passed over. *)
Fixpoint replace_scan (old new : string) (skip : nat) (s : string) : string :=
  match s with
  | EmptyString => EmptyString
  | String c t =>
      match skip with
      | S k => replace_scan old new k t
      | O =>
          if startswith s old
          then new ++ replace_scan old new (String.length old - 1) t
          else String c (replace_scan old new 0 t)
      end
  end.

Fixpoint intersperse (new s : string) : string :=
  match s with
  | EmptyString => EmptyString
  | String c t => String c (new ++ intersperse new t)
  end.

Definition replace (old new s : string) : string :=
  match old with
  | EmptyString => new ++ intersperse new s
  | String _ _ => replace_scan old new 0 s
  end.

Fixpoint zeros (n : nat) : string :=
  match n with
  | O => EmptyString
  | S k => String "0" (zeros k)
  end.

(** [s.zfill(width)]: a leading sign stays in front of the padding. *)
Definition zfill (width : nat) (s : string) : string :=
  if width <=? String.length s then s
  else
    let fill := width - String.length s in
    match s with
    | String c t =>
        if Ascii.eqb c "+" || Ascii.eqb c "-"
        then String c (zeros fill ++ t)
        else zeros fill ++ s
    | EmptyString => zeros fill
    end.

(** [sep.join(l)] *)
Fixpoint join (sep : string) (l : list string) : string :=
  match l with
  | [] => EmptyString
  | [x] => x
  | x :: rest => x ++ sep ++ join sep rest
  end.

(** The string with [f] applied to each character. *)
Fixpoint map_chars (f : ascii -> ascii) (s : string) : string :=
  match s with
  | EmptyString => EmptyString
  | String c t => String (f c) (map_chars f t)
  end.

(** [x in (a, b, ...)] for strings *)
Definition mem (x : string) (l : list string) : bool :=
  existsb (String.eqb x) l.

(** [str.lower] on one character: the ASCII capitals and the accented
    capitals 192..222, the multiplication sign 215 apart. *)
Definition lower_char (c : ascii) : ascii :=
  if isupper_ascii c || (between 192 222 c && negb (code c =? 215))
  then ascii_of_nat (code c + 32) else c.

Definition lower (s : string) : string := map_chars lower_char s.

(** [s.split(sep)] for a separator of one character: every occurrence
    splits, and the empty string gives one empty part. *)
Fixpoint split_on (sep : ascii) (s : string) : list string :=
  match s with
  | EmptyString => [EmptyString]
  | String c t =>
      if Ascii.eqb c sep then EmptyString :: split_on sep t
      else match split_on sep t with
           | x :: rest => String c x :: rest
           | [] => [String c EmptyString]
           end
  end.

End PyStr.

(** ** The fragment of Python's [re] that the program uses

    A backtracking matcher in continuation-passing style: alternatives are
    tried from the left, a greedy repetition tries the longest run first and a
    lazy one the shortest, and the first way to reach the end of the pattern
    wins. The program quantifies single characters only, so a repetition
    carries a character class. *)

Module Re.
Import PyStr.

Inductive re : Type :=
| Eps
| Cls (p : ascii -> bool)
| Cat (a b : re)
| Alt (a b : re)
| Rep (p : ascii -> bool) (lo : nat) (hi : option nat) (greedy : bool)
| Grp (i : nat) (a : re)
| Bos
| Eos.

Definition groups := list (nat * string).

Definition may_take (hi : option nat) : bool :=
  match hi with Some O => false | _ => true end.

Section Exec.
Context {A : Type}.

(** [p{lo,hi}] at offset [pos], the rest of the subject being [s]. *)
Fixpoint rep (p : ascii -> bool) (lo : nat) (hi : option nat) (greedy : bool)
    (pos : nat) (s : string) (k : nat -> string -> option A) {struct s}
    : option A :=
  let stop := fun _ : unit => match lo with O => k pos s | S _ => None end in
  let more := fun _ : unit =>
    match s with
    | String c t =>
        if may_take hi && p c
        then rep p (Nat.pred lo) (option_map Nat.pred hi) greedy (S pos) t k
        else None
    | EmptyString => None
    end in
  if greedy
  then match more tt with Some x => Some x | None => stop tt end
  else match stop tt with Some x => Some x | None => more tt end.

Fixpoint exec (r : re) (pos : nat) (s : string) (g : groups)
    (k : nat -> string -> groups -> option A) {struct r} : option A :=
  match r with
  | Eps => k pos s g
  | Cls p =>
      match s with
      | String c t => if p c then k (S pos) t g else None
      | EmptyString => None
      end
  | Cat a b => exec a pos s g (fun pos' s' g' => exec b pos' s' g' k)
  | Alt a b =>
      match exec a pos s g k with
      | Some x => Some x
      | None => exec b pos s g k
      end
  | Rep p lo hi greedy => rep p lo hi greedy pos s (fun pos' s' => k pos' s' g)
  | Grp i a =>
      exec a pos s g
        (fun pos' s' g' => k pos' s' ((i, take (pos' - pos) s) :: g'))
  | Bos => if pos =? 0 then k pos s g else None
  | Eos =>
      (* the end of the subject, or just before a newline that ends it *)
      match s with
      | EmptyString => k pos s g
      | String c EmptyString => if Ascii.eqb c "010" then k pos s g else None
      | _ => None
      end
  end.
End Exec.

(** A match object: its span, [group(0)] and the numbered groups. *)
Record rmatch : Type := mk_rmatch {
  m_start : nat;
  m_end : nat;
  m_text : string;
  m_groups : groups
}.

Fixpoint lookup_group (i : nat) (g : groups) : option string :=
  match g with
  | [] => None
  | (j, v) :: rest => if i =? j then Some v else lookup_group i rest
  end.

(** [m.group(i)] for a group that took part in the match, [m.group()] for 0. *)
Definition group (m : rmatch) (i : nat) : string :=
  match i with
  | O => m_text m
  | S _ => match lookup_group i (m_groups m) with Some v => v | None => "" end
  end.

Definition match_at (r : re) (pos : nat) (s : string) : option rmatch :=
  exec r pos s []
    (fun e _ g => Some (mk_rmatch pos e (take (e - pos) s) g)).

(** [re.match(r, s)] *)
Definition rmatch_ (r : re) (s : string) : option rmatch := match_at r 0 s.

(** [r.fullmatch(s)] *)
Definition fullmatch (r : re) (s : string) : option rmatch :=
  exec r 0 s []
    (fun e s' g =>
       match s' with
       | EmptyString => Some (mk_rmatch 0 e (take e s) g)
       | String _ _ => None
       end).

Fixpoint search_from (r : re) (pos : nat) (s : string) : option rmatch :=
  match match_at r pos s with
  | Some m => Some m
  | None =>
      match s with
      | String _ t => search_from r (S pos) t
      | EmptyString => None
      end
  end.

(** [r.search(s)] *)
Definition search (r : re) (s : string) : option rmatch := search_from r 0 s.

(** [r.finditer(s)]: the matches from the left, none overlapping another;
    [skip] counts the characters of the last match still to be passed over.
    After an empty match the scan moves on by one character (no pattern of
    the program matches the empty string). *)
Fixpoint finditer_from (r : re) (pos skip : nat) (s : string) : list rmatch :=
  match skip with
  | S k =>
      match s with
      | String _ t => finditer_from r (S pos) k t
      | EmptyString => []
      end
  | O =>
      match match_at r pos s with
      | Some m =>
          m :: match s with
               | String _ t => finditer_from r (S pos) (m_end m - pos - 1) t
               | EmptyString => []
               end
      | None =>
          match s with
          | String _ t => finditer_from r (S pos) 0 t
          | EmptyString => []
          end
      end
  end.

Definition finditer (r : re) (s : string) : list rmatch := finditer_from r 0 0 s.

(** Pattern syntax. *)
Definition chr (c : ascii) : re := Cls (Ascii.eqb c).
Definition chr_i (c : ascii) : re := Cls (fun x => Ascii.eqb (fold_case x) (fold_case c)).

Fixpoint lit (s : string) : re :=
  match s with
  | EmptyString => Eps
  | String c EmptyString => chr c
  | String c t => Cat (chr c) (lit t)
  end.

Fixpoint lit_i (s : string) : re :=
  match s with
  | EmptyString => Eps
  | String c EmptyString => chr_i c
  | String c t => Cat (chr_i c) (lit_i t)
  end.

Fixpoint seq (l : list re) : re :=
  match l with
  | [] => Eps
  | [r] => r
  | r :: rest => Cat r (seq rest)
  end.

Definition digit : ascii -> bool := isdecimal_char.                 (* \d *)
Definition space : ascii -> bool := isspace_char.                   (* \s *)
Definition dot : ascii -> bool := fun c => negb (Ascii.eqb c "010"). (* . *)
Definition upper_i : ascii -> bool :=                               (* [A-Z], re.I *)
  fun c => isupper_ascii c || islower_ascii c.
Definition digit_or_comma : ascii -> bool :=                        (* [\d,] *)
  fun c => isdecimal_char c || Ascii.eqb c ",".

Definition exactly (p : ascii -> bool) (n : nat) : re := Rep p n (Some n) true.
Definition opt (p : ascii -> bool) : re := Rep p 0 (Some 1) true.
Definition star (p : ascii -> bool) : re := Rep p 0 None true.
Definition plus (p : ascii -> bool) : re := Rep p 1 None true.
Definition star_lazy (p : ascii -> bool) : re := Rep p 0 None false.

(** [re.findall(r, s)] for a pattern without groups. *)
Definition findall (r : re) (s : string) : list string :=
  map (fun m => group m 0) (finditer r s).


(** What a pattern can match, read off its syntax: [spans r pos s g pos' s' g']
    says that [r] can take the subject from [s] at offset [pos] to its ending
    [s'] at offset [pos'], the groups going from [g] to [g']. *)
Fixpoint spans (r : re) (pos : nat) (s : string) (g : groups)
    (pos' : nat) (s' : string) (g' : groups) : Prop :=
  match r with
  | Eps => pos' = pos /\ s' = s /\ g' = g
  | Cls p => exists c, s = String c s' /\ p c = true /\ pos' = S pos /\ g' = g
  | Cat a b =>
      exists pm sm gm, spans a pos s g pm sm gm /\ spans b pm sm gm pos' s' g'
  | Alt a b => spans a pos s g pos' s' g' \/ spans b pos s g pos' s' g'
  | Rep p lo hi _ =>
      exists w, s = w ++ s' /\ all_chars p w = true /\ lo <= String.length w
                /\ match hi with Some h => String.length w <= h | None => True end
                /\ pos' = pos + String.length w /\ g' = g
  | Grp i a =>
      exists g0, spans a pos s g pos' s' g0 /\ g' = (i, take (pos' - pos) s) :: g0
  | Bos => pos = 0 /\ pos' = pos /\ s' = s /\ g' = g
  | Eos =>
      (s = EmptyString \/ s = String "010" EmptyString)
      /\ pos' = pos /\ s' = s /\ g' = g
  end.

End Re.

(** ** Python's [float] on strings

    The grammar is that of [float(str)]: surrounding whitespace, an optional
    sign, then [inf], [infinity] or [nan] in any case, or a decimal literal
    with an optional exponent, single underscores allowed between digits.
    A finite value is kept as the reduced fraction that the literal denotes. *)

Module PyFloat.
Import PyStr.

Inductive pyfloat : Type :=
| FNan
| FInf (neg : bool)
| FFin (q : Q).

Definition digit_val (c : ascii) : Z := Z.of_nat (code c - 48).

(** A run of decimal digits: the number read so far, the count, the rest. *)
Fixpoint digits (acc : Z) (n : nat) (s : string) : Z * nat * string :=
  match s with
  | String c t =>
      if isdecimal_char c then digits (10 * acc + digit_val c) (S n) t
      else (acc, n, s)
  | EmptyString => (acc, n, s)
  end.

(** A string with a character above 127 is first brought to ASCII: the
    spaces among them become blanks, and the first other one ends the string
    with a question mark. *)
Fixpoint transform (s : string) : string :=
  match s with
  | EmptyString => EmptyString
  | String c t =>
      if code c <? 127 then String c (transform t)
      else if isspace_char c then String " " (transform t)
      else "?"
  end.

Definition to_ascii (s : string) : string :=
  if all_chars (fun c => code c <? 128) s then s else transform s.

(** An underscore must stand between two digits; those that do are removed. *)
Fixpoint strip_underscores (prev : ascii) (s : string) : option string :=
  match s with
  | EmptyString => if Ascii.eqb prev "_" then None else Some EmptyString
  | String c t =>
      if Ascii.eqb c "_"
      then if isdecimal_char prev then strip_underscores c t else None
      else if Ascii.eqb prev "_" && negb (isdecimal_char c) then None
      else option_map (String c) (strip_underscores c t)
  end.

Definition without_underscores (s : string) : option string :=
  if contains "_" s then strip_underscores "000" s else Some s.

Definition c_isspace (c : ascii) : bool := between 9 13 c || (code c =? 32).

Fixpoint c_lstrip (s : string) : string :=
  match s with
  | EmptyString => EmptyString
  | String c t => if c_isspace c then c_lstrip t else s
  end.

Fixpoint c_rstrip (s : string) : string :=
  match s with
  | EmptyString => EmptyString
  | String c t =>
      match c_rstrip t with
      | EmptyString => if c_isspace c then EmptyString else String c EmptyString
      | t' => String c t'
      end
  end.

Definition sign (s : string) : bool * string :=
  match s with
  | String c t =>
      if Ascii.eqb c "-" then (true, t)
      else if Ascii.eqb c "+" then (false, t)
      else (false, s)
  | EmptyString => (false, s)
  end.

(** [p] is lower case; the subject is compared after lowering it. *)
Fixpoint startswith_lower (s p : string) : bool :=
  match p, s with
  | EmptyString, _ => true
  | String _ _, EmptyString => false
  | String a p', String b s' => Ascii.eqb a (fold_case b) && startswith_lower s' p'
  end.

(** The value and what is left of the string after it. *)
Definition parse_inf_or_nan (s : string) : option (pyfloat * string) :=
  let '(neg, t) := sign s in
  if startswith_lower t "inf"
  then
    let t3 := drop 3 t in
    if startswith_lower t3 "inity" then Some (FInf neg, drop 5 t3)
    else Some (FInf neg, t3)
  else if startswith_lower t "nan" then Some (FNan, drop 3 t)
  else None.

(** [m * 10^e] as a reduced fraction. *)
Definition scale10 (m e : Z) : Q :=
  Qred (if (0 <=? e)%Z then Qmake (m * 10 ^ e) 1
        else Qmake m (Z.to_pos (10 ^ (- e)))).

Definition exponent (s : string) : Z * string :=
  match s with
  | String c t =>
      if Ascii.eqb c "e" || Ascii.eqb c "E"
      then
        let '(eneg, t1) := sign t in
        let '(e, n, t2) := digits 0 0 t1 in
        if n =? 0 then (0%Z, s) else ((if eneg then - e else e)%Z, t2)
      else (0%Z, s)
  | EmptyString => (0%Z, s)
  end.

Definition parse_decimal (s : string) : option (pyfloat * string) :=
  let '(neg, t) := sign s in
  let '(ip, n1, t1) := digits 0 0 t in
  let '(m, n2, t2) :=
    match t1 with
    | String c t1' => if Ascii.eqb c "." then digits ip 0 t1' else (ip, 0, t1)
    | EmptyString => (ip, 0, t1)
    end in
  if n1 + n2 =? 0 then None
  else
    let '(e, t3) := exponent t2 in
    Some (FFin (scale10 (if neg then - m else m) (e - Z.of_nat n2)), t3).

Definition strtod (s : string) : option (pyfloat * string) :=
  match parse_inf_or_nan s with
  | Some r => Some r
  | None => parse_decimal s
  end.

(** [float(s)]; [None] stands for [ValueError]. *)
Definition float (s : string) : option pyfloat :=
  match without_underscores (to_ascii s) with
  | None => None
  | Some s1 =>
      match c_rstrip (c_lstrip s1) with
      | EmptyString => None
      | s2 =>
          match strtod s2 with
          | Some (x, EmptyString) => Some x
          | _ => None
          end
      end
  end.

(** [abs(x)] *)
Definition fabs (x : pyfloat) : pyfloat :=
  match x with
  | FNan => FNan
  | FInf _ => FInf false
  | FFin q => FFin (Qabs q)
  end.

(** [x > 0], on the exact value: Python tests the double, which is zero
    for a literal below the smallest double and infinite for one above the
    largest. *)
Definition gt0 (x : pyfloat) : bool :=
  match x with
  | FNan => false
  | FInf neg => negb neg
  | FFin q => (0 <? Qnum q)%Z
  end.

Definition pyfloat_eq_dec (x y : pyfloat) : {x = y} + {x <> y}.
Proof.
  decide equality.
  - apply Bool.bool_dec.
  - destruct q as [a b], q0 as [c d].
    destruct (Z.eq_dec a c) as [->|]; [|right; congruence].
    destruct (Pos.eq_dec b d) as [->|]; [left; reflexivity|right; congruence].
Defined.

End PyFloat.

(** ** scripts/extract_lynx_pdfs.py *)

Module ExtractLynxPdfs.
Import PyStr Re PyFloat.

(** The values the records hold. *)
Inductive pyval : Type :=
| VStr (s : string)
| VFloat (x : pyfloat)
| VFloats (l : list pyfloat).

(** A record is a [dict] with string keys. *)
Definition record : Type := list (string * pyval).

(** [r.get(k, default)] *)
Fixpoint get (r : record) (k : string) (default : pyval) : pyval :=
  match r with
  | [] => default
  | (k', v) :: rest => if String.eqb k k' then v else get rest k default
  end.

(** What pdfplumber hands over: a cell is a string or [None], a row a list
    of cells, a table a list of rows; a page has its tables and its text. *)
Definition cell : Type := option string.
Definition row : Type := list cell.
Definition table : Type := list row.

Record page : Type := mk_page {
  extract_tables : list table;
  extract_text : option string
}.

Definition pdf : Type := list page.

(** Truth value of a string or [None]. *)
Definition truthy (o : option string) : bool :=
  match o with
  | Some s => nonempty s
  | None => false
  end.

(** [str(cell).strip() if cell else ""] *)
Definition clean (c : cell) : string :=
  match c with
  | Some s => if nonempty s then strip s else ""
  | None => ""
  end.

Definition cleaned (r : row) : list string := map clean r.

(** [\d{4}-\d{2}-\d{2}] *)
Definition iso_date : re :=
  seq [exactly digit 4; chr "-"; exactly digit 2; chr "-"; exactly digit 2].

(** [(\d{2})/(\d{2})/(\d{4})] and [(\d{2})\.(\d{2})\.(\d{4})] *)
Definition day_first_date (sep : ascii) : re :=
  seq [Grp 1 (exactly digit 2); chr sep; Grp 2 (exactly digit 2); chr sep;
       Grp 3 (exactly digit 4)].

Definition normalize_date (date_str : string) : string :=
  match rmatch_ (day_first_date "/") date_str with
  | Some m => group m 3 ++ "-" ++ group m 2 ++ "-" ++ group m 1
  | None =>
      match rmatch_ (day_first_date ".") date_str with
      | Some m => group m 3 ++ "-" ++ group m 2 ++ "-" ++ group m 1
      | None => date_str
      end
  end.

(** The reading of the specification, to compare [normalize_date] with: a
    string has the day-first shape when it starts with two digits, the
    separator, two digits, the separator and four digits; its ISO form puts
    the three groups in the order year, month, day. *)
Definition day_first_shape (sep : ascii) (s : string) : bool :=
  all_chars digit (substring 0 2 s) && (String.length (substring 0 2 s) =? 2)
  && String.eqb (String sep "") (substring 2 1 s)
  && all_chars digit (substring 3 2 s) && (String.length (substring 3 2 s) =? 2)
  && String.eqb (String sep "") (substring 5 1 s)
  && all_chars digit (substring 6 4 s) && (String.length (substring 6 4 s) =? 4).

Definition reordered (s : string) : string :=
  substring 6 4 s ++ "-" ++ substring 3 2 s ++ "-" ++ substring 0 2 s.

(** [\d{4}-\d{2}-\d{2}|\d{2}/\d{2}/\d{4}|\d{2}\.\d{2}\.\d{4}] *)
Definition date_pattern : re :=
  Alt iso_date
    (Alt (seq [exactly digit 2; chr "/"; exactly digit 2; chr "/"; exactly digit 4])
         (seq [exactly digit 2; chr "."; exactly digit 2; chr "."; exactly digit 4])).

(** [-?[\d,]+\.?\d*] *)
Definition amount_pattern : re :=
  seq [opt (Ascii.eqb "-"); plus digit_or_comma; opt (Ascii.eqb "."); star digit].

(** The characters of which a string that matches the amount pattern is
    made. *)
Definition numeric_char (c : ascii) : bool :=
  isdecimal_char c || Ascii.eqb c "-" || Ascii.eqb c "," || Ascii.eqb c ".".

(** One turn of the loop over the cells: the date and the amount found so
    far, each set once. *)
Definition scan_cell (st : option string * option string) (c : string)
    : option string * option string :=
  let '(date_str, amount_str) := st in
  let date_str' :=
    if negb (truthy date_str)
    then match search date_pattern c with
         | Some m => Some (group m 0)
         | None => date_str
         end
    else date_str in
  let amount_str' :=
    if negb (truthy amount_str)
    then match fullmatch amount_pattern (replace "," "" c) with
         | Some _ => Some (replace "," "" c)
         | None => amount_str
         end
    else amount_str in
  (date_str', amount_str').

Definition scan_cells (cells : list string) : option string * option string :=
  fold_left scan_cell cells (None, None).

Definition looks_like_symbol (c : string) : bool :=
  nonempty c && (String.length c <=? 10) && isalpha c.

Definition parse_dividend_row (r : row) : option record :=
  let cells := cleaned r in
  let '(date_str, amount_str) := scan_cells cells in
  let symbol := find looks_like_symbol cells in
  match date_str, amount_str with
  | Some d, Some a =>
      if nonempty d && nonempty a
      then match float a with
           | Some amount =>
               if gt0 (fabs amount)
               then Some [("symbol", VStr (if truthy symbol
                                           then match symbol with Some s => s | None => "" end
                                           else "UNKNOWN"));
                          ("date", VStr (normalize_date d));
                          ("amount", VFloat (fabs amount));
                          ("raw_amount", VFloat amount);
                          ("source", VStr "lynx_pdf")]
               else None
           | None => None
           end
      else None
  | _, _ => None
  end.

(** The pattern of the text path, compiled with [re.IGNORECASE]: group 1
    [[A-Z]{1,10}], [\s+], group 2 [\d{4}-\d{2}-\d{2}], [\s+], a lazy [.*?],
    [dividend|payment], a lazy [.*?], group 3 [[\d,]+\.?\d*], [\s+],
    group 4 [[A-Z]{3}]. *)
Definition text_pattern : re :=
  seq [Grp 1 (Rep upper_i 1 (Some 10) true); plus space;
       Grp 2 iso_date; plus space;
       star_lazy dot; Alt (lit_i "dividend") (lit_i "payment"); star_lazy dot;
       Grp 3 (seq [plus digit_or_comma; opt (Ascii.eqb "."); star digit]);
       plus space; Grp 4 (exactly upper_i 3)].

Definition text_record (m : rmatch) : list record :=
  match float (replace "," "" (group m 3)) with
  | Some amount =>
      if gt0 amount
      then [[("symbol", VStr (group m 1));
             ("date", VStr (group m 2));
             ("amount", VFloat amount);
             ("currency", VStr (group m 4));
             ("source", VStr "lynx_pdf_text")]]
      else []
  | None => []
  end.

Definition parse_dividend_text (text : string) : list record :=
  flat_map text_record (finditer text_pattern text).

Definition opt_list {A : Type} (o : option A) : list A :=
  match o with
  | Some x => [x]
  | None => []
  end.

(** The rows of one table that the dividend extraction hands to the row
    parser, and the records they give. *)
Definition row_records (r : row) : list record :=
  if negb (Nat.eqb (List.length r) 0) && (5 <=? List.length r)
  then opt_list (parse_dividend_row r)
  else [].

Definition table_records (t : table) : list record := flat_map row_records t.

Definition text_records (text : option string) : list record :=
  match text with
  | Some s => if nonempty s then parse_dividend_text s else []
  | None => []
  end.

Definition page_records (p : page) : list record :=
  (flat_map table_records (extract_tables p) ++ text_records (extract_text p))%list.

Definition key : Type := pyval * pyval * pyval.

Definition pyval_eq_dec (x y : pyval) : {x = y} + {x <> y}.
Proof.
  decide equality.
  - apply string_dec.
  - apply pyfloat_eq_dec.
  - apply (list_eq_dec pyfloat_eq_dec).
Defined.

Definition key_eq_dec (x y : key) : {x = y} + {x <> y}.
Proof.
  repeat decide equality; apply pyval_eq_dec.
Defined.

Definition key_of (r : record) : key :=
  (get r "symbol" (VStr ""), get r "date" (VStr ""), get r "amount" (VStr "")).

(** One turn of the deduplication loop on the pair [(seen, unique)]. *)
Definition dedup_step (st : list key * list record) (r : record)
    : list key * list record :=
  let '(seen, unique) := st in
  if in_dec key_eq_dec (key_of r) seen then st
  else (key_of r :: seen, (unique ++ [r])%list).

Definition dedup (records : list record) : list record :=
  snd (fold_left dedup_step records ([], [])).

(** The reading of the specification, to compare [dedup] with: going down
    the list, a record is dropped when its triple was met before. *)
Fixpoint first_occurrences (met : list key) (l : list record) : list record :=
  match l with
  | [] => []
  | r :: rest =>
      if in_dec key_eq_dec (key_of r) met then first_occurrences met rest
      else r :: first_occurrences (key_of r :: met) rest
  end.

Definition extract_dividends_pdf (d : pdf) : list record :=
  dedup (flat_map page_records d).

(** [-?[\d,]+\.?\d+] *)
Definition amount_pattern_9a : re :=
  seq [opt (Ascii.eqb "-"); plus digit_or_comma; opt (Ascii.eqb "."); plus digit].

Definition cell_dates (c : string) : list string :=
  map (fun m => group m 0) (finditer iso_date c).

Definition cell_amounts (c : string) : list pyfloat :=
  flat_map (fun m => opt_list (float (group m 0)))
           (finditer amount_pattern_9a (replace "," "" c)).

Definition parse_9a_trade_row (r : row) : option record :=
  if Nat.eqb (List.length r) 0 || (List.length r <? 4) then None
  else
    let cells := cleaned r in
    let dates := flat_map cell_dates cells in
    let amounts := flat_map cell_amounts cells in
    if (1 <=? List.length dates) && (1 <=? List.length amounts)
    then
      match cells, dates with
      | c0 :: _, d0 :: _ =>
          let symbol :=
            if nonempty c0 && (String.length c0 <=? 15) then Some c0 else None in
          match symbol with
          | Some s =>
              if nonempty s
              then Some [("symbol", VStr s);
                         ("date", VStr d0);
                         ("amounts", VFloats amounts);
                         ("source", VStr "9a_pdf")]
              else None
          | None => None
          end
      | _, _ => None
      end
    else None.

Definition extract_9a_trades (d : pdf) : list record :=
  flat_map (fun p => flat_map (flat_map (fun r => opt_list (parse_9a_trade_row r)))
                              (extract_tables p)) d.

(** The amounts of a cost row: the cells that [float] accepts once commas
    and blanks are removed. *)
Definition cost_amounts (cells : list string) : list pyfloat :=
  flat_map (fun c => opt_list (float (replace " " "" (replace "," "" c)))) cells.

(** The reading of the specification, to compare the description with:
    the cells that [float] refuses. *)
Definition parses (c : string) : bool :=
  match float (replace " " "" (replace "," "" c)) with
  | Some _ => true
  | None => false
  end.

Definition failed_cells (cells : list string) : list string :=
  filter (fun c => negb (parses c)) cells.

Definition cost_description (cells : list string) : string :=
  join " | " (filter nonempty cells).

Definition cost_row_records (r : row) : list record :=
  if negb (Nat.eqb (List.length r) 0) && (2 <=? List.length r)
  then
    let cells := cleaned r in
    let amounts := cost_amounts cells in
    match amounts with
    | [] => []
    | _ :: _ =>
        [[("description", VStr (cost_description cells));
          ("amounts", VFloats amounts);
          ("source", VStr "cost_pdf")]]
    end
  else [].

Definition extract_costs (d : pdf) : list record :=
  flat_map (fun p => flat_map (flat_map cost_row_records) (extract_tables p)) d.

(** A string of the form YYYY-MM-DD and nothing more. *)
Definition iso_shape (s : string) : bool :=
  (String.length s =? 10)
  && all_chars digit (substring 0 4 s) && String.eqb (substring 4 1 s) "-"
  && all_chars digit (substring 5 2 s) && String.eqb (substring 7 1 s) "-"
  && all_chars digit (substring 8 2 s).

(** A line of a tax summary: the amounts stay strings. *)
Record summary : Type := mk_summary {
  s_line : string;
  s_amounts : list string;
  s_source : string
}.

(** ["total", "yhteensä", "summa", "net"]; the a-umlaut is the character 228. *)
Definition summary_keywords : list string :=
  ["total"; "yhteens" ++ String "228" ""; "summa"; "net"].

(** [[\d,]+\.?\d*] *)
Definition number_pattern : re :=
  seq [plus digit_or_comma; opt (Ascii.eqb "."); star digit].

Definition line_summary (line : string) : list summary :=
  if existsb (fun kw => contains kw (lower line)) summary_keywords
  then match findall number_pattern line with
       | [] => []
       | amounts => [mk_summary (strip line) amounts "16b_pdf"]
       end
  else [].

Definition page_summaries (p : page) : list summary :=
  match extract_text p with
  | Some text => if nonempty text then flat_map line_summary (split_on "010" text) else []
  | None => []
  end.

(** [for page in pdf.pages[:5]] *)
Definition extract_16b_summary (d : pdf) : list summary :=
  flat_map page_summaries (firstn 5 d).

(** One PDF of the input directory: its name, its size in bytes, and what
    pdfplumber reads from it. *)
Record pdf_file : Type := mk_pdf_file {
  pdf_name : string;
  st_size : N;
  contents : pdf
}.

(** The four lists that [main] fills. *)
Record results : Type := mk_results {
  all_dividends : list record;
  all_9a_trades : list record;
  all_16b_summaries : list summary;
  all_costs : list record
}.

(** [st_size / (1024 * 1024) > limit]: the division by a power of two loses
    nothing, so the test is one on the number of bytes. *)
Definition over_mb (limit size : N) : bool := (limit * (1024 * 1024) <? size)%N.

(** The body of the loop of [main] over the sorted PDF files. *)
Definition main_step (acc : results) (f : pdf_file) : results :=
  let name := lower (pdf_name f) in
  if contains "dividend" name
  then mk_results (all_dividends acc ++ extract_dividends_pdf (contents f))%list
                  (all_9a_trades acc) (all_16b_summaries acc) (all_costs acc)
  else if contains "9a" name || contains "9a_" name
  then if over_mb 50 (st_size f) then acc
       else mk_results (all_dividends acc)
                       (all_9a_trades acc ++ extract_9a_trades (contents f))%list
                       (all_16b_summaries acc) (all_costs acc)
  else if contains "16b" name
  then if over_mb 30 (st_size f) then acc
       else mk_results (all_dividends acc) (all_9a_trades acc)
                       (all_16b_summaries acc ++ extract_16b_summary (contents f))%list
                       (all_costs acc)
  else if contains "kustannus" name || contains "cost" name
  then mk_results (all_dividends acc) (all_9a_trades acc) (all_16b_summaries acc)
                  (all_costs acc ++ extract_costs (contents f))%list
  else acc.

Definition main_results (files : list pdf_file) : results :=
  fold_left main_step files (mk_results [] [] [] []).

(** The files that [main] writes at the end: one per non-empty list. *)
Inductive written : Type :=
| RecordsFile (filename : string) (l : list record)
| SummariesFile (filename : string) (l : list summary).

Definition main_written (files : list pdf_file) : list written :=
  let r := main_results files in
  ((match all_dividends r with [] => [] | l => [RecordsFile "dividends.json" l] end)
   ++ (match all_9a_trades r with [] => [] | l => [RecordsFile "9a_trades.json" l] end)
   ++ (match all_16b_summaries r with [] => [] | l => [SummariesFile "16b_summaries.json" l] end)
   ++ (match all_costs r with [] => [] | l => [RecordsFile "costs.json" l] end))%list.

End ExtractLynxPdfs.

(** ** tools/yfinance_fetch.py *)

Module YfinanceFetch.
Import PyStr Re.

(** IB exchange -> Yahoo Finance suffix *)
Definition EXCHANGE_SUFFIX : list (string * string) :=
  [("HEX", ".HE"); ("SFB", ".ST"); ("OSE", ".OL"); ("TSE", ".TO");
   ("TSEJ", ".T"); ("SBF", ".PA"); ("FWB", ".F"); ("FWB2", ".F");
   ("IBIS", ".DE"); ("LSE", ".L"); ("SEHK", ".HK"); ("NYSE", "");
   ("NASDAQ", ""); ("ARCA", ""); ("AMEX", "")].

(** (ib_symbol, exchange) -> yahoo_symbol *)
Definition SYMBOL_OVERRIDES : list ((string * string) * string) :=
  [(("EQNRo", "OSE"), "EQNR.OL"); (("FROo", "OSE"), "FRO.OL");
   (("NHYo", "OSE"), "NHY.OL"); (("YARo", "OSE"), "YAR.OL");
   (("11", "SEHK"), "0011.HK"); (("669", "SEHK"), "0669.HK");
   (("700", "SEHK"), "0700.HK"); (("916", "SEHK"), "0916.HK");
   (("SGR.UN", "TSE"), "SGR-UN.TO"); (("AD.UN", "TSE"), "AD-UN.TO");
   (("AP.UN", "TSE"), "AP-UN.TO");
   (("RNR PRF", "NYSE"), "RNR-PF"); (("CIM PRA", "NYSE"), "CIM-PA");
   (("CIM PRB", "NYSE"), "CIM-PB");
   (("KEK", "HEX"), "KESKOB.HE"); (("FOT", "HEX"), "FORTUM.HE");
   (("04Q", "HEX"), "NDA-FI.HE"); (("N2S", "HEX"), "MANTA.HE");
   (("RPL", "HEX"), "UPM.HE"); (("OUTA", "HEX"), "OUT1V.HE");
   (("OFK", "HEX"), "ORNBV.HE"); (("NEF", "HEX"), "NESTE.HE");
   (("TLS", "HEX"), "TELIA1.HE"); (("2A41", "HEX"), "AKTIA.HE");
   (("STEAVh", "HEX"), "STEAV.HE"); (("TOKMAh", "HEX"), "TOKMAN.HE");
   (("TTEB", "HEX"), "TIETO.HE");
   (("RAUA", "FWB"), "RAUTE.HE"); (("TELIA1", "FWB"), "TELIA1.HE");
   (("BEW", "FWB2"), "BEW.F"); (("GKE", "FWB2"), "GKE.F");
   (("CVZ", "FWB2"), "CVZ.F");
   (("GOGL", "NASDAQ"), "GOGL"); (("PTMN", "NASDAQ"), "PTMN")].

(** [d.get(k, default)] *)
Fixpoint dict_get {V : Type} (d : list (string * V)) (k : string) (default : V) : V :=
  match d with
  | [] => default
  | (k', v) :: rest => if String.eqb k k' then v else dict_get rest k default
  end.

Definition key_eqb (a b : string * string) : bool :=
  String.eqb (fst a) (fst b) && String.eqb (snd a) (snd b).

(** [d[k]] for [k in d], [None] otherwise; the keys are pairs of strings. *)
Fixpoint overrides_get (d : list ((string * string) * string)) (k : string * string)
    : option string :=
  match d with
  | [] => None
  | (k', v) :: rest => if key_eqb k k' then Some v else overrides_get rest k
  end.

(** [s for s in EXCHANGE_SUFFIX.values() if s] *)
Definition known_suffixes : list string := filter nonempty (map snd EXCHANGE_SUFFIX).

(** [^(.+)-PR([A-Z])$] *)
Definition preferred_share : re :=
  seq [Bos; Grp 1 (plus dot); lit "-PR"; Grp 2 (Cls isupper_ascii); Eos].

(** The rewrite steps of [get_yahoo_symbol], from the replacement of the
    spaces to the preferred-share rule. *)
Definition rewritten (ib_symbol exchange : string) : string :=
  let symbol := replace " " "-" ib_symbol in
  let symbol :=
    if String.eqb exchange "OSE" && endswith symbol "o" && (1 <? String.length symbol)
    then drop_last symbol else symbol in
  let symbol :=
    if String.eqb exchange "HEX" && endswith symbol "h" && (1 <? String.length symbol)
    then drop_last symbol else symbol in
  let symbol :=
    if String.eqb exchange "SEHK" && isdigit symbol
    then zfill 4 symbol else symbol in
  let symbol :=
    if String.eqb exchange "TSE" && contains ".UN" symbol
    then replace ".UN" "-UN" symbol else symbol in
  let symbol :=
    if mem exchange ["NYSE"; "NASDAQ"; "AMEX"; "ARCA"]
    then match rmatch_ preferred_share symbol with
         | Some m => group m 1 ++ "-P" ++ group m 2
         | None => symbol
         end
    else symbol in
  symbol.

(** The path taken when no override applies. *)
Definition by_rules (ib_symbol exchange : string) : string :=
  let suffix := dict_get EXCHANGE_SUFFIX exchange "" in
  let symbol := rewritten ib_symbol exchange in
  if contains "." symbol && existsb (endswith symbol) known_suffixes
  then symbol
  else symbol ++ suffix.

Definition get_yahoo_symbol (ib_symbol exchange : string) : string :=
  match overrides_get SYMBOL_OVERRIDES (ib_symbol, exchange) with
  | Some v => v
  | None => by_rules ib_symbol exchange
  end.

(** Calls that may raise. *)
Inductive result (A : Type) : Type :=
| Ok (a : A)
| Raise (msg : string).
Arguments Ok {A} a.
Arguments Raise {A} msg.

Definition bind {A B : Type} (m : result A) (f : A -> result B) : result B :=
  match m with
  | Ok a => f a
  | Raise e => Raise e
  end.

Notation "x <- m ;; k" := (bind m (fun x => k))
  (at level 61, m at next level, right associativity).

Fixpoint mapM {A B : Type} (f : A -> result B) (l : list A) : result (list B) :=
  match l with
  | [] => Ok []
  | a :: rest => b <- f a ;; bs <- mapM f rest ;; Ok (b :: bs)
  end.

(** [try: ... except Exception: return None] around a body that returns a
    value or [None]. *)
Definition or_none {A : Type} (body : result (option A)) : option A :=
  match body with
  | Ok v => v
  | Raise _ => None
  end.

Section Fetch.

(** The numbers of the provider, with [round(float(x), n)] and [int(x)], and
    the values of the [info] dictionary, with their truth value. *)
Context {num infoval : Type}.
Variable round : num -> nat -> num.
Variable int : num -> result Z.
Variable truth : infoval -> bool.
Variable str : string -> infoval.

Record bar : Type := mk_bar {
  bar_date : string;
  bar_open : num;
  bar_high : num;
  bar_low : num;
  bar_close : num;
  bar_volume : num
}.

(** What [yf.Ticker(symbol)] answers: [.dividends] is [None] or a series of
    dated amounts, [.history(period, repair=True)] is [None] or a frame of
    bars, [.info] is a dictionary; each call may raise. *)
Record provider : Type := mk_provider {
  dividends : string -> result (option (list (string * num)));
  history : string -> string -> result (option (list bar));
  info : string -> result (list (string * infoval))
}.

Record dividend_record : Type := mk_dividend_record {
  d_symbol : string;
  d_yahoo_symbol : string;
  d_exchange : string;
  d_isin : option string;
  d_ex_date : string;
  d_amount : num;
  d_currency : infoval
}.

Record history_record : Type := mk_history_record {
  h_symbol : string;
  h_yahoo_symbol : string;
  h_date : string;
  h_open : num;
  h_high : num;
  h_low : num;
  h_close : num;
  h_volume : Z
}.

Record profile_record : Type := mk_profile_record {
  p_symbol : string;
  p_yahoo_symbol : string;
  p_exchange : string;
  p_isin : option string;
  p_name : option infoval;
  p_sector : option infoval;
  p_industry : option infoval;
  p_country : option infoval;
  p_currency : option infoval;
  p_market_cap : option infoval;
  p_dividend_rate : option infoval;
  p_dividend_yield : option infoval;
  p_ex_dividend_date : option infoval;
  p_payout_ratio : option infoval;
  p_trailing_pe : option infoval;
  p_forward_pe : option infoval;
  p_price : option infoval;
  p_fifty_two_week_high : option infoval;
  p_fifty_two_week_low : option infoval
}.

(** [d.get(k)] *)
Fixpoint info_get (d : list (string * infoval)) (k : string) : option infoval :=
  match d with
  | [] => None
  | (k', v) :: rest => if String.eqb k k' then Some v else info_get rest k
  end.

(** [a or b] *)
Definition or_else (a b : option infoval) : option infoval :=
  match a with
  | Some v => if truth v then a else b
  | None => b
  end.

Variable P : provider.

Definition fetch_dividends (yahoo_symbol ib_symbol exchange : string)
    (isin : option string) : option (list dividend_record) :=
  or_none (
    divs <- dividends P yahoo_symbol ;;
    match divs with
    | None => Ok None
    | Some [] => Ok None
    | Some items =>
        records <- mapM (fun '(date, amount) =>
                           i <- info P yahoo_symbol ;;
                           Ok (mk_dividend_record ib_symbol yahoo_symbol exchange isin
                                 date (round amount 6)
                                 (match info_get i "currency" with
                                  | Some c => c
                                  | None => str "USD"
                                  end))) items ;;
        Ok (Some records)
    end).

Definition fetch_history (yahoo_symbol ib_symbol exchange period : string)
    : option (list history_record) :=
  or_none (
    hist <- history P yahoo_symbol period ;;
    match hist with
    | None => Ok None
    | Some [] => Ok None
    | Some rows =>
        records <- mapM (fun b =>
                           v <- int (bar_volume b) ;;
                           Ok (mk_history_record ib_symbol yahoo_symbol (bar_date b)
                                 (round (bar_open b) 4) (round (bar_high b) 4)
                                 (round (bar_low b) 4) (round (bar_close b) 4) v)) rows ;;
        Ok (Some records)
    end).

Definition fetch_profile (yahoo_symbol ib_symbol exchange : string)
    (isin : option string) : option profile_record :=
  or_none (
    i <- info P yahoo_symbol ;;
    match i with
    | [] => Ok None
    | _ :: _ =>
        Ok (Some (mk_profile_record ib_symbol yahoo_symbol exchange isin
                    (or_else (info_get i "longName") (info_get i "shortName"))
                    (info_get i "sector") (info_get i "industry")
                    (info_get i "country") (info_get i "currency")
                    (info_get i "marketCap") (info_get i "dividendRate")
                    (info_get i "dividendYield") (info_get i "exDividendDate")
                    (info_get i "payoutRatio") (info_get i "trailingPE")
                    (info_get i "forwardPE")
                    (or_else (info_get i "currentPrice") (info_get i "regularMarketPrice"))
                    (info_get i "fiftyTwoWeekHigh") (info_get i "fiftyTwoWeekLow")))
    end).

(** What a command does, in order: the requests to the provider, each with
    the symbol it is made for, and the files written by [save_json]. *)
Inductive kind : Type := Dividends | History | Profile.

Inductive payload : Type :=
| DividendsJson (l : list dividend_record)
| HistoryJson (l : list history_record)
| ProfileJson (p : profile_record).

Inductive event : Type :=
| Request (k : kind) (yahoo_symbol : string)
| Saved (output_dir filename : string) (data : payload).

(** A row of the holdings store, as [get_all_symbols_from_db] returns it. *)
Record entry : Type := mk_entry {
  e_symbol : string;
  e_exchange : string;
  e_isin : option string
}.

Definition save_dividends (yahoo : string) (records : option (list dividend_record))
    : list event :=
  match records with
  | Some (r :: rs) => [Saved "dividends" (replace "/" "_" yahoo) (DividendsJson (r :: rs))]
  | _ => []
  end.

(** The body of the loop of [cmd_dividends] over the holdings. *)
Definition dividends_of_entry (e : entry) : list event :=
  let yahoo := get_yahoo_symbol (e_symbol e) (e_exchange e) in
  Request Dividends yahoo
    :: save_dividends yahoo (fetch_dividends yahoo (e_symbol e) (e_exchange e) (e_isin e)).

(** [args.symbol in ("--all", "all", None)] *)
Definition wants_all (symbol : option string) : bool :=
  match symbol with
  | None => true
  | Some s => String.eqb s "--all" || String.eqb s "all"
  end.

Definition cmd_dividends (db : list entry) (symbol : option string) : list event :=
  if wants_all symbol
  then match db with
       | [] => []
       | _ :: _ => flat_map dividends_of_entry db
       end
  else
    let yahoo := match symbol with Some s => s | None => "" end in
    Request Dividends yahoo :: save_dividends yahoo (fetch_dividends yahoo yahoo "" None).

Definition cmd_history (symbol : string) : list event :=
  let yahoo := symbol in
  Request History yahoo
    :: match fetch_history yahoo yahoo "" "max" with
       | Some (r :: rs) => [Saved "history" (replace "/" "_" yahoo) (HistoryJson (r :: rs))]
       | _ => []
       end.

Definition cmd_profile (symbol : string) : list event :=
  let yahoo := symbol in
  Request Profile yahoo
    :: match fetch_profile yahoo yahoo "" None with
       | Some p => [Saved "profiles" (replace "/" "_" yahoo) (ProfileJson p)]
       | None => []
       end.

(** The requests among the events, and the files written. *)
Definition requests (l : list event) : list (kind * string) :=
  flat_map (fun ev => match ev with
                      | Request k y => [(k, y)]
                      | Saved _ _ _ => []
                      end) l.

Definition saved (l : list event) : list event :=
  filter (fun ev => match ev with
                    | Request _ _ => false
                    | Saved _ _ _ => true
                    end) l.

End Fetch.

Definition raises {A : Type} (r : result A) : Prop := exists msg, r = Raise msg.

(** The provider raises, or has no data: [None], or an empty series. *)
Definition no_data {A : Type} (r : result (option (list A))) : Prop :=
  raises r \/ r = Ok None \/ r = Ok (Some []).

(** The lines that the holdings query prints, read back by
    [get_all_symbols_from_db]: symbol, exchange and ISIN between tabs. *)
Definition entry_of_line (line : string) : list entry :=
  if contains (String "009" "") line && negb (startswith line "[")
  then
    let parts := split_on "009" line in
    if 2 <=? List.length parts
    then [mk_entry (nth 0 parts "") (nth 1 parts "")
                   (if 2 <? List.length parts then Some (nth 2 parts "") else None)]
    else []
  else [].

Definition symbols_of_stdout (stdout : string) : list entry :=
  flat_map entry_of_line (split_on "010" (strip stdout)).

(** [run] is what [subprocess.run] gives: the standard output, or an
    exception, which is printed and turned into no symbols. *)
Definition get_all_symbols_from_db (run : result string) : list entry :=
  match run with
  | Ok stdout => symbols_of_stdout stdout
  | Raise _ => []
  end.

End YfinanceFetch.

(** ** Sample inputs *)

Module Samples.
Import YfinanceFetch.
Local Open Scope Z_scope.

(** Providers over integers and strings: one that is down, one that knows
    one dividend and one bar of KESKOB.HE and nothing else. *)
Definition round_id (x : Z) (_ : nat) : Z := x.
Definition int_id (x : Z) : result Z := Ok x.
Definition truth_str (v : string) : bool := PyStr.nonempty v.
Definition str_id (s : string) : string := s.

Definition provider_down : @provider Z string :=
  mk_provider (fun _ => Raise "timeout") (fun _ _ => Raise "timeout")
              (fun _ => Raise "timeout").

Definition provider_kesko : @provider Z string :=
  mk_provider
    (fun y => if String.eqb y "KESKOB.HE" then Ok (Some [("2024-04-02", 1%Z)])
              else Ok None)
    (fun y _ => if String.eqb y "KESKOB.HE"
                then Ok (Some [mk_bar "2024-04-02" 17%Z 18%Z 16%Z 17%Z 1000%Z])
                else Ok None)
    (fun y => if String.eqb y "KESKOB.HE" then Ok [("currency", "EUR")]
              else Ok []).

Definition holdings : list entry :=
  [mk_entry "KEK" "HEX" None; mk_entry "NOKIA" "HEX" None].

(** A page whose table row and whose text give the same dividend. *)
Definition aapl_row : ExtractLynxPdfs.row :=
  [Some "AAPL"; Some "2024-01-15"; Some "Dividend"; Some "1.50"; Some "USD"].

Definition aapl_page : ExtractLynxPdfs.page :=
  ExtractLynxPdfs.mk_page [[aapl_row]] (Some "AAPL 2024-01-15 Cash Dividend 1.50 USD").

Definition aapl_from_table : ExtractLynxPdfs.record :=
  [("symbol", ExtractLynxPdfs.VStr "AAPL"); ("date", ExtractLynxPdfs.VStr "2024-01-15");
   ("amount", ExtractLynxPdfs.VFloat (PyFloat.FFin (PyFloat.scale10 15 (-1))));
   ("raw_amount", ExtractLynxPdfs.VFloat (PyFloat.FFin (PyFloat.scale10 15 (-1))));
   ("source", ExtractLynxPdfs.VStr "lynx_pdf")].

Definition aapl_from_text : ExtractLynxPdfs.record :=
  [("symbol", ExtractLynxPdfs.VStr "AAPL"); ("date", ExtractLynxPdfs.VStr "2024-01-15");
   ("amount", ExtractLynxPdfs.VFloat (PyFloat.FFin (PyFloat.scale10 15 (-1))));
   ("currency", ExtractLynxPdfs.VStr "USD");
   ("source", ExtractLynxPdfs.VStr "lynx_pdf_text")].

(** A cost row with a label and a number, and rows for the tax report:
    one whose first cell has sixteen characters, one without any cell that
    looks like a symbol. *)
Definition fee_row : ExtractLynxPdfs.row := [Some "Fee"; Some "1.50"].

Definition long_name_row : ExtractLynxPdfs.row :=
  [Some "ABCDEFGHIJKLMNOP"; Some "2024-01-15"; Some "12.50"; Some "USD1"].

Definition trade_row : ExtractLynxPdfs.row :=
  [Some "AAPL"; Some "2024-01-15"; Some "12.50"; None].

Definition nameless_row : ExtractLynxPdfs.row :=
  [Some "ABCDEFGHIJKLMNOP"; Some "2024-01-15"; Some "12.50"; Some "1"; Some "2"].

(** A row of four cells with a symbol, a date and an amount. *)
Definition short_row : ExtractLynxPdfs.row :=
  [Some "AAPL"; Some "2024-01-15"; Some "1.50"; Some "USD"].

End Samples.

(** * Properties *)

(** ** Facts about the string functions *)

Module PyStrFacts.
Import PyStr.

Lemma endswith_refl : forall s, endswith s s = true.
Proof.
  intros s. destruct s; simpl; [reflexivity|].
  rewrite Ascii.eqb_refl, String.eqb_refl. reflexivity.
Qed.

Lemma endswith_cons : forall c s suf,
  endswith s suf = true -> endswith (String c s) suf = true.
Proof.
  intros c s suf H. cbn [endswith]. rewrite H. apply orb_true_r.
Qed.

(** Two endings of one string: one of them ends the other. *)
Lemma endswith_both : forall s a b,
  endswith s a = true -> endswith s b = true ->
  endswith a b = true \/ endswith b a = true.
Proof.
  induction s as [|c t IH]; intros a b Ha Hb.
  - cbn [endswith] in Ha, Hb. rewrite orb_false_r in Ha, Hb.
    apply String.eqb_eq in Ha. apply String.eqb_eq in Hb. subst.
    left. reflexivity.
  - cbn [endswith] in Ha, Hb.
    apply orb_true_iff in Ha. apply orb_true_iff in Hb.
    destruct Ha as [Ha|Ha].
    + apply String.eqb_eq in Ha. subst a. left.
      cbn [endswith]. apply orb_true_iff. exact Hb.
    + destruct Hb as [Hb|Hb].
      * apply String.eqb_eq in Hb. subst b. right.
        cbn [endswith]. rewrite Ha. apply orb_true_r.
      * eauto.
Qed.

Lemma startswith_contains : forall s p, startswith s p = true -> contains p s = true.
Proof.
  intros s p H. destruct s; cbn [contains]; rewrite H; reflexivity.
Qed.

(** A string contains whatever its ending starts with. *)
Lemma endswith_contains : forall s suf p,
  endswith s suf = true -> startswith suf p = true -> contains p s = true.
Proof.
  induction s as [|c t IH]; intros suf p Hs Hp.
  - cbn [endswith] in Hs. rewrite orb_false_r in Hs.
    apply String.eqb_eq in Hs. subst suf. now apply startswith_contains.
  - cbn [endswith] in Hs. apply orb_true_iff in Hs. destruct Hs as [Hs|Hs].
    + apply String.eqb_eq in Hs. subst suf. now apply startswith_contains.
    + cbn [contains]. rewrite (IH _ _ Hs Hp). apply orb_true_r.
Qed.

Lemma all_chars_endswith : forall p s suf,
  all_chars p s = true -> endswith s suf = true -> all_chars p suf = true.
Proof.
  induction s as [|c t IH]; intros suf Hall Hs.
  - cbn [endswith] in Hs. rewrite orb_false_r in Hs.
    apply String.eqb_eq in Hs. now subst.
  - cbn [endswith] in Hs. apply orb_true_iff in Hs. destruct Hs as [Hs|Hs].
    + apply String.eqb_eq in Hs. now subst.
    + cbn [all_chars] in Hall. apply andb_true_iff in Hall. now apply IH.
Qed.

Lemma startswith_nil : forall s, startswith s "" = true.
Proof. destruct s; reflexivity. Qed.

(** Replacing one character by one character is a map over the string. *)
Lemma replace_char_map : forall a b s,
  replace (String a "") (String b "") s
  = map_chars (fun c => if Ascii.eqb a c then b else c) s.
Proof.
  intros a b s. unfold replace.
  induction s as [|c t IH]; [reflexivity|].
  cbn [replace_scan startswith String.length Nat.sub map_chars].
  rewrite startswith_nil, andb_true_r.
  destruct (Ascii.eqb a c); cbn [append]; now rewrite IH.
Qed.

Lemma all_chars_app : forall p a b,
  all_chars p (a ++ b) = all_chars p a && all_chars p b.
Proof.
  intros p. induction a as [|c t IH]; intros b; [reflexivity|].
  cbn [append all_chars]. rewrite IH. apply andb_assoc.
Qed.

Lemma all_chars_weaken : forall (p q : ascii -> bool) s,
  (forall c, p c = true -> q c = true) ->
  all_chars p s = true -> all_chars q s = true.
Proof.
  intros p q s Hpq. induction s as [|c t IH]; intros H; [reflexivity|].
  cbn [all_chars] in *. apply andb_true_iff in H. destruct H as [Hc Ht].
  rewrite (Hpq _ Hc), (IH Ht). reflexivity.
Qed.

Lemma endswith_map_chars : forall f s suf,
  endswith s suf = true -> endswith (map_chars f s) (map_chars f suf) = true.
Proof.
  induction s as [|c t IH]; intros suf H.
  - cbn [endswith] in H. rewrite orb_false_r in H.
    apply String.eqb_eq in H. subst. reflexivity.
  - cbn [endswith] in H. apply orb_true_iff in H. destruct H as [H|H].
    + apply String.eqb_eq in H. subst. apply endswith_refl.
    + cbn [map_chars]. apply endswith_cons. now apply IH.
Qed.

End PyStrFacts.

(** ** Facts about the matcher *)

Module ReFacts.
Import PyStr PyStrFacts Re.

(** A repetition that succeeds hands some ending of the subject to its
    continuation. *)
Lemma rep_some : forall (A : Type) p greedy s lo hi pos (k : nat -> string -> option A) a,
  rep p lo hi greedy pos s k = Some a ->
  exists pos' s', endswith s s' = true /\ k pos' s' = Some a.
Proof.
  intros A p greedy. induction s as [|c t IH]; intros lo hi pos k a H; cbn [rep] in H.
  - exists pos, "". split; [reflexivity|].
    destruct greedy, lo; try discriminate; [exact H|].
    destruct (k pos ""); [exact H|discriminate].
  - assert (Hmore : forall x,
      (if may_take hi && p c
       then rep p (Nat.pred lo) (option_map Nat.pred hi) greedy (S pos) t k
       else None) = Some x ->
      exists pos' s', endswith (String c t) s' = true /\ k pos' s' = Some x).
    { intros x Hx. destruct (may_take hi && p c); [|discriminate].
      destruct (IH _ _ _ _ _ Hx) as (pos' & s' & Ht & Hk).
      exists pos', s'. split; [now apply endswith_cons|exact Hk]. }
    assert (Hstop : forall x,
      match lo with O => k pos (String c t) | S _ => None end = Some x ->
      exists pos' s', endswith (String c t) s' = true /\ k pos' s' = Some x).
    { intros x Hx. destruct lo; [|discriminate].
      exists pos, (String c t). split; [apply endswith_refl|exact Hx]. }
    destruct greedy.
    + destruct (if may_take hi && p c then _ else None) eqn:E.
      * inversion H; subst. now apply Hmore.
      * now apply Hstop.
    + destruct (match lo with O => _ | S _ => None end) eqn:E.
      * inversion H; subst. now apply Hstop.
      * now apply Hmore.
Qed.

(** A repetition that succeeds has split the subject into a run of
    characters of its class, at least [lo] of them, and the rest, which it
    handed to its continuation. *)
Lemma rep_split : forall (A : Type) p greedy s lo hi pos (k : nat -> string -> option A) a,
  rep p lo hi greedy pos s k = Some a ->
  exists w s', s = w ++ s' /\ all_chars p w = true /\ lo <= String.length w
               /\ k (pos + String.length w) s' = Some a.
Proof.
  intros A p greedy. induction s as [|c t IH]; intros lo hi pos k a H; cbn [rep] in H.
  - exists "", "". rewrite Nat.add_0_r.
    destruct lo; [|destruct greedy; discriminate].
    repeat split; [apply Nat.le_refl|].
    destruct greedy; [exact H|]. destruct (k pos ""); [exact H|discriminate].
  - assert (Hmore : forall x,
      (if may_take hi && p c
       then rep p (Nat.pred lo) (option_map Nat.pred hi) greedy (S pos) t k
       else None) = Some x ->
      exists w s', String c t = w ++ s' /\ all_chars p w = true
                   /\ lo <= String.length w
                   /\ k (pos + String.length w) s' = Some x).
    { intros x Hx. destruct (may_take hi && p c) eqn:E; [|discriminate].
      apply andb_true_iff in E. destruct E as [_ Ec].
      destruct (IH _ _ _ _ _ Hx) as (w & s' & -> & Hw & Hlo & Hk).
      exists (String c w), s'. cbn [append all_chars String.length].
      rewrite Ec, Hw, Nat.add_succ_r. repeat split; [lia|exact Hk]. }
    assert (Hstop : forall x,
      match lo with O => k pos (String c t) | S _ => None end = Some x ->
      exists w s', String c t = w ++ s' /\ all_chars p w = true
                   /\ lo <= String.length w
                   /\ k (pos + String.length w) s' = Some x).
    { intros x Hx. destruct lo; [|discriminate].
      exists "", (String c t). rewrite Nat.add_0_r.
      repeat split; [apply Nat.le_refl|exact Hx]. }
    destruct greedy.
    + destruct (if may_take hi && p c then _ else None) eqn:E.
      * inversion H; subst. now apply Hmore.
      * now apply Hstop.
    + destruct (match lo with O => _ | S _ => None end) eqn:E.
      * inversion H; subst. now apply Hstop.
      * now apply Hmore.
Qed.

(** A repetition fails when its continuation fails on every ending. *)
Lemma rep_none : forall (A : Type) p greedy s lo hi pos (k : nat -> string -> option A),
  (forall pos' s', endswith s s' = true -> k pos' s' = None) ->
  rep p lo hi greedy pos s k = None.
Proof.
  intros A p greedy s lo hi pos k H.
  destruct (rep p lo hi greedy pos s k) eqn:E; [|reflexivity].
  apply rep_some in E. destruct E as (pos' & s' & Ht & Hk).
  rewrite (H _ _ Ht) in Hk. discriminate.
Qed.

(** [p{n}] takes the next [n] characters when all of them are in [p]. *)
Lemma rep_exactly : forall (A : Type) p n pos s (k : nat -> string -> option A),
  rep p n (Some n) true pos s k
  = if (n <=? String.length s) && all_chars p (take n s)
    then k (pos + n) (drop n s) else None.
Proof.
  intros A p. induction n as [|n IH]; intros pos s k.
  - rewrite Nat.add_0_r. destruct s as [|c t]; cbn [rep]; [reflexivity|].
    reflexivity.
  - destruct s as [|c t]; cbn [rep]; [reflexivity|].
    cbn [may_take option_map Nat.pred String.length take all_chars drop andb].
    destruct (p c) eqn:E.
    + rewrite IH. rewrite Nat.add_succ_r. cbn [Nat.leb andb].
      change (S pos + n) with (S (pos + n)).
      destruct ((n <=? String.length t) && all_chars p (take n t)); [|reflexivity].
      destruct (k (S (pos + n)) (drop n t)); reflexivity.
    + cbn [andb]. rewrite andb_false_r. reflexivity.
Qed.

End ReFacts.

(** ** The symbol translator *)

Module YfinanceFetchSpec.
Import PyStr PyStrFacts Re ReFacts YfinanceFetch.

Ltac each_suffix H :=
  unfold known_suffixes in H; cbn in H;
  repeat (destruct H as [H|H]; [subst|]); try contradiction.

Ltac by_chars H :=
  cbn in H;
  repeat match type of H with
         | context [Ascii.eqb ?a ?b] => destruct (Ascii.eqb a b)
         end;
  discriminate H.

Lemma overrides_get_In : forall d k v,
  overrides_get d k = Some v -> In (k, v) d.
Proof.
  induction d as [|[k' v'] rest IH]; intros [s e] v H; cbn in H; [discriminate|].
  destruct (key_eqb (s, e) k') eqn:E.
  - inversion H; subst. left. destruct k' as [s' e'].
    unfold key_eqb in E. cbn in E. apply andb_true_iff in E. destruct E as [E1 E2].
    apply String.eqb_eq in E1. apply String.eqb_eq in E2. now subst.
  - right. now apply IH.
Qed.

(** Each table has a key once, so the first entry found for a key is the
    entry of the dictionary. *)
Lemma table_keys_distinct :
  NoDup (map fst SYMBOL_OVERRIDES) /\ NoDup (map fst EXCHANGE_SUFFIX).
Proof.
  split;
    repeat (constructor; [cbn; intros H;
      repeat (destruct H as [H|H]; [discriminate H|]); exact H|]);
    constructor.
Qed.

(** No key of the override table ends with a known suffix, before or after
    the rewrite steps. *)
Lemma override_keys_unsuffixed : forall s e v,
  In ((s, e), v) SYMBOL_OVERRIDES ->
  existsb (endswith (rewritten s e)) known_suffixes = false
  /\ existsb (endswith s) known_suffixes = false.
Proof.
  intros s e v H. unfold SYMBOL_OVERRIDES in H. cbn [In] in H.
  repeat (destruct H as [H|H]; [inversion H; subst; split; vm_compute; reflexivity|]).
  contradiction.
Qed.

Lemma known_suffix_dot : forall suf,
  In suf known_suffixes -> startswith suf "." = true.
Proof. intros suf H. each_suffix H; reflexivity. Qed.

(** C1: for every key of the override table, the translator returns the
    value the table holds for that key, whatever the rules would give. *)
Theorem override_wins : forall ib_symbol exchange v,
  In ((ib_symbol, exchange), v) SYMBOL_OVERRIDES ->
  get_yahoo_symbol ib_symbol exchange = v.
Proof.
  intros s e v H. unfold SYMBOL_OVERRIDES in H. cbn [In] in H.
  repeat (destruct H as [H|H]; [inversion H; subst; vm_compute; reflexivity|]).
  contradiction.
Qed.

(** The rules alone would have given another symbol for some of the keys. *)
Example override_differs_from_rules :
  by_rules "KEK" "HEX" = "KEK.HE" /\ get_yahoo_symbol "KEK" "HEX" = "KESKOB.HE".
Proof. split; vm_compute; reflexivity. Qed.

(** The replacement of [.UN] keeps a known suffix at the end. *)
Lemma replace_UN_keeps_suffix : forall suf, In suf known_suffixes ->
  forall n s, String.length s <= n -> endswith s suf = true ->
  endswith (replace_scan ".UN" "-UN" 0 s) suf = true.
Proof.
  intros suf Hin. induction n as [|n IH]; intros s Hlen Hs.
  - destruct s; [|cbn in Hlen; lia]. exact Hs.
  - destruct (String.eqb s suf) eqn:E.
    { apply String.eqb_eq in E. subst s. each_suffix Hin; reflexivity. }
    destruct s as [|c t]; [cbn [endswith] in Hs; rewrite E in Hs; discriminate|].
    cbn [endswith] in Hs. rewrite E in Hs. cbn [orb] in Hs.
    cbn [replace_scan]. destruct (startswith (String c t) ".UN") eqn:Est.
    + destruct t as [|c2 [|c3 r]]; cbn [startswith] in Est;
        try (rewrite ?andb_false_r in Est; discriminate).
      apply andb_true_iff in Est. destruct Est as [E1 Est].
      apply andb_true_iff in Est. destruct Est as [E2 Est].
      apply andb_true_iff in Est. destruct Est as [E3 _].
      apply Ascii.eqb_eq in E1, E2, E3. subst c c2 c3.
      cbn [String.length Nat.sub replace_scan append].
      do 3 apply endswith_cons. apply IH; [cbn in Hlen; lia|].
      cbn [endswith] in Hs.
      destruct (endswith r suf); [reflexivity|].
      rewrite !orb_false_r in Hs. apply orb_true_iff in Hs.
      destruct Hs as [Hs|Hs]; apply String.eqb_eq in Hs; subst suf;
        each_suffix Hin; discriminate.
    + apply endswith_cons. apply IH; [cbn in Hlen; lia|exact Hs].
Qed.

(** The preferred-share pattern matches no symbol that ends with a known
    suffix. *)
Lemma preferred_share_none : forall s suf,
  In suf known_suffixes -> endswith s suf = true ->
  rmatch_ preferred_share s = None.
Proof.
  intros s suf Hin Hs. unfold rmatch_, match_at, preferred_share.
  cbn [seq lit chr plus exec Nat.eqb].
  apply rep_none. intros pos' s' Ht.
  destruct (endswith_both _ _ _ Ht Hs) as [H|H].
  - destruct s' as [|c1 [|c2 [|c3 [|c4 r]]]]; try reflexivity.
    + cbn [exec]. destruct (Ascii.eqb "-" c1); reflexivity.
    + cbn [exec]. destruct (Ascii.eqb "-" c1); [|reflexivity].
      destruct (Ascii.eqb "P" c2); reflexivity.
    + cbn [exec]. destruct (Ascii.eqb "-" c1); [|reflexivity].
      destruct (Ascii.eqb "P" c2); [|reflexivity].
      destruct (Ascii.eqb "R" c3); reflexivity.
    + cbn [exec].
      destruct (Ascii.eqb_spec "-" c1) as [<-|]; [|reflexivity].
      destruct (Ascii.eqb_spec "P" c2) as [<-|]; [|reflexivity].
      destruct (Ascii.eqb_spec "R" c3) as [<-|]; [|reflexivity].
      destruct (isupper_ascii c4); [|reflexivity].
      destruct r as [|c5 [|c6 r]]; try reflexivity.
      * exfalso. each_suffix Hin; by_chars H.
      * destruct (Ascii.eqb_spec c5 "010") as [->|]; [|reflexivity].
        exfalso. each_suffix Hin; by_chars H.
  - each_suffix Hin; cbn [endswith] in H;
      repeat (apply orb_true_iff in H; destruct H as [H|H]);
      try discriminate; apply String.eqb_eq in H; subst s'; reflexivity.
Qed.

Lemma spaces_keep_suffix : forall s suf,
  In suf known_suffixes -> endswith s suf = true ->
  endswith (replace " " "-" s) suf = true.
Proof.
  intros s suf Hin Hs. rewrite replace_char_map.
  pose proof (endswith_map_chars (fun c => if Ascii.eqb " " c then "-"%char else c) _ _ Hs) as H.
  each_suffix Hin; exact H.
Qed.

Lemma suffixed_not_letter : forall s suf x,
  In suf known_suffixes -> endswith s suf = true ->
  x = "o" \/ x = "h" -> endswith s x = false.
Proof.
  intros s suf x Hin Hs Hx. destruct (endswith s x) eqn:E; [|reflexivity].
  exfalso. destruct (endswith_both _ _ _ E Hs) as [H|H];
    destruct Hx; subst x; each_suffix Hin; discriminate.
Qed.

Lemma suffixed_not_digits : forall s suf,
  In suf known_suffixes -> endswith s suf = true -> isdigit s = false.
Proof.
  intros s suf Hin Hs. unfold isdigit.
  destruct (all_chars isdigit_char s) eqn:E; [|apply andb_false_r].
  pose proof (all_chars_endswith _ _ _ E Hs) as H.
  each_suffix Hin; discriminate.
Qed.

(** The rewrite steps leave a known suffix at the end of the symbol. *)
Lemma rewritten_keeps_suffix : forall s e suf,
  In suf known_suffixes -> endswith s suf = true ->
  endswith (rewritten s e) suf = true.
Proof.
  intros s e suf Hin Hs. unfold rewritten. cbv zeta.
  pose proof (spaces_keep_suffix _ _ Hin Hs) as H1.
  set (s1 := replace " " "-" s) in *.
  rewrite (suffixed_not_letter s1 suf "o" Hin H1 (or_introl eq_refl)).
  rewrite andb_false_r. cbn [andb].
  rewrite (suffixed_not_letter s1 suf "h" Hin H1 (or_intror eq_refl)).
  rewrite andb_false_r. cbn [andb].
  rewrite (suffixed_not_digits s1 suf Hin H1). rewrite andb_false_r.
  assert (H4 : endswith (if String.eqb e "TSE" && contains ".UN" s1
                         then replace ".UN" "-UN" s1 else s1) suf = true).
  { destruct (String.eqb e "TSE" && contains ".UN" s1); [|exact H1].
    apply (replace_UN_keeps_suffix suf Hin (String.length s1)); [lia|exact H1]. }
  set (s4 := if String.eqb e "TSE" && contains ".UN" s1
             then replace ".UN" "-UN" s1 else s1) in *.
  destruct (mem e ["NYSE"; "NASDAQ"; "AMEX"; "ARCA"]); [|exact H4].
  rewrite (preferred_share_none s4 suf Hin H4). exact H4.
Qed.

(** C2: when the symbol that the rewrite steps give ends with a known
    non-empty suffix, the translator returns that symbol with nothing
    appended; a symbol that already ends with such a suffix still ends with
    it after the rewrite steps, so it gets no second suffix. *)
Theorem no_double_suffix : forall ib_symbol exchange suf,
  In suf (map snd EXCHANGE_SUFFIX) -> suf <> "" ->
  (endswith (rewritten ib_symbol exchange) suf = true ->
   get_yahoo_symbol ib_symbol exchange = rewritten ib_symbol exchange)
  /\ (endswith ib_symbol suf = true ->
      get_yahoo_symbol ib_symbol exchange = rewritten ib_symbol exchange
      /\ endswith (get_yahoo_symbol ib_symbol exchange) suf = true).
Proof.
  intros s e suf Hv Hne.
  assert (Hin : In suf known_suffixes).
  { unfold known_suffixes. apply filter_In. split; [exact Hv|].
    destruct suf; [congruence|reflexivity]. }
  assert (Hmain : endswith (rewritten s e) suf = true ->
                  get_yahoo_symbol s e = rewritten s e).
  { intros Hs. unfold get_yahoo_symbol.
    destruct (overrides_get SYMBOL_OVERRIDES (s, e)) as [v|] eqn:E.
    - apply overrides_get_In in E.
      destruct (override_keys_unsuffixed _ _ _ E) as [Hno _].
      assert (Hex : existsb (endswith (rewritten s e)) known_suffixes = true).
      { apply existsb_exists. exists suf. split; assumption. }
      congruence.
    - unfold by_rules. cbv zeta.
      rewrite (endswith_contains _ _ "." Hs (known_suffix_dot _ Hin)).
      assert (Hex : existsb (endswith (rewritten s e)) known_suffixes = true).
      { apply existsb_exists. exists suf. split; assumption. }
      rewrite Hex. reflexivity. }
  split; [exact Hmain|].
  intros Hs. pose proof (rewritten_keeps_suffix s e suf Hin Hs) as Hr.
  rewrite (Hmain Hr). split; [reflexivity|exact Hr].
Qed.

Lemma override_wins_witness :
  In (("KEK", "HEX"), "KESKOB.HE") SYMBOL_OVERRIDES
  /\ get_yahoo_symbol "KEK" "HEX" = "KESKOB.HE".
Proof.
  assert (H : In (("KEK", "HEX"), "KESKOB.HE") SYMBOL_OVERRIDES).
  { unfold SYMBOL_OVERRIDES. do 14 right. left. reflexivity. }
  split; [exact H|]. apply (override_wins "KEK" "HEX" "KESKOB.HE" H).
Defined.

Lemma no_double_suffix_witness :
  get_yahoo_symbol "8750.T" "TSEJ" = "8750.T"
  /\ get_yahoo_symbol "NOKIA.HE" "HEX" = "NOKIA.HE".
Proof.
  assert (HT : In ".T" (map snd EXCHANGE_SUFFIX)).
  { unfold EXCHANGE_SUFFIX. cbn [map snd]. do 4 right. left. reflexivity. }
  assert (HHE : In ".HE" (map snd EXCHANGE_SUFFIX)).
  { unfold EXCHANGE_SUFFIX. cbn [map snd]. left. reflexivity. }
  split.
  - change (get_yahoo_symbol "8750.T" "TSEJ" = rewritten "8750.T" "TSEJ").
    apply (proj1 (no_double_suffix "8750.T" "TSEJ" ".T" HT ltac:(discriminate))).
    reflexivity.
  - change (get_yahoo_symbol "NOKIA.HE" "HEX" = rewritten "NOKIA.HE" "HEX").
    apply (proj2 (no_double_suffix "NOKIA.HE" "HEX" ".HE" HHE ltac:(discriminate))).
    reflexivity.
Defined.

End YfinanceFetchSpec.

(** ** The fetch routines and the commands *)

Module FetchSpec.
Import PyStr YfinanceFetch Samples.

Section WithProvider.
Context {num infoval : Type}.
Variable round : num -> nat -> num.
Variable int : num -> result Z.
Variable truth : infoval -> bool.
Variable str : string -> infoval.
Variable P : @provider num infoval.

Lemma mapM_raises : forall (A B : Type) (f : A -> result B) l a,
  In a l -> raises (f a) -> raises (mapM f l).
Proof.
  intros A B f. induction l as [|x rest IH]; intros a Hin Hr; [contradiction|].
  cbn [mapM]. destruct Hin as [->|Hin].
  - destruct Hr as [msg ->]. exists msg. reflexivity.
  - destruct (f x); [|eexists; reflexivity].
    destruct (IH a Hin Hr) as [msg ->]. exists msg. reflexivity.
Qed.

Lemma fetch_dividends_no_data : forall yahoo ib ex isin,
  no_data (dividends P yahoo) \/ raises (info P yahoo) ->
  fetch_dividends round str P yahoo ib ex isin = None.
Proof.
  intros yahoo ib ex isin H. unfold fetch_dividends.
  destruct H as [[[msg ->]|[->| ->]]|[msg Hi]]; try reflexivity.
  destruct (dividends P yahoo) as [[[|[date amount] rest]|]|]; try reflexivity.
  cbn [bind mapM]. rewrite Hi. reflexivity.
Qed.

Lemma fetch_history_no_data : forall yahoo ib ex period,
  no_data (history P yahoo period)
  \/ (exists rows b, history P yahoo period = Ok (Some rows) /\ In b rows
                     /\ raises (int (bar_volume b))) ->
  fetch_history round int P yahoo ib ex period = None.
Proof.
  intros yahoo ib ex period H. unfold fetch_history.
  destruct H as [[[msg ->]|[->| ->]]|(rows & b & -> & Hin & Hr)]; try reflexivity.
  cbn [bind]. destruct rows as [|b0 rest]; [reflexivity|].
  set (f := fun b1 => _).
  destruct (mapM_raises _ _ f (b0 :: rest) b Hin) as [msg ->]; [|reflexivity].
  subst f. cbv beta. destruct Hr as [msg ->]. exists msg. reflexivity.
Qed.

Lemma fetch_profile_no_data : forall yahoo ib ex isin,
  raises (info P yahoo) \/ info P yahoo = Ok [] ->
  fetch_profile truth P yahoo ib ex isin = None.
Proof.
  intros yahoo ib ex isin H. unfold fetch_profile.
  destruct H as [[msg ->]| ->]; reflexivity.
Qed.

Lemma cmd_dividends_all : forall db symbol,
  wants_all symbol = true ->
  cmd_dividends round str P db symbol = flat_map (dividends_of_entry round str P) db.
Proof.
  intros db symbol H. unfold cmd_dividends. rewrite H. destruct db; reflexivity.
Qed.

(** C7: each fetch routine returns no result when the provider raises or has
    no data for the symbol; in a run over the holdings, a symbol whose fetch
    gives no result adds its request and no file, and the symbols before
    and after it are processed as they would be without it. *)
Theorem fetch_failure_is_no_result :
  forall (yahoo ib ex period : string) (isin : option string),
    (no_data (dividends P yahoo) \/ raises (info P yahoo) ->
     fetch_dividends round str P yahoo ib ex isin = None)
    /\ (no_data (history P yahoo period)
        \/ (exists rows b, history P yahoo period = Ok (Some rows) /\ In b rows
                           /\ raises (int (bar_volume b))) ->
        fetch_history round int P yahoo ib ex period = None)
    /\ (raises (info P yahoo) \/ info P yahoo = Ok [] ->
        fetch_profile truth P yahoo ib ex isin = None)
    /\ (forall db1 e db2 symbol,
          wants_all symbol = true ->
          fetch_dividends round str P
            (get_yahoo_symbol (e_symbol e) (e_exchange e))
            (e_symbol e) (e_exchange e) (e_isin e) = None ->
          cmd_dividends round str P (db1 ++ e :: db2) symbol
          = (flat_map (dividends_of_entry round str P) db1
             ++ Request Dividends (get_yahoo_symbol (e_symbol e) (e_exchange e))
             :: flat_map (dividends_of_entry round str P) db2)%list
          /\ saved (cmd_dividends round str P (db1 ++ e :: db2) symbol)
             = saved (cmd_dividends round str P (db1 ++ db2) symbol)).
Proof.
  intros yahoo ib ex period isin.
  split; [apply fetch_dividends_no_data|].
  split; [apply fetch_history_no_data|].
  split; [apply fetch_profile_no_data|].
  intros db1 e db2 symbol Hall Hfail.
  assert (He : dividends_of_entry round str P e
               = [Request Dividends (get_yahoo_symbol (e_symbol e) (e_exchange e))]).
  { unfold dividends_of_entry. rewrite Hfail. reflexivity. }
  rewrite !cmd_dividends_all by exact Hall.
  rewrite !flat_map_app. cbn [flat_map]. rewrite He. cbn [app].
  split; [reflexivity|].
  unfold saved. rewrite !filter_app. reflexivity.
Qed.

Lemma requests_dividends_of_entry : forall e,
  requests (dividends_of_entry round str P e)
  = [(Dividends, get_yahoo_symbol (e_symbol e) (e_exchange e))].
Proof.
  intros e. unfold dividends_of_entry, save_dividends.
  destruct (fetch_dividends _ _ _ _ _ _ _) as [[|r rs]|]; reflexivity.
Qed.

(** C8, as the code has it: a run over the holdings translates every symbol
    of the store before it asks the provider; a command given one symbol
    asks the provider for that symbol as it stands. *)
Theorem requests_by_command : forall db symbol s,
  (wants_all symbol = true ->
   requests (cmd_dividends round str P db symbol)
   = map (fun e => (Dividends, get_yahoo_symbol (e_symbol e) (e_exchange e))) db)
  /\ (wants_all (Some s) = false ->
      requests (cmd_dividends round str P db (Some s)) = [(Dividends, s)])
  /\ requests (cmd_history round int P s) = [(History, s)]
  /\ requests (cmd_profile truth P s) = [(Profile, s)].
Proof.
  intros db symbol s. repeat split.
  - intros H. rewrite cmd_dividends_all by exact H.
    induction db as [|e rest IH]; [reflexivity|].
    cbn [flat_map map]. unfold requests in *. rewrite flat_map_app.
    rewrite IH. fold (requests (dividends_of_entry round str P e)).
    rewrite requests_dividends_of_entry. reflexivity.
  - intros H. unfold cmd_dividends. rewrite H. unfold save_dividends.
    destruct (fetch_dividends _ _ _ _ _ _ _) as [[|r rs]|]; reflexivity.
  - unfold cmd_history.
    destruct (fetch_history _ _ _ _ _ _ _) as [[|r rs]|]; reflexivity.
  - unfold cmd_profile.
    destruct (fetch_profile _ _ _ _ _ _) as [p|]; reflexivity.
Qed.

End WithProvider.

Lemma fetch_failure_is_no_result_witness :
  fetch_dividends round_id str_id provider_down "KESKOB.HE" "KEK" "HEX" None = None
  /\ fetch_history round_id int_id provider_down "KESKOB.HE" "KEK" "HEX" "max" = None
  /\ fetch_profile truth_str provider_down "KESKOB.HE" "KEK" "HEX" None = None
  /\ saved (cmd_dividends round_id str_id provider_kesko holdings None)
     = saved (cmd_dividends round_id str_id provider_kesko
                [mk_entry "KEK" "HEX" None] None).
Proof.
  destruct (fetch_failure_is_no_result round_id int_id truth_str str_id
              provider_down "KESKOB.HE" "KEK" "HEX" "max" None)
    as (H1 & H2 & H3 & _).
  destruct (fetch_failure_is_no_result round_id int_id truth_str str_id
              provider_kesko "KESKOB.HE" "KEK" "HEX" "max" None)
    as (_ & _ & _ & H4).
  split; [|split; [|split]].
  - apply H1. left. left. exists "timeout". reflexivity.
  - apply H2. left. left. exists "timeout". reflexivity.
  - apply H3. left. exists "timeout". reflexivity.
  - apply (H4 [mk_entry "KEK" "HEX" None] (mk_entry "NOKIA" "HEX" None) [] None);
      reflexivity.
Defined.

Lemma requests_by_command_witness :
  requests (cmd_dividends round_id str_id provider_kesko holdings None)
  = [(Dividends, "KESKOB.HE"); (Dividends, "NOKIA.HE")]
  /\ requests (cmd_dividends round_id str_id provider_kesko holdings (Some "KEK"))
     = [(Dividends, "KEK")].
Proof.
  destruct (requests_by_command round_id int_id truth_str str_id provider_kesko
              holdings None "KEK") as (H1 & H2 & _).
  split.
  - apply H1. reflexivity.
  - apply H2. reflexivity.
Defined.

Lemma rewritten_cim_pra : forall e,
  rewritten "CIM PRA" e = "CIM-PRA" \/ rewritten "CIM PRA" e = "CIM-PA".
Proof.
  intros e. unfold rewritten. cbv zeta.
  change (replace " " "-" "CIM PRA") with "CIM-PRA".
  change (endswith "CIM-PRA" "o") with false.
  rewrite andb_false_r. cbn [andb].
  change (endswith "CIM-PRA" "h") with false.
  rewrite andb_false_r. cbn [andb].
  change (isdigit "CIM-PRA") with false. rewrite andb_false_r.
  change (contains ".UN" "CIM-PRA") with false. rewrite andb_false_r.
  destruct (mem e ["NYSE"; "NASDAQ"; "AMEX"; "ARCA"]); [right|left]; reflexivity.
Qed.

(** The symbol of a one-symbol command reaches the provider untranslated:
    [history "CIM PRA"] asks for [CIM PRA], which the translator gives for no
    exchange. *)
Lemma single_symbol_not_translated :
  In (Request History "CIM PRA")
     (cmd_history round_id int_id provider_kesko "CIM PRA")
  /\ forall exchange, get_yahoo_symbol "CIM PRA" exchange <> "CIM PRA".
Proof.
  split; [left; reflexivity|].
  intros e. unfold get_yahoo_symbol.
  destruct (overrides_get SYMBOL_OVERRIDES ("CIM PRA", e)) as [v|] eqn:E.
  - apply YfinanceFetchSpec.overrides_get_In in E.
    unfold SYMBOL_OVERRIDES in E. cbn [In] in E.
    repeat (destruct E as [E|E]; [inversion E; subst; discriminate|]).
    contradiction.
  - unfold by_rules. cbv zeta.
    generalize (dict_get EXCHANGE_SUFFIX e "") as suffix. intros suffix.
    destruct (rewritten_cim_pra e) as [-> | ->];
      cbn [contains startswith orb andb append]; discriminate.
Qed.

End FetchSpec.

(** ** The PDF extractor *)

Module ExtractLynxPdfsSpec.
Import PyStr PyStrFacts Re ReFacts PyFloat ExtractLynxPdfs Samples.

Ltac test b := destruct b; cbn -[digit Ascii.eqb]; [|try reflexivity].

(** [re.match] with a day-first pattern succeeds on the strings of the
    day-first shape, and its groups are the three runs of digits. *)
Lemma day_first_match : forall sep s,
  match rmatch_ (day_first_date sep) s with
  | Some m =>
      day_first_shape sep s = true
      /\ group m 1 = substring 0 2 s
      /\ group m 2 = substring 3 2 s
      /\ group m 3 = substring 6 4 s
  | None => day_first_shape sep s = false
  end.
Proof.
  intros sep s.
  unfold day_first_shape, rmatch_, match_at, day_first_date, exactly, chr, group.
  destruct s as [|c1 [|c2 [|c3 [|c4 [|c5 [|c6 [|c7 [|c8 [|c9 [|c10 r]]]]]]]]]];
    cbn -[digit Ascii.eqb]; try reflexivity;
    (test (digit c1); try (test (digit c2)); try (test (Ascii.eqb sep c3));
     try (test (digit c4)); try (test (digit c5)); try (test (Ascii.eqb sep c6));
     try (test (digit c7)); try (test (digit c8)); try (test (digit c9));
     try (test (digit c10))); auto.
  destruct r; cbn; auto.
Qed.

Lemma shapes_exclusive : forall s,
  day_first_shape "/" s = true -> day_first_shape "." s = false.
Proof.
  intros s. unfold day_first_shape.
  destruct (String.eqb_spec "/" (substring 2 1 s)) as [<-|];
    [|rewrite andb_false_r; discriminate].
  intros _. cbn. rewrite andb_false_r. reflexivity.
Qed.

(** [normalize_date] against the reading of the specification. *)
Lemma normalize_date_by_shape : forall s,
  normalize_date s
  = if day_first_shape "/" s || day_first_shape "." s then reordered s else s.
Proof.
  intros s. unfold normalize_date, reordered.
  pose proof (day_first_match "/" s) as H1.
  pose proof (day_first_match "." s) as H2.
  destruct (rmatch_ (day_first_date "/") s) as [m1|].
  - destruct H1 as (-> & -> & -> & ->). reflexivity.
  - rewrite H1. cbn [orb].
    destruct (rmatch_ (day_first_date ".") s) as [m2|].
    + destruct H2 as (-> & -> & -> & ->). reflexivity.
    + rewrite H2. reflexivity.
Qed.

(** A string that starts with an ISO date has neither day-first shape. *)
Lemma iso_not_day_first : forall s sep,
  rmatch_ iso_date s <> None -> digit sep = false ->
  day_first_shape sep s = false.
Proof.
  intros s sep H Hsep. unfold day_first_shape.
  unfold rmatch_, match_at, iso_date, exactly, chr in H.
  destruct s as [|c1 [|c2 [|c3 r]]]; cbn -[digit Ascii.eqb] in H.
  - exfalso. apply H. reflexivity.
  - exfalso. apply H. destruct (digit c1); reflexivity.
  - exfalso. apply H. destruct (digit c1), (digit c2); reflexivity.
  - cbn -[digit Ascii.eqb].
    destruct (digit c1); [|contradiction]. destruct (digit c2); [|contradiction].
    destruct (digit c3) eqn:E3; [|contradiction].
    destruct (Ascii.eqb_spec sep c3) as [->|]; [congruence|].
    cbn. rewrite ?andb_false_r. reflexivity.
Qed.

(** C3: a date of the day-first shape, with slashes or with dots, comes out
    with its groups in the order year, month, day; a string of neither shape
    comes out unchanged, an ISO date among them. *)
Theorem normalize_date_reorders :
  (forall s, day_first_shape "/" s = true \/ day_first_shape "." s = true ->
             normalize_date s = reordered s)
  /\ (forall s, day_first_shape "/" s = false -> day_first_shape "." s = false ->
                normalize_date s = s)
  /\ (forall s, rmatch_ iso_date s <> None -> normalize_date s = s)
  /\ normalize_date "31/01/2024" = "2024-01-31"
  /\ normalize_date "31.01.2024" = "2024-01-31"
  /\ normalize_date "2024-01-31" = "2024-01-31".
Proof.
  split; [|split; [|split; [|repeat split; reflexivity]]].
  - intros s H. rewrite normalize_date_by_shape.
    destruct H as [-> | ->]; [|rewrite orb_true_r]; reflexivity.
  - intros s H1 H2. rewrite normalize_date_by_shape, H1, H2. reflexivity.
  - intros s H. rewrite normalize_date_by_shape.
    rewrite (iso_not_day_first s "/" H), (iso_not_day_first s "." H); reflexivity.
Qed.

Lemma normalize_date_reorders_witness :
  normalize_date "15/03/2023" = "2023-03-15"
  /\ normalize_date "15.03.2023" = "2023-03-15"
  /\ normalize_date "Dividend" = "Dividend"
  /\ normalize_date "2023-03-15 (ex)" = "2023-03-15 (ex)".
Proof.
  destruct normalize_date_reorders as (H1 & H2 & H3 & _).
  split; [|split; [|split]].
  - apply (H1 "15/03/2023"). left. reflexivity.
  - apply (H1 "15.03.2023"). right. reflexivity.
  - apply (H2 "Dividend"); reflexivity.
  - apply (H3 "2023-03-15 (ex)"). vm_compute. discriminate.
Defined.

(** The amount that the loop over the cells ends with was there at the
    start, or is a cell that matches the amount pattern from end to end once
    its commas are removed. *)
Lemma scan_cells_amount : forall cells st a,
  snd (fold_left scan_cell cells st) = Some a ->
  snd st = Some a
  \/ exists c, In c cells /\ a = replace "," "" c
               /\ fullmatch amount_pattern (replace "," "" c) <> None.
Proof.
  induction cells as [|c rest IH]; intros st a H; [left; exact H|].
  cbn [fold_left] in H. apply IH in H. destruct H as [H|(c' & Hin & Ha & Hm)].
  - destruct st as [d am]. unfold scan_cell in H. cbn [snd] in *.
    destruct (negb (truthy am)); [|left; exact H].
    destruct (fullmatch amount_pattern (replace "," "" c)) eqn:E; [|left; exact H].
    right. exists c. split; [left; reflexivity|]. split; [congruence|].
    rewrite E. discriminate.
  - right. exists c'. split; [right; exact Hin|]. split; assumption.
Qed.

(** A string that the amount pattern matches from end to end is made of
    digits, commas, at most one minus sign and at most one point. *)
Lemma amount_is_numeric : forall s,
  fullmatch amount_pattern s <> None -> all_chars numeric_char s = true.
Proof.
  intros s H. destruct (fullmatch amount_pattern s) as [m|] eqn:E; [clear H|congruence].
  unfold fullmatch, amount_pattern, opt, plus, star in E. cbn [seq exec] in E.
  apply rep_split in E. destruct E as (w1 & s1 & -> & H1 & _ & E).
  apply rep_split in E. destruct E as (w2 & s2 & -> & H2 & _ & E).
  apply rep_split in E. destruct E as (w3 & s3 & -> & H3 & _ & E).
  apply rep_split in E. destruct E as (w4 & s4 & -> & H4 & _ & E).
  destruct s4; [|discriminate].
  rewrite !all_chars_app.
  rewrite (all_chars_weaken (Ascii.eqb "-") numeric_char w1); [|
    intros c Hc; apply Ascii.eqb_eq in Hc; subst; reflexivity|exact H1].
  rewrite (all_chars_weaken digit_or_comma numeric_char w2); [|
    intros c Hc; unfold digit_or_comma in Hc; unfold numeric_char;
    apply orb_true_iff in Hc; destruct Hc as [-> | ->];
    rewrite ?orb_true_r; reflexivity|exact H2].
  rewrite (all_chars_weaken (Ascii.eqb ".") numeric_char w3); [|
    intros c Hc; apply Ascii.eqb_eq in Hc; subst; reflexivity|exact H3].
  rewrite (all_chars_weaken digit numeric_char w4); [reflexivity|
    intros c Hc; unfold numeric_char; unfold digit in Hc; rewrite Hc; reflexivity|
    exact H4].
Qed.

(** C4: the row path takes a cell as the amount only when the whole cell,
    commas removed, matches the amount pattern, so [1,234.56] gives 1234.56
    and [12a] gives nothing; the text path finds the amount inside a line,
    and reads 34.50 from a line that holds [12a 34.50 USD], a line the row
    path would reject as a cell. *)
Theorem row_amount_is_whole_cell :
  (forall r rec,
     parse_dividend_row r = Some rec ->
     exists c amount,
       In c (cleaned r)
       /\ fullmatch amount_pattern (replace "," "" c) <> None
       /\ all_chars numeric_char (replace "," "" c) = true
       /\ float (replace "," "" c) = Some amount
       /\ get rec "raw_amount" (VStr "") = VFloat amount
       /\ get rec "amount" (VStr "") = VFloat (fabs amount))
  /\ parse_dividend_row
       [Some "AAPL"; Some "2024-01-15"; Some "Dividend"; Some "1,234.56"; Some "USD"]
     = Some [("symbol", VStr "AAPL"); ("date", VStr "2024-01-15");
             ("amount", VFloat (FFin (scale10 123456 (-2))));
             ("raw_amount", VFloat (FFin (scale10 123456 (-2))));
             ("source", VStr "lynx_pdf")]
  /\ (forall d, scan_cell (d, None) "12a" = (d, None))
  /\ parse_dividend_row
       [Some "AAPL"; Some "2024-01-15"; Some "Dividend"; Some "12a"; Some "USD"]
     = None
  /\ parse_dividend_text "AAPL 2024-01-15 Cash Dividend 12a 34.50 USD"
     = [[("symbol", VStr "AAPL"); ("date", VStr "2024-01-15");
         ("amount", VFloat (FFin (scale10 3450 (-2))));
         ("currency", VStr "USD"); ("source", VStr "lynx_pdf_text")]]
  /\ snd (scan_cell (None, None) "AAPL 2024-01-15 Cash Dividend 12a 34.50 USD")
     = None.
Proof.
  split; [|split; [|split; [|split; [|split]]]];
    [|vm_compute; reflexivity| |vm_compute; reflexivity..].
  - intros r rec H. unfold parse_dividend_row in H.
    destruct (scan_cells (cleaned r)) as [d a] eqn:E.
    destruct d as [d|]; [|discriminate]. destruct a as [a|]; [|discriminate].
    destruct (nonempty d && nonempty a); [|discriminate].
    destruct (float a) as [amount|] eqn:Ef; [|discriminate].
    destruct (gt0 (fabs amount)); [|discriminate].
    inversion H; subst rec; clear H.
    assert (Ha : snd (fold_left scan_cell (cleaned r) (None, None)) = Some a).
    { unfold scan_cells in E. rewrite E. reflexivity. }
    apply scan_cells_amount in Ha. destruct Ha as [Ha|(c & Hin & -> & Hm)];
      [discriminate|].
    exists c, amount. split; [exact Hin|]. split; [exact Hm|].
    split; [apply amount_is_numeric; exact Hm|].
    split; [exact Ef|]. split; reflexivity.
  - intros d. unfold scan_cell.
    destruct (negb (truthy d)); vm_compute; reflexivity.
Qed.

Lemma row_amount_is_whole_cell_witness :
  exists c amount,
    In c ["AAPL"; "15/01/2024"; "Dividend"; "-1,000"; "USD"]
    /\ fullmatch amount_pattern (replace "," "" c) <> None
    /\ all_chars numeric_char (replace "," "" c) = true
    /\ float (replace "," "" c) = Some amount
    /\ VFloat (FFin (-1000)) = VFloat amount
    /\ VFloat (FFin 1000) = VFloat (fabs amount).
Proof.
  apply (proj1 row_amount_is_whole_cell
           [Some "AAPL"; Some "15/01/2024"; Some "Dividend"; Some "-1,000"; Some "USD"]
           [("symbol", VStr "AAPL"); ("date", VStr "2024-01-15");
            ("amount", VFloat (FFin 1000)); ("raw_amount", VFloat (FFin (-1000)));
            ("source", VStr "lynx_pdf")]).
  vm_compute. reflexivity.
Defined.

(** The loop of [dedup] computes [first_occurrences]. *)
Lemma dedup_fold : forall l seen unique,
  fold_left dedup_step l (seen, unique)
  = (fst (fold_left dedup_step l (seen, unique)),
     (unique ++ first_occurrences seen l)%list).
Proof.
  induction l as [|r rest IH]; intros seen unique.
  - cbn. rewrite app_nil_r. reflexivity.
  - cbn [fold_left first_occurrences]. unfold dedup_step at 2 4.
    destruct (in_dec key_eq_dec (key_of r) seen).
    + apply IH.
    + rewrite IH. rewrite <- app_assoc. reflexivity.
Qed.

Lemma dedup_first_occurrences : forall l, dedup l = first_occurrences [] l.
Proof. intros l. unfold dedup. rewrite dedup_fold. reflexivity. Qed.

Lemma first_occurrences_incl : forall l met r,
  In r (first_occurrences met l) -> In r l /\ ~ In (key_of r) met.
Proof.
  induction l as [|x rest IH]; intros met r H; [contradiction|].
  cbn [first_occurrences] in H. destruct (in_dec key_eq_dec (key_of x) met).
  - destruct (IH _ _ H). split; [right|]; assumption.
  - destruct H as [->|H]; [split; [left; reflexivity|assumption]|].
    destruct (IH _ _ H) as [H1 H2]. split; [right; exact H1|].
    intros Hm. apply H2. right. exact Hm.
Qed.

Lemma first_occurrences_nodup : forall l met,
  NoDup (map key_of (first_occurrences met l)).
Proof.
  induction l as [|x rest IH]; intros met; [constructor|].
  cbn [first_occurrences]. destruct (in_dec key_eq_dec (key_of x) met); [apply IH|].
  cbn [map]. constructor; [|apply IH].
  intros H. apply in_map_iff in H. destruct H as (r & Hk & Hr).
  apply first_occurrences_incl in Hr. destruct Hr as [_ Hr].
  apply Hr. left. symmetry. exact Hk.
Qed.

Lemma first_occurrences_covers : forall l met r,
  In r l -> In (key_of r) met \/ In (key_of r) (map key_of (first_occurrences met l)).
Proof.
  induction l as [|x rest IH]; intros met r H; [contradiction|].
  cbn [first_occurrences]. destruct H as [->|H].
  - destruct (in_dec key_eq_dec (key_of r) met); [left; assumption|].
    right. left. reflexivity.
  - destruct (in_dec key_eq_dec (key_of x) met); [apply IH; exact H|].
    destruct (IH (key_of x :: met) r H) as [[Hx|Hm]|Hr].
    + right. left. exact Hx.
    + left. exact Hm.
    + right. right. exact Hr.
Qed.

Lemma first_occurrences_later : forall l1 met r l2,
  In (key_of r) met \/ In (key_of r) (map key_of l1) ->
  first_occurrences met (l1 ++ r :: l2) = first_occurrences met (l1 ++ l2).
Proof.
  induction l1 as [|x rest IH]; intros met r l2 H; cbn [app first_occurrences].
  - destruct H as [H|[]].
    destruct (in_dec key_eq_dec (key_of r) met); [reflexivity|contradiction].
  - destruct (in_dec key_eq_dec (key_of x) met).
    + apply IH. destruct H as [H|[H|H]]; [left; exact H| |right; exact H].
      left. rewrite <- H. assumption.
    + f_equal. apply IH. destruct H as [H|[H|H]].
      * left. right. exact H.
      * left. left. exact H.
      * right. exact H.
Qed.

(** Every record of a page has a positive amount, so no key holds a NaN. *)
Lemma page_amounts_positive : forall p r,
  In r (page_records p) ->
  exists x, get r "amount" (VStr "") = VFloat x /\ gt0 x = true.
Proof.
  intros p r H. unfold page_records in H. apply in_app_or in H. destruct H as [H|H].
  - apply in_flat_map in H. destruct H as (t & _ & H).
    unfold table_records in H. apply in_flat_map in H. destruct H as (rw & _ & H).
    unfold row_records in H. destruct (_ && _); [|contradiction].
    unfold parse_dividend_row in H.
    destruct (scan_cells (cleaned rw)) as [[d|] [a|]]; try contradiction.
    destruct (nonempty d && nonempty a); [|contradiction].
    destruct (float a) as [amount|]; [|contradiction].
    destruct (gt0 (fabs amount)) eqn:E; [|contradiction].
    destruct H as [<-|[]]. exists (fabs amount). split; [reflexivity|exact E].
  - unfold text_records in H. destruct (extract_text p) as [s|]; [|contradiction].
    destruct (nonempty s); [|contradiction].
    unfold parse_dividend_text in H. apply in_flat_map in H.
    destruct H as (m & _ & H). unfold text_record in H.
    destruct (float _) as [amount|]; [|contradiction].
    destruct (gt0 amount) eqn:E; [|contradiction].
    destruct H as [<-|[]]. exists amount. split; [reflexivity|exact E].
Qed.

(** C5: the result of the dividend extraction holds each (symbol, date,
    amount) triple once; it is the list of all records of the pages, table
    rows and text alike, with every record dropped whose triple an earlier
    record has, so a text record with the triple of a table record is gone. *)
Theorem one_record_per_triple : forall d : pdf,
  NoDup (map key_of (extract_dividends_pdf d))
  /\ extract_dividends_pdf d = first_occurrences [] (flat_map page_records d)
  /\ (forall r, In r (extract_dividends_pdf d) -> In r (flat_map page_records d))
  /\ (forall r, In r (flat_map page_records d) ->
                In (key_of r) (map key_of (extract_dividends_pdf d)))
  /\ (forall l1 r l2, In (key_of r) (map key_of l1) ->
                      dedup (l1 ++ r :: l2) = dedup (l1 ++ l2))
  /\ (forall from_table from_text,
        key_of from_table = key_of from_text ->
        dedup ([from_table] ++ [from_text]) = [from_table]).
Proof.
  intros d. unfold extract_dividends_pdf. rewrite dedup_first_occurrences.
  split; [apply first_occurrences_nodup|].
  split; [reflexivity|].
  split; [intros r H; apply first_occurrences_incl in H; tauto|].
  split.
  { intros r H. destruct (first_occurrences_covers _ [] r H) as [[]|H']. exact H'. }
  split.
  - intros l1 r l2 H. rewrite !dedup_first_occurrences.
    apply first_occurrences_later. right. exact H.
  - intros r1 r2 H. rewrite dedup_first_occurrences.
    cbn [app first_occurrences]. destruct (in_dec key_eq_dec (key_of r1) []) as [[]|_].
    destruct (in_dec key_eq_dec (key_of r2) [key_of r1]) as [_|n]; [reflexivity|].
    exfalso. apply n. left. exact H.
Qed.

Example aapl_page_records :
  page_records aapl_page = [aapl_from_table; aapl_from_text]
  /\ extract_dividends_pdf [aapl_page] = [aapl_from_table].
Proof. split; vm_compute; reflexivity. Qed.

Lemma one_record_per_triple_witness :
  dedup ([aapl_from_table] ++ [aapl_from_text]) = [aapl_from_table]
  /\ dedup ([aapl_from_table] ++ aapl_from_table :: [aapl_from_text])
     = dedup ([aapl_from_table] ++ [aapl_from_text])
  /\ In aapl_from_table (flat_map page_records [aapl_page])
  /\ In (key_of aapl_from_text) (map key_of (extract_dividends_pdf [aapl_page])).
Proof.
  destruct (one_record_per_triple [aapl_page]) as (_ & _ & H3 & H4 & H5 & H6).
  split; [|split; [|split]].
  - apply H6. reflexivity.
  - apply H5. left. reflexivity.
  - apply H3. vm_compute. left. reflexivity.
  - apply H4. vm_compute. right. left. reflexivity.
Defined.

(** C9: a table row of fewer than five cells gives no dividend record by the
    row path, whatever its cells hold; the rows that reach the row parser
    are those of five cells or more. *)
Theorem short_rows_are_skipped : forall (t : table),
  (forall r, List.length r < 5 -> row_records r = [])
  /\ table_records t
     = flat_map (fun r => opt_list (parse_dividend_row r))
                (filter (fun r => 5 <=? List.length r) t)
  /\ (parse_dividend_row short_row <> None
      /\ extract_dividends_pdf [mk_page [[short_row]] None] = []).
Proof.
  intros t. split; [|split].
  - intros r H. unfold row_records.
    destruct (Nat.leb_spec 5 (List.length r)); [lia|].
    rewrite andb_false_r. reflexivity.
  - unfold table_records. induction t as [|r rest IH]; [reflexivity|].
    cbn [flat_map filter]. rewrite IH. unfold row_records.
    destruct (Nat.leb_spec 5 (List.length r)).
    + destruct r; [cbn in *; lia|]. reflexivity.
    + rewrite andb_false_r. reflexivity.
  - split; [vm_compute; discriminate|vm_compute; reflexivity].
Qed.

Lemma short_rows_are_skipped_witness :
  List.length short_row < 5 /\ row_records short_row = [].
Proof.
  assert (H : List.length short_row < 5) by (cbn; lia).
  split; [exact H|]. apply (proj1 (short_rows_are_skipped [short_row]) short_row H).
Defined.

Lemma flat_map_nonempty : forall (A B : Type) (f : A -> list B) l,
  flat_map f l <> [] -> exists x, In x l /\ f x <> [].
Proof.
  intros A B f. induction l as [|x rest IH]; intros H; [contradiction|].
  cbn [flat_map] in H. destruct (f x) eqn:E.
  - destruct (IH H) as (y & Hy & Hf). exists y. split; [right|]; assumption.
  - exists x. split; [left; reflexivity|]. rewrite E. discriminate.
Qed.

(** C10: a row of the tax report gives a record only when it has four cells
    or more, a date and an amount are found in its cells, and its first
    cell, trimmed, is non-empty and has at most 15 characters; when the
    first cell is empty or longer, the row gives nothing, where the
    dividend row path would have put UNKNOWN for the symbol. *)
Theorem trade_row_needs_symbol :
  (forall r rec,
     parse_9a_trade_row r = Some rec ->
     4 <= List.length r
     /\ (exists c, In c (cleaned r) /\ finditer iso_date c <> [])
     /\ (exists c, In c (cleaned r)
                   /\ finditer amount_pattern_9a (replace "," "" c) <> [])
     /\ exists raw c0 rest,
          hd_error r = Some (Some raw) /\ c0 = strip raw
          /\ cleaned r = c0 :: rest /\ c0 <> "" /\ String.length c0 <= 15
          /\ get rec "symbol" (VStr "") = VStr c0)
  /\ (forall r,
        hd "" (cleaned r) = "" \/ 15 < String.length (hd "" (cleaned r)) ->
        parse_9a_trade_row r = None)
  /\ parse_9a_trade_row long_name_row = None
  /\ (exists rec, parse_dividend_row nameless_row = Some rec
                  /\ get rec "symbol" (VStr "") = VStr "UNKNOWN").
Proof.
  split; [|split; [|split]].
  - intros r rec H. unfold parse_9a_trade_row in H.
    destruct (Nat.eqb (List.length r) 0 || (List.length r <? 4)) eqn:Elen;
      [discriminate|].
    apply orb_false_iff in Elen. destruct Elen as [_ Elen].
    apply Nat.ltb_ge in Elen.
    destruct ((1 <=? List.length (flat_map cell_dates (cleaned r)))
              && (1 <=? List.length (flat_map cell_amounts (cleaned r)))) eqn:E;
      [|discriminate].
    apply andb_true_iff in E. destruct E as [Ed Ea].
    apply Nat.leb_le in Ed. apply Nat.leb_le in Ea.
    destruct (cleaned r) as [|c0 rest] eqn:Ec; [discriminate|].
    destruct (flat_map cell_dates (c0 :: rest)) as [|d0 ds] eqn:Edates;
      [discriminate|].
    destruct (nonempty c0 && (String.length c0 <=? 15)) eqn:Es; [|discriminate].
    apply andb_true_iff in Es. destruct Es as [Es1 Es2]. rewrite Es1 in H.
    inversion H; subst rec; clear H.
    split; [exact Elen|]. split; [|split].
    + destruct (flat_map_nonempty _ _ cell_dates (c0 :: rest)) as (c & Hc & Hf).
      { rewrite Edates. discriminate. }
      exists c. split; [exact Hc|]. intros Hn. apply Hf.
      unfold cell_dates. rewrite Hn. reflexivity.
    + destruct (flat_map_nonempty _ _ cell_amounts (c0 :: rest)) as (c & Hc & Hf).
      { destruct (flat_map cell_amounts (c0 :: rest)); [cbn in Ea; lia|discriminate]. }
      exists c. split; [exact Hc|]. intros Hn. apply Hf.
      unfold cell_amounts. rewrite Hn. reflexivity.
    + destruct r as [|x r']; [discriminate|].
      unfold cleaned in Ec. cbn [map] in Ec. inversion Ec as [[Hc0 Hrest]].
      subst c0 rest. destruct x as [raw|]; [|discriminate].
      cbn [clean] in *. destruct (nonempty raw); [|discriminate].
      exists raw, (strip raw), (map clean r').
      split; [reflexivity|]. split; [reflexivity|].
      split; [reflexivity|]. split; [|split].
      * destruct (strip raw); discriminate.
      * apply Nat.leb_le. exact Es2.
      * reflexivity.
  - intros r H. unfold parse_9a_trade_row.
    destruct (Nat.eqb (List.length r) 0 || (List.length r <? 4)); [reflexivity|].
    destruct (_ && _); [|reflexivity].
    destruct (cleaned r) as [|c0 rest]; [reflexivity|].
    destruct (flat_map cell_dates (c0 :: rest)); [reflexivity|].
    cbn [hd] in H. destruct H as [->|H]; [reflexivity|].
    apply Nat.leb_gt in H. rewrite H, andb_false_r. reflexivity.
  - vm_compute. reflexivity.
  - eexists. split; vm_compute; reflexivity.
Qed.

Lemma trade_row_needs_symbol_witness :
  (exists raw c0 rest,
     hd_error trade_row = Some (Some raw) /\ c0 = strip raw
     /\ cleaned trade_row = c0 :: rest /\ c0 <> "" /\ String.length c0 <= 15
     /\ VStr "AAPL" = VStr c0)
  /\ parse_9a_trade_row [Some "   "; Some "2024-01-15"; Some "12.50"; None] = None.
Proof.
  destruct trade_row_needs_symbol as (H1 & H2 & _).
  split.
  - apply (H1 trade_row
             [("symbol", VStr "AAPL"); ("date", VStr "2024-01-15");
              ("amounts", VFloats [FFin 2024; FFin (-1); FFin (-15);
                                   FFin (scale10 1250 (-2))]);
              ("source", VStr "9a_pdf")]).
    vm_compute. reflexivity.
  - apply H2. left. reflexivity.
Defined.

Lemma cost_amounts_In : forall cells x,
  In x (cost_amounts cells)
  <-> exists c, In c cells /\ float (replace " " "" (replace "," "" c)) = Some x.
Proof.
  intros cells x. unfold cost_amounts. rewrite in_flat_map. split.
  - intros (c & Hc & Hx). exists c. split; [exact Hc|].
    destruct (float _) as [y|]; [|destruct Hx].
    destruct Hx as [->|[]]. reflexivity.
  - intros (c & Hc & Hx). exists c. split; [exact Hc|]. rewrite Hx. left. reflexivity.
Qed.

Lemma cost_amounts_parsed : forall cells,
  cost_amounts cells = cost_amounts (filter parses cells)
  /\ cost_amounts (failed_cells cells) = [].
Proof.
  unfold cost_amounts, failed_cells. induction cells as [|c rest [IH1 IH2]];
    [split; reflexivity|].
  cbn [flat_map filter].
  assert (Hp : parses c = match float (replace " " "" (replace "," "" c)) with
                          | Some _ => true
                          | None => false
                          end) by reflexivity.
  destruct (float (replace " " "" (replace "," "" c))) eqn:E; rewrite Hp;
    cbn [negb opt_list app].
  - split; [|exact IH2]. cbn [flat_map]. rewrite E. cbn [opt_list app].
    f_equal. exact IH1.
  - split; [exact IH1|]. cbn [flat_map]. rewrite E. exact IH2.
Qed.

(** The description of a cost record holds the cells that parsed as well:
    the row [Fee], [1.50] is described as [Fee | 1.50], not as [Fee]. *)
Lemma description_keeps_parsed_cells :
  2 <= List.length fee_row
  /\ cost_row_records fee_row
     = [[("description", VStr "Fee | 1.50");
         ("amounts", VFloats [FFin (scale10 15 (-1))]);
         ("source", VStr "cost_pdf")]]
  /\ join " | " (failed_cells (cleaned fee_row)) = "Fee"
  /\ ~ (forall r rec,
          2 <= List.length r -> In rec (cost_row_records r) ->
          get rec "description" (VStr "")
          = VStr (join " | " (failed_cells (cleaned r)))).
Proof.
  split; [cbn; lia|]. split; [vm_compute; reflexivity|].
  split; [vm_compute; reflexivity|].
  intros H. specialize (H fee_row _ ltac:(cbn; lia) (or_introl eq_refl)).
  vm_compute in H. discriminate H.
Qed.

(** C6, as the code has it: for a table row of two cells or more, the cells
    that [float] refuses once commas and blanks are removed give no amount;
    the description is made of all the non-empty cells of the row, those
    that parsed among them, joined with [ | ]; and the row gives a record
    exactly when one of its cells parsed. *)
Theorem cost_description_and_amounts : forall r,
  2 <= List.length r ->
  (cost_row_records r <> [] <-> exists c, In c (cleaned r) /\ parses c = true)
  /\ (forall x, In x (cost_amounts (cleaned r))
                <-> exists c, In c (cleaned r)
                              /\ float (replace " " "" (replace "," "" c)) = Some x)
  /\ cost_amounts (cleaned r) = cost_amounts (filter parses (cleaned r))
  /\ cost_amounts (failed_cells (cleaned r)) = []
  /\ (forall rec, In rec (cost_row_records r) ->
        get rec "description" (VStr "")
        = VStr (join " | " (filter nonempty (cleaned r)))
        /\ get rec "amounts" (VStr "") = VFloats (cost_amounts (cleaned r))).
Proof.
  intros r Hlen.
  assert (Hrec : cost_row_records r
                 = match cost_amounts (cleaned r) with
                   | [] => []
                   | _ :: _ =>
                       [[("description", VStr (cost_description (cleaned r)));
                         ("amounts", VFloats (cost_amounts (cleaned r)));
                         ("source", VStr "cost_pdf")]]
                   end).
  { unfold cost_row_records. destruct (Nat.leb_spec 2 (List.length r)); [|lia].
    destruct r; [cbn in Hlen; lia|]. reflexivity. }
  split; [|split; [apply cost_amounts_In|split; [apply cost_amounts_parsed|
          split; [apply cost_amounts_parsed|]]]].
  - rewrite Hrec. split.
    + intros H. destruct (cost_amounts (cleaned r)) as [|x rest] eqn:E;
        [contradiction|].
      assert (Hx : In x (cost_amounts (cleaned r))) by (rewrite E; left; reflexivity).
      apply cost_amounts_In in Hx. destruct Hx as (c & Hc & Hf).
      exists c. split; [exact Hc|]. unfold parses. rewrite Hf. reflexivity.
    + intros (c & Hc & Hp). unfold parses in Hp.
      destruct (float (replace " " "" (replace "," "" c))) as [x|] eqn:E;
        [|discriminate].
      assert (Hx : In x (cost_amounts (cleaned r))).
      { apply cost_amounts_In. exists c. split; assumption. }
      destruct (cost_amounts (cleaned r)); [contradiction|discriminate].
  - intros rec H. rewrite Hrec in H.
    destruct (cost_amounts (cleaned r)) eqn:E; [contradiction|].
    destruct H as [<-|[]]. split; reflexivity.
Qed.

Lemma cost_description_and_amounts_witness :
  2 <= List.length fee_row
  /\ (exists c, In c (cleaned fee_row) /\ parses c = true).
Proof.
  assert (H : 2 <= List.length fee_row) by (cbn; lia).
  split; [exact H|].
  apply (proj1 (proj1 (cost_description_and_amounts fee_row H))).
  vm_compute. discriminate.
Defined.

End ExtractLynxPdfsSpec.

(** * Further properties *)

(** ** What a match is made of *)

Module MatchFacts.
Import PyStr PyStrFacts Re ReFacts.

Lemma append_nil_r : forall s : string, s ++ "" = s.
Proof. induction s as [|c t IH]; [reflexivity|]. cbn [append]. now rewrite IH. Qed.

Lemma append_assoc : forall a b c : string, (a ++ b) ++ c = a ++ (b ++ c).
Proof. induction a as [|x t IH]; intros b c; [reflexivity|]. cbn [append]. now rewrite IH. Qed.

Lemma length_append : forall a b : string,
  String.length (a ++ b) = String.length a + String.length b.
Proof. induction a as [|x t IH]; intros b; [reflexivity|]. cbn. now rewrite IH. Qed.

Lemma take_append : forall w s, take (String.length w) (w ++ s) = w.
Proof. induction w as [|c t IH]; intros s; [destruct s; reflexivity|]. cbn. now rewrite IH. Qed.

Lemma take_span : forall pos w s, take (pos + String.length w - pos) (w ++ s) = w.
Proof. intros pos w s. replace (pos + String.length w - pos) with (String.length w) by lia.
  apply take_append. Qed.

(** A repetition that succeeds, with the bounds on the run it took. *)
Lemma rep_spans : forall (A : Type) p greedy s lo hi pos (k : nat -> string -> option A) a,
  rep p lo hi greedy pos s k = Some a ->
  exists w s', s = w ++ s' /\ all_chars p w = true /\ lo <= String.length w
               /\ match hi with Some h => String.length w <= h | None => True end
               /\ k (pos + String.length w) s' = Some a.
Proof.
  intros A p greedy. induction s as [|c t IH]; intros lo hi pos k a H; cbn [rep] in H.
  - exists "", "". rewrite Nat.add_0_r.
    destruct lo; [|destruct greedy; discriminate].
    split; [reflexivity|]. split; [reflexivity|]. split; [apply Nat.le_refl|].
    split; [destruct hi; cbn; [lia|exact I]|].
    destruct greedy; [exact H|]. destruct (k pos ""); [exact H|discriminate].
  - assert (Hmore : forall x,
      (if may_take hi && p c
       then rep p (Nat.pred lo) (option_map Nat.pred hi) greedy (S pos) t k
       else None) = Some x ->
      exists w s', String c t = w ++ s' /\ all_chars p w = true
                   /\ lo <= String.length w
                   /\ match hi with Some h => String.length w <= h | None => True end
                   /\ k (pos + String.length w) s' = Some x).
    { intros x Hx. destruct (may_take hi && p c) eqn:E; [|discriminate].
      apply andb_true_iff in E. destruct E as [Et Ec].
      destruct (IH _ _ _ _ _ Hx) as (w & s' & -> & Hw & Hlo & Hhi & Hk).
      exists (String c w), s'. cbn [append all_chars String.length].
      rewrite Ec, Hw, Nat.add_succ_r. split; [reflexivity|]. split; [reflexivity|].
      split; [lia|]. split; [|exact Hk].
      destruct hi as [[|h]|]; cbn in *; [discriminate|lia|exact I]. }
    assert (Hstop : forall x,
      match lo with O => k pos (String c t) | S _ => None end = Some x ->
      exists w s', String c t = w ++ s' /\ all_chars p w = true
                   /\ lo <= String.length w
                   /\ match hi with Some h => String.length w <= h | None => True end
                   /\ k (pos + String.length w) s' = Some x).
    { intros x Hx. destruct lo; [|discriminate].
      exists "", (String c t). rewrite Nat.add_0_r.
      split; [reflexivity|]. split; [reflexivity|]. split; [apply Nat.le_refl|].
      split; [destruct hi; cbn; [lia|exact I]|exact Hx]. }
    destruct greedy.
    + destruct (if may_take hi && p c then _ else None) eqn:E.
      * inversion H; subst. now apply Hmore.
      * now apply Hstop.
    + destruct (match lo with O => _ | S _ => None end) eqn:E.
      * inversion H; subst. now apply Hstop.
      * now apply Hmore.
Qed.

(** The matcher finds only what the pattern spans. *)
Lemma exec_sound : forall (A : Type) r pos s g (k : nat -> string -> groups -> option A) a,
  exec r pos s g k = Some a ->
  exists pos' s' g', spans r pos s g pos' s' g' /\ k pos' s' g' = Some a.
Proof.
  intros A. induction r as [|p|r1 IH1 r2 IH2|r1 IH1 r2 IH2|p lo hi gr|i r IH| |];
    intros pos s g k a H; cbn [exec] in H.
  - exists pos, s, g. cbn. auto.
  - destruct s as [|c t]; [discriminate|]. destruct (p c) eqn:E; [|discriminate].
    exists (S pos), t, g. split; [|exact H]. exists c. auto.
  - apply IH1 in H. destruct H as (pm & sm & gm & H1 & H).
    apply IH2 in H. destruct H as (pos' & s' & g' & H2 & H).
    exists pos', s', g'. split; [|exact H]. exists pm, sm, gm. auto.
  - destruct (exec r1 pos s g k) eqn:E.
    + inversion H; subst. apply IH1 in E. destruct E as (pos' & s' & g' & H1 & E).
      exists pos', s', g'. split; [left; exact H1|exact E].
    + apply IH2 in H. destruct H as (pos' & s' & g' & H2 & H).
      exists pos', s', g'. split; [right; exact H2|exact H].
  - apply rep_spans in H. destruct H as (w & s' & -> & Hw & Hlo & Hhi & H).
    exists (pos + String.length w), s', g. split; [|exact H].
    exists w. auto 10.
  - apply IH in H. destruct H as (pos' & s' & g0 & H1 & H).
    exists pos', s', ((i, take (pos' - pos) s) :: g0). split; [|exact H].
    exists g0. auto.
  - destruct (Nat.eqb_spec pos 0); [|discriminate].
    exists pos, s, g. cbn. auto.
  - exists pos, s, g. split; [|destruct s as [|c [|]]; try discriminate; auto;
      destruct (Ascii.eqb c "010"); [exact H|discriminate]].
    destruct s as [|c [|c' t]]; cbn; try discriminate; auto.
    destruct (Ascii.eqb_spec c "010"); [subst; auto|discriminate].
Qed.

(** What a pattern spans is a prefix of the subject, and the offsets count it. *)
Lemma spans_prefix : forall r pos s g pos' s' g',
  spans r pos s g pos' s' g' ->
  exists w, s = w ++ s' /\ pos' = pos + String.length w.
Proof.
  induction r as [|p|r1 IH1 r2 IH2|r1 IH1 r2 IH2|p lo hi gr|i r IH| |];
    intros pos s g pos' s' g' H; cbn [spans] in H.
  - destruct H as (-> & -> & _). exists "". cbn. split; [reflexivity|lia].
  - destruct H as (c & -> & _ & -> & _). exists (String c ""). cbn. split; [reflexivity|lia].
  - destruct H as (pm & sm & gm & H1 & H2).
    apply IH1 in H1. apply IH2 in H2.
    destruct H1 as (w1 & -> & ->). destruct H2 as (w2 & -> & ->).
    exists (w1 ++ w2). rewrite append_assoc, length_append. split; [reflexivity|lia].
  - destruct H as [H|H]; eauto.
  - destruct H as (w & -> & _ & _ & _ & -> & _). exists w. auto.
  - destruct H as (g0 & H & _). eauto.
  - destruct H as (_ & -> & -> & _). exists "". cbn. split; [reflexivity|lia].
  - destruct H as (_ & -> & -> & _). exists "". cbn. split; [reflexivity|lia].
Qed.

(** A match at an offset: what it spans, and its text. *)
Lemma match_at_sound : forall r pos s m,
  match_at r pos s = Some m ->
  exists w s' g',
    s = w ++ s' /\ spans r pos s [] (pos + String.length w) s' g'
    /\ m = mk_rmatch pos (pos + String.length w) w g'.
Proof.
  intros r pos s m H. unfold match_at in H. apply exec_sound in H.
  destruct H as (pos' & s' & g' & Hs & H). inversion H; subst m; clear H.
  destruct (spans_prefix _ _ _ _ _ _ _ Hs) as (w & -> & ->).
  exists w, s', g'. rewrite take_span. auto.
Qed.

(** Every match of [finditer], and the match of [search], is a match at some
    offset of some ending of the subject. *)
Lemma finditer_sound : forall r s pos skip m,
  In m (finditer_from r pos skip s) ->
  exists pos' t, endswith s t = true /\ match_at r pos' t = Some m.
Proof.
  intros r. induction s as [|c t IH]; intros pos skip m H.
  - destruct skip; cbn [finditer_from] in H; [|contradiction].
    destruct (match_at r pos "") eqn:E; [|contradiction].
    destruct H as [<-|[]]. exists pos, "". auto.
  - destruct skip; cbn [finditer_from] in H.
    + destruct (match_at r pos (String c t)) eqn:E.
      * destruct H as [<-|H].
        -- exists pos, (String c t). split; [apply endswith_refl|exact E].
        -- apply IH in H. destruct H as (pos' & t' & Ht & H).
           exists pos', t'. split; [now apply endswith_cons|exact H].
      * apply IH in H. destruct H as (pos' & t' & Ht & H).
        exists pos', t'. split; [now apply endswith_cons|exact H].
    + apply IH in H. destruct H as (pos' & t' & Ht & H).
      exists pos', t'. split; [now apply endswith_cons|exact H].
Qed.

Lemma search_sound : forall r s pos m,
  search_from r pos s = Some m ->
  exists pos' t, endswith s t = true /\ match_at r pos' t = Some m.
Proof.
  intros r. induction s as [|c t IH]; intros pos m H; cbn [search_from] in H.
  - destruct (match_at r pos "") eqn:E; [|discriminate].
    inversion H; subst. exists pos, "". auto.
  - destruct (match_at r pos (String c t)) eqn:E.
    + inversion H; subst. exists pos, (String c t). split; [apply endswith_refl|exact E].
    + apply IH in H. destruct H as (pos' & t' & Ht & H).
      exists pos', t'. split; [now apply endswith_cons|exact H].
Qed.

(** The engine is complete for what a pattern spans: a repetition fails only
    when its continuation refuses every admissible run. *)
Lemma rep_complete : forall (A : Type) p greedy w lo hi pos s' (k : nat -> string -> option A),
  rep p lo hi greedy pos (w ++ s') k = None ->
  all_chars p w = true -> lo <= String.length w ->
  match hi with Some h => String.length w <= h | None => True end ->
  k (pos + String.length w) s' = None.
Proof.
  intros A p greedy. induction w as [|c w IH]; intros lo hi pos s' k H Hw Hlo Hhi.
  - cbn [append String.length] in *. rewrite Nat.add_0_r.
    assert (lo = 0) by lia. subst lo.
    destruct s' as [|c t]; cbn [rep] in H.
    + destruct greedy; [exact H|]. destruct (k pos ""); [discriminate|reflexivity].
    + destruct greedy.
      * destruct (if may_take hi && p c then _ else None); [discriminate|exact H].
      * destruct (k pos (String c t)); [discriminate|reflexivity].
  - cbn [append String.length all_chars] in *.
    apply andb_true_iff in Hw. destruct Hw as [Hc Hw].
    assert (Hm : may_take hi = true).
    { destruct hi as [[|h]|]; [lia|reflexivity|reflexivity]. }
    cbn [rep] in H. rewrite Hm, Hc in H. cbn [andb] in H.
    rewrite Nat.add_succ_r.
    apply (IH (Nat.pred lo) (option_map Nat.pred hi) (S pos)).
    + destruct greedy.
      * destruct (rep p (Nat.pred lo) _ true (S pos) (w ++ s') k);
          [discriminate|reflexivity].
      * destruct lo; [destruct (k pos _); [discriminate|exact H]|exact H].
    + exact Hw.
    + lia.
    + destruct hi as [h|]; cbn [option_map]; [lia|exact I].
Qed.

(** An attempt fails only when the continuation refuses everything the
    pattern spans. *)
Lemma exec_complete : forall (A : Type) r pos s g (k : nat -> string -> groups -> option A),
  exec r pos s g k = None ->
  forall pos' s' g', spans r pos s g pos' s' g' -> k pos' s' g' = None.
Proof.
  intros A. induction r as [|p|r1 IH1 r2 IH2|r1 IH1 r2 IH2|p lo hi gr|i r IH| |];
    intros pos s g k H pos' s' g' Hs; cbn [exec] in H; cbn [spans] in Hs.
  - destruct Hs as (-> & -> & ->). exact H.
  - destruct Hs as (c & -> & Hc & -> & ->). rewrite Hc in H. exact H.
  - destruct Hs as (pm & sm & gm & H1 & H2).
    apply (IH2 _ _ _ _ (IH1 _ _ _ _ H _ _ _ H1) _ _ _ H2).
  - destruct (exec r1 pos s g k) eqn:E; [discriminate|].
    destruct Hs as [Hs|Hs]; [apply (IH1 _ _ _ _ E _ _ _ Hs)|apply (IH2 _ _ _ _ H _ _ _ Hs)].
  - destruct Hs as (w & -> & Hw & Hlo & Hhi & -> & ->).
    apply (rep_complete _ _ _ _ _ _ _ _ (fun pos' s' => k pos' s' g) H Hw Hlo Hhi).
  - destruct Hs as (g0 & Hs & ->). apply (IH _ _ _ _ H _ _ _ Hs).
  - destruct Hs as (-> & -> & -> & ->). exact H.
  - destruct Hs as (Hs & -> & -> & ->).
    destruct Hs as [->| ->]; [exact H|]. exact H.
Qed.

(** A pattern that spans some prefix of the subject matches there. *)
Lemma match_at_complete : forall r pos s e s' g',
  spans r pos s [] e s' g' -> match_at r pos s <> None.
Proof.
  intros r pos s e s' g' Hs H. unfold match_at in H.
  apply (exec_complete _ _ _ _ _ _ H) in Hs. discriminate.
Qed.

(** When [finditer] finds nothing, the pattern matches at no offset. *)
Lemma finditer_nil : forall r pre pos t,
  finditer_from r pos 0 (pre ++ t) = [] ->
  match_at r (pos + String.length pre) t = None.
Proof.
  intros r. induction pre as [|c pre IH]; intros pos t H.
  - cbn [append String.length] in *. rewrite Nat.add_0_r.
    destruct t; cbn [finditer_from] in H;
      (destruct (match_at r pos _); [discriminate|reflexivity]).
  - cbn [append finditer_from] in H.
    destruct (match_at r pos (String c (pre ++ t))); [discriminate|].
    apply IH in H. cbn [String.length]. rewrite Nat.add_succ_r. exact H.
Qed.

(** A pattern that spans a prefix of some ending of the subject is found by
    [finditer]. *)
Lemma finditer_complete : forall r pre t e s' g',
  spans r (String.length pre) t [] e s' g' -> finditer r (pre ++ t) <> [].
Proof.
  intros r pre t e s' g' Hs H. unfold finditer in H. apply finditer_nil in H.
  apply (match_at_complete _ _ _ _ _ _ Hs). exact H.
Qed.

Lemma append_inv_tail : forall a b s : string, a ++ s = b ++ s -> a = b.
Proof.
  intros a b s H.
  assert (Hl : String.length a = String.length b).
  { apply (f_equal String.length) in H. rewrite !length_append in H. lia. }
  rewrite <- (take_append a s), <- (take_append b s), H, Hl. reflexivity.
Qed.


(** A group holds the text that its pattern spans. *)
Lemma spans_group : forall i a pos s g pos' s' g',
  spans (Grp i a) pos s g pos' s' g' ->
  exists w g0, s = w ++ s' /\ pos' = pos + String.length w
               /\ spans a pos (w ++ s') g pos' s' g0 /\ g' = (i, w) :: g0.
Proof.
  intros i a pos s g pos' s' g' H. cbn [spans] in H. destruct H as (g0 & H & ->).
  destruct (spans_prefix _ _ _ _ _ _ _ H) as (w & -> & ->).
  exists w, g0. rewrite take_span. auto.
Qed.

Lemma spans_cat : forall a b pos s g pos' s' g',
  spans (Cat a b) pos s g pos' s' g' ->
  exists pm sm gm, spans a pos s g pm sm gm /\ spans b pm sm gm pos' s' g'.
Proof. intros. assumption. Qed.

(** What a repetition spans, without its ending. *)
Lemma spans_rep_text : forall p lo hi gr pos w s g pos' g',
  spans (Rep p lo hi gr) pos (w ++ s) g pos' s g' ->
  all_chars p w = true /\ lo <= String.length w
  /\ match hi with Some h => String.length w <= h | None => True end /\ g' = g.
Proof.
  intros p lo hi gr pos w s g pos' g' H. cbn [spans] in H.
  destruct H as (w' & He & Hw & Hlo & Hhi & _ & Hg).
  apply append_inv_tail in He. subst w'. auto.
Qed.

Lemma match_at_spans : forall r pos t m,
  match_at r pos t = Some m ->
  exists e s' g', spans r pos t [] e s' g' /\ m_groups m = g'.
Proof.
  intros r pos t m H. unfold match_at in H. apply exec_sound in H.
  destruct H as (e & s' & g' & Hs & H). inversion H; subst m.
  exists e, s', g'. auto.
Qed.



End MatchFacts.

(** ** More on the PDF extractor *)

Module ExtractLynxPdfsMore.
Import PyStr PyStrFacts Re ReFacts MatchFacts PyFloat ExtractLynxPdfs Samples.


Lemma digit_not_sep : forall c,
  digit c = true -> Ascii.eqb "/" c = false /\ Ascii.eqb "." c = false /\ Ascii.eqb "-" c = false.
Proof.
  intros c H. repeat split.
  - destruct (Ascii.eqb_spec "/" c); [subst; discriminate|reflexivity].
  - destruct (Ascii.eqb_spec "." c); [subst; discriminate|reflexivity].
  - destruct (Ascii.eqb_spec "-" c); [subst; discriminate|reflexivity].
Qed.

Lemma two_chars : forall w, 2 <= String.length w -> String.length w <= 2 ->
  exists a b, w = String a (String b "").
Proof.
  intros [|a [|b [|c r]]] H1 H2; cbn in *; try lia. eauto.
Qed.

Lemma four_chars : forall w, 4 <= String.length w -> String.length w <= 4 ->
  exists a b c d, w = String a (String b (String c (String d ""))).
Proof.
  intros [|a [|b [|c [|d [|e r]]]]] H1 H2; cbn in *; try lia. eauto 6.
Qed.

Ltac open_spans H :=
  cbn [spans seq exactly chr opt plus star star_lazy lit lit_i chr_i] in H;
  repeat match goal with
         | H : exists _, _ |- _ => destruct H
         | H : _ /\ _ |- _ => destruct H
         end.


Ltac known_lengths :=
  repeat match goal with
         | H1 : 4 <= String.length ?w, H2 : String.length ?w <= 4 |- _ =>
             destruct (four_chars w H1 H2) as (? & ? & ? & ? & ?); subst w; clear H1 H2
         | H1 : 2 <= String.length ?w, H2 : String.length ?w <= 2 |- _ =>
             destruct (two_chars w H1 H2) as (? & ? & ?); subst w; clear H1 H2
         | H : Ascii.eqb _ ?c = true |- _ => apply Ascii.eqb_eq in H; subst c
         end.

Ltac digit_facts :=
  cbn [all_chars] in *;
  repeat match goal with
         | H : _ && _ = true |- _ => apply andb_true_iff in H; destruct H
         end.

Ltac use_digits :=
  repeat match goal with
         | H : digit ?c = true |- _ => rewrite ?H; clear H
         end.

Ltac strip_tail t s' :=
  lazymatch t with
  | s' => constr:(EmptyString)
  | String ?c ?r => let r' := strip_tail r s' in constr:(String c r')
  end.

(** From [w ++ s' = c1 ... cn s'] to [w = c1 ... cn]. *)
Ltac cancel_tail :=
  match goal with
  | H : ?w ++ ?s' = _ |- _ =>
      is_var w; cbn [append] in H;
      lazymatch type of H with
      | _ = ?rhs =>
          let t := strip_tail rhs s' in
          let Hw := fresh "Hw" in
          assert (Hw : w = t) by (apply (append_inv_tail w t s'); exact H);
          clear H; subst w
      end
  end.

Lemma iso_text : forall pos t m,
  match_at iso_date pos t = Some m -> iso_shape (m_text m) = true.
Proof.
  intros pos t m H. apply match_at_sound in H.
  destruct H as (w & s' & g' & -> & Hs & ->). cbn [m_text].
  unfold iso_date in Hs. open_spans Hs. subst. known_lengths. digit_facts.
  cancel_tail. unfold iso_shape. cbn -[digit]. use_digits. reflexivity.
Qed.

Ltac sep_facts :=
  repeat match goal with
         | H : digit ?c = true |- _ =>
             lazymatch goal with
             | _ : Ascii.eqb "/" c = false |- _ => fail
             | _ => destruct (digit_not_sep c H) as (? & ? & ?)
             end
         end.

Ltac rw_facts :=
  repeat match goal with
         | H : digit _ = true |- _ => rewrite H
         | H : Ascii.eqb _ _ = false |- _ => rewrite H
         end.

Ltac const_eqb :=
  repeat match goal with
         | |- context [Ascii.eqb (Ascii ?a0 ?a1 ?a2 ?a3 ?a4 ?a5 ?a6 ?a7)
                                 (Ascii ?b0 ?b1 ?b2 ?b3 ?b4 ?b5 ?b6 ?b7)] =>
             let v := eval vm_compute in
                      (Ascii.eqb (Ascii a0 a1 a2 a3 a4 a5 a6 a7)
                                 (Ascii b0 b1 b2 b3 b4 b5 b6 b7)) in
             change (Ascii.eqb (Ascii a0 a1 a2 a3 a4 a5 a6 a7)
                               (Ascii b0 b1 b2 b3 b4 b5 b6 b7)) with v
         end.

Ltac simplify_chars :=
  repeat (progress (cbn -[digit Ascii.eqb]; rw_facts; const_eqb)).

(** The date that the row parser finds in a cell comes out of
    [normalize_date] as YYYY-MM-DD. *)
Lemma date_text : forall pos t m,
  match_at date_pattern pos t = Some m ->
  iso_shape (normalize_date (m_text m)) = true.
Proof.
  intros pos t m H. apply match_at_sound in H.
  destruct H as (w & s' & g' & -> & Hs & ->). cbn [m_text].
  rewrite ExtractLynxPdfsSpec.normalize_date_by_shape.
  unfold date_pattern, iso_date in Hs. cbn [spans] in Hs.
  destruct Hs as [Hs|[Hs|Hs]]; open_spans Hs; subst; known_lengths; digit_facts;
    cancel_tail; unfold day_first_shape, reordered, iso_shape;
    sep_facts; simplify_chars; reflexivity.
Qed.

Lemma substring_0_0 : forall s, substring 0 0 s = "".
Proof. destruct s; reflexivity. Qed.

(** A string of a day-first shape is reordered into YYYY-MM-DD, which has
    neither day-first shape. *)
Lemma reordered_is_iso : forall sep s,
  day_first_shape sep s = true ->
  iso_shape (reordered s) = true
  /\ day_first_shape "/" (reordered s) = false
  /\ day_first_shape "." (reordered s) = false.
Proof.
  intros sep s H. pose proof (ExtractLynxPdfsSpec.day_first_match sep s) as Hm.
  destruct (rmatch_ (day_first_date sep) s) as [m|] eqn:E; [clear Hm H|congruence].
  apply match_at_sound in E. destruct E as (w & s' & g' & -> & Hs & _).
  unfold day_first_date in Hs. open_spans Hs. subst. known_lengths. digit_facts.
  cancel_tail. sep_facts.
  unfold day_first_shape, reordered, iso_shape.
  repeat split; cbn -[digit Ascii.eqb]; rewrite ?substring_0_0; simplify_chars;
    reflexivity.
Qed.

(** X1: normalizing a date twice gives what normalizing it once gives, and a
    string of a day-first shape comes out as YYYY-MM-DD, whatever follows
    the date in it. *)
Theorem normalize_date_idempotent : forall s,
  normalize_date (normalize_date s) = normalize_date s
  /\ (day_first_shape "/" s || day_first_shape "." s = true ->
      iso_shape (normalize_date s) = true).
Proof.
  intros s. rewrite (ExtractLynxPdfsSpec.normalize_date_by_shape s).
  destruct (day_first_shape "/" s || day_first_shape "." s) eqn:E.
  - assert (H : iso_shape (reordered s) = true
                /\ day_first_shape "/" (reordered s) = false
                /\ day_first_shape "." (reordered s) = false).
    { apply orb_true_iff in E. destruct E as [E|E]; eapply reordered_is_iso; exact E. }
    destruct H as (H1 & H2 & H3).
    rewrite ExtractLynxPdfsSpec.normalize_date_by_shape, H2, H3. cbn [orb].
    split; [reflexivity|intros _; exact H1].
  - rewrite ExtractLynxPdfsSpec.normalize_date_by_shape, E.
    split; [reflexivity|discriminate].
Qed.

Lemma normalize_date_idempotent_witness :
  iso_shape (normalize_date "31/01/2024 12:00") = true.
Proof.
  apply (proj2 (normalize_date_idempotent "31/01/2024 12:00")). reflexivity.
Defined.


(** The date that the loop over the cells ends with was there at the start,
    or is what the date pattern found in a cell. *)
Lemma scan_cells_date : forall cells st d,
  fst (fold_left scan_cell cells st) = Some d ->
  fst st = Some d
  \/ exists c m, In c cells /\ search date_pattern c = Some m /\ d = group m 0.
Proof.
  induction cells as [|c rest IH]; intros st d H; [left; exact H|].
  cbn [fold_left] in H. apply IH in H. destruct H as [H|(c' & m & Hin & Hm & Hd)].
  - destruct st as [ds am]. unfold scan_cell in H. cbn [fst] in *.
    destruct (negb (truthy ds)); [|left; exact H].
    destruct (search date_pattern c) as [m|] eqn:E; [|left; exact H].
    right. exists c, m. split; [left; reflexivity|]. split; [exact E|congruence].
  - right. exists c', m. split; [right; exact Hin|]. split; assumption.
Qed.

Lemma found_date_is_iso : forall c m,
  search date_pattern c = Some m ->
  iso_shape (normalize_date (group m 0)) = true /\ nonempty (group m 0) = true.
Proof.
  intros c m H. apply search_sound in H. destruct H as (pos & t & _ & H).
  apply date_text in H. cbn [group]. split; [exact H|].
  destruct (m_text m); [discriminate H|reflexivity].
Qed.

(** X2: the date of every record of the dividend row path has the form
    YYYY-MM-DD, whichever of the three date forms the cell held. *)
Theorem row_date_is_iso : forall r rec,
  parse_dividend_row r = Some rec ->
  exists d, get rec "date" (VStr "") = VStr d /\ iso_shape d = true.
Proof.
  intros r rec H. unfold parse_dividend_row in H.
  destruct (scan_cells (cleaned r)) as [d a] eqn:E.
  destruct d as [d|]; [|discriminate]. destruct a as [a|]; [|discriminate].
  destruct (nonempty d && nonempty a); [|discriminate].
  destruct (float a) as [amount|]; [|discriminate].
  destruct (gt0 (fabs amount)); [|discriminate].
  inversion H; subst rec; clear H.
  exists (normalize_date d). split; [reflexivity|].
  assert (Hd : fst (fold_left scan_cell (cleaned r) (None, None)) = Some d).
  { unfold scan_cells in E. rewrite E. reflexivity. }
  apply scan_cells_date in Hd. destruct Hd as [Hd|(c & m & _ & Hm & ->)];
    [discriminate|].
  apply (found_date_is_iso c m Hm).
Qed.

Lemma row_date_is_iso_witness :
  exists d, VStr "2024-01-31" = VStr d /\ iso_shape d = true.
Proof.
  apply (row_date_is_iso
           [Some "KESKOB"; Some "paid 31.01.2024"; Some "Dividend"; Some "0.50"; Some "EUR"]
           [("symbol", VStr "KESKOB"); ("date", VStr "2024-01-31");
            ("amount", VFloat (FFin (scale10 50 (-2))));
            ("raw_amount", VFloat (FFin (scale10 50 (-2))));
            ("source", VStr "lynx_pdf")]).
  vm_compute. reflexivity.
Defined.

(** X3: the symbol of every record of the dividend row path is a non-empty
    alphabetic string of at most 10 characters: a cell of the row, or the
    placeholder UNKNOWN when no cell is such a string. *)
Theorem row_symbol_is_alphabetic : forall r rec,
  parse_dividend_row r = Some rec ->
  exists sym,
    get rec "symbol" (VStr "") = VStr sym
    /\ isalpha sym = true /\ String.length sym <= 10
    /\ (In sym (cleaned r)
        \/ (sym = "UNKNOWN"
            /\ forall c, In c (cleaned r) -> looks_like_symbol c = false)).
Proof.
  intros r rec H. unfold parse_dividend_row in H.
  destruct (scan_cells (cleaned r)) as [[d|] [a|]]; try discriminate.
  destruct (nonempty d && nonempty a); [|discriminate].
  destruct (float a) as [amount|]; [|discriminate].
  destruct (gt0 (fabs amount)); [|discriminate].
  inversion H; subst rec; clear H. cbn [get String.eqb Ascii.eqb Bool.eqb].
  destruct (find looks_like_symbol (cleaned r)) as [sym|] eqn:E.
  - apply find_some in E. destruct E as [Hin Hs].
    unfold looks_like_symbol in Hs.
    apply andb_true_iff in Hs. destruct Hs as [Hs Ha].
    apply andb_true_iff in Hs. destruct Hs as [Hn Hl].
    cbn [truthy]. rewrite Hn. exists sym.
    split; [reflexivity|]. split; [exact Ha|].
    split; [apply Nat.leb_le; exact Hl|left; exact Hin].
  - exists "UNKNOWN". split; [reflexivity|]. split; [reflexivity|].
    split; [cbn; lia|]. right. split; [reflexivity|].
    intros c Hc. apply (find_none _ _ E c Hc).
Qed.

Lemma row_symbol_is_alphabetic_witness :
  exists sym,
    VStr "UNKNOWN" = VStr sym
    /\ isalpha sym = true /\ String.length sym <= 10
    /\ (In sym (cleaned nameless_row)
        \/ (sym = "UNKNOWN"
            /\ forall c, In c (cleaned nameless_row) -> looks_like_symbol c = false)).
Proof.
  apply (row_symbol_is_alphabetic nameless_row
           [("symbol", VStr "UNKNOWN"); ("date", VStr "2024-01-15");
            ("amount", VFloat (FFin (scale10 1250 (-2))));
            ("raw_amount", VFloat (FFin (scale10 1250 (-2))));
            ("source", VStr "lynx_pdf")]).
  vm_compute. reflexivity.
Defined.


(** X4: every record that the dividend extraction returns has an amount
    above zero: rows and text lines with a zero amount give no record. *)
Theorem dividend_amounts_positive : forall (d : pdf) r,
  In r (extract_dividends_pdf d) ->
  exists x, get r "amount" (VStr "") = VFloat x /\ gt0 x = true.
Proof.
  intros d r H. unfold extract_dividends_pdf in H.
  rewrite ExtractLynxPdfsSpec.dedup_first_occurrences in H.
  apply ExtractLynxPdfsSpec.first_occurrences_incl in H. destruct H as [H _].
  apply in_flat_map in H. destruct H as (p & _ & H).
  apply (ExtractLynxPdfsSpec.page_amounts_positive p r H).
Qed.

Lemma dividend_amounts_positive_witness :
  exists x, get aapl_from_table "amount" (VStr "") = VFloat x /\ gt0 x = true.
Proof.
  apply (dividend_amounts_positive [aapl_page] aapl_from_table).
  vm_compute. left. reflexivity.
Defined.

Lemma scan_no_date : forall l d a,
  (forall c, In c l -> search date_pattern c = None) ->
  fst (fold_left scan_cell l (d, a)) = d.
Proof.
  induction l as [|c rest IH]; intros d a H; [reflexivity|].
  cbn [fold_left]. unfold scan_cell at 2.
  rewrite (H c (or_introl eq_refl)).
  replace (if negb (truthy d) then d else d) with d by (destruct (negb (truthy d)); reflexivity).
  apply IH. intros c' Hc. apply H. right. exact Hc.
Qed.

Lemma scan_date_kept : forall l d a,
  nonempty d = true -> fst (fold_left scan_cell l (Some d, a)) = Some d.
Proof.
  induction l as [|c rest IH]; intros d a H; [reflexivity|].
  cbn [fold_left]. unfold scan_cell at 2. cbn [truthy]. rewrite H. cbn [negb].
  apply IH. exact H.
Qed.

Lemma scan_no_amount : forall l d a,
  (forall c, In c l -> fullmatch amount_pattern (replace "," "" c) = None) ->
  snd (fold_left scan_cell l (d, a)) = a.
Proof.
  induction l as [|c rest IH]; intros d a H; [reflexivity|].
  cbn [fold_left]. unfold scan_cell at 2.
  rewrite (H c (or_introl eq_refl)).
  replace (if negb (truthy a) then a else a) with a by (destruct (negb (truthy a)); reflexivity).
  apply IH. intros c' Hc. apply H. right. exact Hc.
Qed.

Lemma scan_amount_kept : forall l d a,
  nonempty a = true -> snd (fold_left scan_cell l (d, Some a)) = Some a.
Proof.
  induction l as [|c rest IH]; intros d a H; [reflexivity|].
  cbn [fold_left]. unfold scan_cell at 2. cbn [truthy]. rewrite H. cbn [negb].
  apply IH. exact H.
Qed.

(** X5: in a dividend row the first cell that holds a date gives the date and
    the first cell that is an amount gives the amount; the cells after them
    change neither. *)
Theorem first_date_and_amount_win : forall pre c post,
  (forall m,
     (forall c', In c' pre -> search date_pattern c' = None) ->
     search date_pattern c = Some m ->
     fst (scan_cells (pre ++ c :: post)) = Some (group m 0))
  /\ ((forall c', In c' pre -> fullmatch amount_pattern (replace "," "" c') = None) ->
      fullmatch amount_pattern (replace "," "" c) <> None ->
      snd (scan_cells (pre ++ c :: post)) = Some (replace "," "" c)).
Proof.
  intros pre c post. unfold scan_cells. split.
  - intros m Hpre Hc. rewrite fold_left_app. cbn [fold_left].
    destruct (fold_left scan_cell pre (None, None)) as [d a] eqn:E.
    assert (Hd : d = None).
    { change d with (fst (d, a)). rewrite <- E. apply scan_no_date. exact Hpre. }
    subst d. unfold scan_cell at 2. cbn [truthy negb]. rewrite Hc.
    destruct (found_date_is_iso c m Hc) as [_ Hn].
    match goal with |- fst (fold_left _ _ (_, ?x)) = _ => generalize x end.
    intros a'. apply scan_date_kept. exact Hn.
  - intros Hpre Hc. rewrite fold_left_app. cbn [fold_left].
    destruct (fold_left scan_cell pre (None, None)) as [d a] eqn:E.
    assert (Ha : a = None).
    { change a with (snd (d, a)). rewrite <- E. apply scan_no_amount. exact Hpre. }
    subst a. unfold scan_cell at 2. cbn [truthy negb].
    destruct (fullmatch amount_pattern (replace "," "" c)) eqn:Em; [|congruence].
    match goal with |- snd (fold_left _ _ (?x, _)) = _ => generalize x end.
    intros d'. apply scan_amount_kept.
    destruct (replace "," "" c); [vm_compute in Em; discriminate|reflexivity].
Qed.

Lemma first_date_and_amount_win_witness :
  fst (scan_cells (["AAPL"] ++ "2024-01-15" :: ["2024-02-20"; "7"])) = Some "2024-01-15"
  /\ snd (scan_cells (["AAPL"; "2024-01-15"] ++ "1,5" :: ["7"])) = Some "15".
Proof.
  destruct (first_date_and_amount_win ["AAPL"] "2024-01-15" ["2024-02-20"; "7"])
    as [H1 _].
  destruct (first_date_and_amount_win ["AAPL"; "2024-01-15"] "1,5" ["7"])
    as [_ H2].
  split.
  - apply (H1 (mk_rmatch 0 10 "2024-01-15" [])).
    + intros c' [<-|[]]. reflexivity.
    + vm_compute. reflexivity.
  - apply H2.
    + intros c' [<-|[<-|[]]]; vm_compute; reflexivity.
    + vm_compute. discriminate.
Defined.

Lemma first_occurrences_fixed : forall l met,
  NoDup (map key_of l) -> (forall r, In r l -> ~ In (key_of r) met) ->
  first_occurrences met l = l.
Proof.
  induction l as [|x rest IH]; intros met Hnd Hmet; [reflexivity|].
  cbn [first_occurrences].
  destruct (in_dec key_eq_dec (key_of x) met) as [Hin|_].
  - exfalso. apply (Hmet x (or_introl eq_refl) Hin).
  - f_equal. cbn [map] in Hnd. inversion Hnd as [|k ks Hk Hks]; subst.
    apply IH; [exact Hks|].
    intros r Hr [Heq|Hin].
    + apply Hk. rewrite Heq. apply in_map. exact Hr.
    + apply (Hmet r (or_intror Hr) Hin).
Qed.

(** X6: removing the duplicates of a list that has none changes nothing, so
    the dividend records of a PDF come back unchanged from a second pass. *)
Theorem dedup_idempotent : forall l, dedup (dedup l) = dedup l.
Proof.
  intros l. rewrite !ExtractLynxPdfsSpec.dedup_first_occurrences.
  apply first_occurrences_fixed.
  - apply ExtractLynxPdfsSpec.first_occurrences_nodup.
  - intros r _ [].
Qed.







(** X8: a record of the tax report has a date of the form YYYY-MM-DD, the
    first one found in the cells of the row, and a list of amounts that is
    not empty. *)
Theorem trade_record_fields : forall r rec,
  parse_9a_trade_row r = Some rec ->
  exists d rest amounts,
    flat_map cell_dates (cleaned r) = d :: rest
    /\ get rec "date" (VStr "") = VStr d /\ iso_shape d = true
    /\ get rec "amounts" (VStr "") = VFloats amounts /\ amounts <> [].
Proof.
  intros r rec H. unfold parse_9a_trade_row in H.
  destruct (Nat.eqb (List.length r) 0 || (List.length r <? 4)); [discriminate|].
  destruct ((1 <=? List.length (flat_map cell_dates (cleaned r)))
            && (1 <=? List.length (flat_map cell_amounts (cleaned r)))) eqn:E;
    [|discriminate].
  apply andb_true_iff in E. destruct E as [_ Ea]. apply Nat.leb_le in Ea.
  destruct (cleaned r) as [|c0 cells] eqn:Ec; [discriminate|].
  destruct (flat_map cell_dates (c0 :: cells)) as [|d0 ds] eqn:Ed; [discriminate|].
  destruct (nonempty c0 && (String.length c0 <=? 15)); [|discriminate].
  destruct (nonempty c0); [|discriminate].
  inversion H; subst rec; clear H.
  exists d0, ds, (flat_map cell_amounts (c0 :: cells)).
  split; [reflexivity|]. split; [reflexivity|]. split; [|split; [reflexivity|]].
  - assert (Hin : In d0 (flat_map cell_dates (c0 :: cells))) by (rewrite Ed; left; reflexivity).
    apply in_flat_map in Hin. destruct Hin as (c & _ & Hin).
    unfold cell_dates in Hin. apply in_map_iff in Hin. destruct Hin as (m & <- & Hm).
    unfold finditer in Hm. apply finditer_sound in Hm. destruct Hm as (pos & t & _ & Hm).
    apply (iso_text pos t m Hm).
  - intros Hnil. rewrite Hnil in Ea. cbn in Ea. lia.
Qed.

Lemma trade_record_fields_witness :
  exists d rest amounts,
    flat_map cell_dates (cleaned trade_row) = d :: rest
    /\ VStr "2024-01-15" = VStr d /\ iso_shape d = true
    /\ VFloats [FFin 2024; FFin (-1); FFin (-15); FFin (scale10 1250 (-2))]
       = VFloats amounts
    /\ amounts <> [].
Proof.
  apply (trade_record_fields trade_row
           [("symbol", VStr "AAPL"); ("date", VStr "2024-01-15");
            ("amounts", VFloats [FFin 2024; FFin (-1); FFin (-15);
                                 FFin (scale10 1250 (-2))]);
            ("source", VStr "9a_pdf")]).
  vm_compute. reflexivity.
Defined.

(** *** [float] on what the amount patterns match *)

Lemma decimal_char_facts : forall c,
  isdecimal_char c = true ->
  Ascii.eqb c "-" = false /\ Ascii.eqb c "+" = false /\ Ascii.eqb c "." = false
  /\ Ascii.eqb c "e" = false /\ Ascii.eqb c "E" = false
  /\ Ascii.eqb c "_" = false /\ c_isspace c = false
  /\ (code c <? 128) = true /\ fold_case c = c
  /\ Ascii.eqb "i" c = false /\ Ascii.eqb "n" c = false.
Proof.
  intros c H.
  assert (Hne : forall x, isdecimal_char x = false -> Ascii.eqb c x = false).
  { intros x Hx. destruct (Ascii.eqb_spec c x); [subst; congruence|reflexivity]. }
  assert (Hne' : forall x, isdecimal_char x = false -> Ascii.eqb x c = false).
  { intros x Hx. destruct (Ascii.eqb_spec x c); [subst; congruence|reflexivity]. }
  unfold isdecimal_char, between in H. apply andb_true_iff in H.
  destruct H as [H1 H2]. apply Nat.leb_le in H1. apply Nat.leb_le in H2.
  repeat split; try (apply Hne; reflexivity); try (apply Hne'; reflexivity).
  - unfold c_isspace, between.
    destruct (Nat.leb_spec (code c) 13); [lia|]. rewrite andb_false_r.
    destruct (Nat.eqb_spec (code c) 32); [lia|reflexivity].
  - apply Nat.ltb_lt. lia.
  - unfold fold_case, isupper_ascii, between.
    destruct (Nat.leb_spec 65 (code c)); [lia|]. reflexivity.
Qed.

Lemma digits_run : forall w acc n rest,
  all_chars isdecimal_char w = true ->
  match rest with String c _ => isdecimal_char c = false | EmptyString => True end ->
  exists v, digits acc n (w ++ rest) = (v, n + String.length w, rest).
Proof.
  induction w as [|c t IH]; intros acc n rest Hw Hr.
  - exists acc. rewrite Nat.add_0_r. destruct rest as [|c r]; [reflexivity|].
    cbn [append digits]. rewrite Hr. reflexivity.
  - cbn [all_chars] in Hw. apply andb_true_iff in Hw. destruct Hw as [Hc Ht].
    cbn [append digits String.length]. rewrite Hc.
    destruct (IH (10 * acc + digit_val c)%Z (S n) rest Ht Hr) as (v & ->).
    exists v. f_equal. f_equal. lia.
Qed.

(** The characters that [float] leaves in place before it reads the number. *)
Lemma plain_char_of_number : forall c,
  isdecimal_char c = true \/ c = "-"%char \/ c = "."%char ->
  ((code c <? 128) && negb (Ascii.eqb c "_") && negb (c_isspace c)) = true.
Proof.
  intros c [H|[->| ->]]; [|reflexivity|reflexivity].
  destruct (decimal_char_facts c H) as (_ & _ & _ & _ & _ & H1 & H2 & H3 & _).
  rewrite H1, H2, H3. reflexivity.
Qed.

Lemma no_underscore : forall s,
  all_chars (fun c => (code c <? 128) && negb (Ascii.eqb c "_") && negb (c_isspace c)) s = true ->
  contains "_" s = false.
Proof.
  induction s as [|c t IH]; intros H; [reflexivity|].
  cbn [all_chars] in H. apply andb_true_iff in H. destruct H as [Hc Ht].
  cbn [contains startswith]. rewrite (IH Ht), orb_false_r.
  apply andb_true_iff in Hc. destruct Hc as [Hc _].
  apply andb_true_iff in Hc. destruct Hc as [_ Hc].
  rewrite Ascii.eqb_sym. destruct (Ascii.eqb c "_"); [discriminate|reflexivity].
Qed.

Lemma c_rstrip_plain : forall s,
  all_chars (fun c => (code c <? 128) && negb (Ascii.eqb c "_") && negb (c_isspace c)) s = true ->
  c_rstrip s = s.
Proof.
  induction s as [|c t IH]; intros H; [reflexivity|].
  cbn [all_chars] in H. apply andb_true_iff in H. destruct H as [Hc Ht].
  cbn [c_rstrip]. rewrite (IH Ht).
  apply andb_true_iff in Hc. destruct Hc as [_ Hc].
  destruct t; [|reflexivity]. destruct (c_isspace c); [discriminate|reflexivity].
Qed.

Lemma float_plain : forall s,
  all_chars (fun c => (code c <? 128) && negb (Ascii.eqb c "_") && negb (c_isspace c)) s = true ->
  s <> "" ->
  float s = match strtod s with
            | Some (x, EmptyString) => Some x
            | _ => None
            end.
Proof.
  intros s H Hne. unfold float, to_ascii, without_underscores.
  assert (Ha : all_chars (fun c => code c <? 128) s = true).
  { apply (all_chars_weaken _ _ s) with (2 := H). intros c Hc.
    apply andb_true_iff in Hc. destruct Hc as [Hc _].
    apply andb_true_iff in Hc. destruct Hc as [Hc _]. exact Hc. }
  rewrite Ha.
  rewrite (no_underscore s H).
  assert (Hl : c_lstrip s = s).
  { destruct s as [|c t]; [reflexivity|]. cbn [all_chars] in H.
    apply andb_true_iff in H. destruct H as [Hc _].
    apply andb_true_iff in Hc. destruct Hc as [_ Hc].
    cbn [c_lstrip]. destruct (c_isspace c); [discriminate|reflexivity]. }
  rewrite Hl, (c_rstrip_plain s H). destruct s; [congruence|reflexivity].
Qed.

Lemma all_chars_point : forall w,
  all_chars (Ascii.eqb ".") w = true -> String.length w <= 1 -> w = "" \/ w = ".".
Proof.
  intros [|c [|c' t]] H Hl; [left; reflexivity| |cbn in Hl; lia].
  cbn [all_chars] in H. rewrite andb_true_r in H. apply Ascii.eqb_eq in H.
  subst. right. reflexivity.
Qed.

Lemma all_chars_minus : forall w,
  all_chars (Ascii.eqb "-") w = true -> String.length w <= 1 -> w = "" \/ w = "-".
Proof.
  intros [|c [|c' t]] H Hl; [left; reflexivity| |cbn in Hl; lia].
  cbn [all_chars] in H. rewrite andb_true_r in H. apply Ascii.eqb_eq in H.
  subst. right. reflexivity.
Qed.

(** An unsigned number: digits, then maybe a point and more digits. *)
Lemma unsigned_number : forall neg w2 w3 w4,
  all_chars isdecimal_char w2 = true -> 1 <= String.length w2 ->
  w3 = "" \/ w3 = "." ->
  all_chars isdecimal_char w4 = true ->
  let u := w2 ++ w3 ++ w4 in
  sign u = (false, u)
  /\ (forall t, sign t = (neg, u) ->
        parse_inf_or_nan t = None
        /\ exists q, parse_decimal t = Some (FFin q, "")).
Proof.
  intros neg w2 w3 w4 H2 Hl H3 H4 u.
  destruct w2 as [|c w2']; [cbn in Hl; lia|].
  cbn [all_chars] in H2. apply andb_true_iff in H2. destruct H2 as [Hc H2].
  destruct (decimal_char_facts c Hc) as (F1 & F2 & _ & _ & _ & _ & _ & _ & F3 & F4 & F5).
  assert (Hsign : sign u = (false, u)).
  { subst u. cbn [append sign]. rewrite F1, F2. reflexivity. }
  split; [exact Hsign|]. intros t Ht. split.
  - unfold parse_inf_or_nan. rewrite Ht. subst u.
    cbn [append startswith_lower]. rewrite F3, F4, F5. reflexivity.
  - unfold parse_decimal. rewrite Ht.
    assert (Hall : all_chars isdecimal_char (String c w2') = true).
    { cbn [all_chars]. rewrite Hc, H2. reflexivity. }
    destruct H3 as [-> | ->]; subst u.
    + cbn [append].
      destruct (digits_run (String c w2' ++ w4) 0%Z 0 "") as (v & Hd).
      { rewrite all_chars_app, Hall, H4. reflexivity. }
      { exact I. }
      rewrite append_nil_r in Hd. cbn [append] in Hd. rewrite Hd.
      cbn [String.length Nat.add Nat.eqb exponent]. eexists. reflexivity.
    + destruct (digits_run (String c w2') 0%Z 0 (String "." w4) Hall eq_refl) as (v & Hd).
      cbn [append] in Hd. cbn [append]. rewrite Hd.
      destruct (digits_run w4 v 0 "" H4 I) as (m & Hm).
      rewrite append_nil_r in Hm. cbn [Ascii.eqb Bool.eqb]. rewrite Hm.
      cbn [String.length Nat.add Nat.eqb exponent]. eexists. reflexivity.
Qed.

(** [float] accepts every string made of an optional minus sign, digits,
    and an optional point followed by digits. *)
Lemma float_of_number : forall w1 w2 w3 w4,
  all_chars (Ascii.eqb "-") w1 = true -> String.length w1 <= 1 ->
  all_chars isdecimal_char w2 = true -> 1 <= String.length w2 ->
  all_chars (Ascii.eqb ".") w3 = true -> String.length w3 <= 1 ->
  all_chars isdecimal_char w4 = true ->
  exists q, float (w1 ++ w2 ++ w3 ++ w4) = Some (FFin q).
Proof.
  intros w1 w2 w3 w4 H1 L1 H2 L2 H3 L3 H4.
  apply all_chars_minus in H1; [|exact L1]. apply all_chars_point in H3; [|exact L3].
  assert (Hplain : forall w, all_chars isdecimal_char w = true ->
            all_chars (fun c => (code c <? 128) && negb (Ascii.eqb c "_")
                                && negb (c_isspace c)) w = true).
  { intros w Hw. apply (all_chars_weaken _ _ w) with (2 := Hw).
    intros c Hc. apply plain_char_of_number. left. exact Hc. }
  assert (Hp : all_chars (fun c => (code c <? 128) && negb (Ascii.eqb c "_")
                                   && negb (c_isspace c)) (w1 ++ w2 ++ w3 ++ w4) = true).
  { rewrite !all_chars_app, (Hplain w2 H2), (Hplain w4 H4).
    destruct H1 as [-> | ->], H3 as [-> | ->]; reflexivity. }
  assert (Hne : w1 ++ w2 ++ w3 ++ w4 <> "").
  { destruct w1; [|discriminate]. destruct w2; [cbn in L2; lia|discriminate]. }
  rewrite (float_plain _ Hp Hne). unfold strtod.
  destruct (unsigned_number (match w1 with "" => false | _ => true end)
              w2 w3 w4 H2 L2 H3 H4) as (Hs & Hu).
  destruct (Hu (w1 ++ w2 ++ w3 ++ w4)) as (Hi & q & Hd).
  { destruct H1 as [-> | ->]; [exact Hs|reflexivity]. }
  rewrite Hi, Hd. exists q. reflexivity.
Qed.


(** No comma is left after [replace(",", "")]. *)
Lemma commas_removed : forall s,
  all_chars (fun c => negb (Ascii.eqb "," c)) (replace "," "" s) = true.
Proof.
  intros s. unfold replace. induction s as [|c t IH]; [reflexivity|].
  cbn [replace_scan startswith String.length Nat.sub].
  rewrite startswith_nil, andb_true_r.
  destruct (Ascii.eqb "," c) eqn:E; cbn [append all_chars]; [exact IH|].
  rewrite E, IH. reflexivity.
Qed.

Lemma digit_or_comma_decimal : forall w,
  all_chars digit_or_comma w = true ->
  all_chars (fun c => negb (Ascii.eqb "," c)) w = true ->
  all_chars isdecimal_char w = true.
Proof.
  induction w as [|c t IH]; intros H1 H2; [reflexivity|].
  cbn [all_chars] in *. apply andb_true_iff in H1. destruct H1 as [Hc H1].
  apply andb_true_iff in H2. destruct H2 as [Hn H2].
  rewrite (IH H1 H2), andb_true_r. unfold digit_or_comma in Hc.
  rewrite Ascii.eqb_sym in Hn. destruct (Ascii.eqb c ","); [discriminate|].
  rewrite orb_false_r in Hc. exact Hc.
Qed.

(** What the amount pattern of the row path matched, once the commas are
    gone, is a number that [float] reads. *)
Lemma float_of_amount : forall s,
  fullmatch amount_pattern s <> None ->
  all_chars (fun c => negb (Ascii.eqb "," c)) s = true ->
  exists q, float s = Some (FFin q).
Proof.
  intros s H Hc. destruct (fullmatch amount_pattern s) as [m|] eqn:E; [clear H|congruence].
  unfold fullmatch, amount_pattern, opt, plus, star in E. cbn [seq exec] in E.
  apply rep_spans in E. destruct E as (w1 & s1 & -> & H1 & _ & L1 & E).
  apply rep_spans in E. destruct E as (w2 & s2 & -> & H2 & L2 & _ & E).
  apply rep_spans in E. destruct E as (w3 & s3 & -> & H3 & _ & L3 & E).
  apply rep_spans in E. destruct E as (w4 & s4 & -> & H4 & _ & _ & E).
  destruct s4; [|discriminate]. rewrite append_nil_r in *.
  rewrite !all_chars_app in Hc.
  apply andb_true_iff in Hc. destruct Hc as [_ Hc].
  apply andb_true_iff in Hc. destruct Hc as [Hc2 _].
  apply float_of_number; try assumption.
  apply digit_or_comma_decimal; assumption.
Qed.

(** X9: a dividend row gives no record in three cases only: no cell holds a
    date, no cell is an amount, or the amount is zero. [float] never refuses
    the amount cell. The amount is the exact value of the literal: one so
    small that binary64 rounds it to zero is outside this model. *)
Theorem no_row_record_reasons : forall r,
  parse_dividend_row r = None
  <-> (fst (scan_cells (cleaned r)) = None
       \/ snd (scan_cells (cleaned r)) = None
       \/ exists a q, snd (scan_cells (cleaned r)) = Some a
                      /\ float a = Some (FFin q) /\ Qnum q = 0%Z).
Proof.
  intros r. unfold parse_dividend_row.
  destruct (scan_cells (cleaned r)) as [d a] eqn:E. cbn [fst snd].
  destruct d as [d|]; [|split; [left; reflexivity|reflexivity]].
  destruct a as [a|]; [|split; [right; left; reflexivity|reflexivity]].
  assert (Hd : fst (fold_left scan_cell (cleaned r) (None, None)) = Some d).
  { unfold scan_cells in E. rewrite E. reflexivity. }
  assert (Ha : snd (fold_left scan_cell (cleaned r) (None, None)) = Some a).
  { unfold scan_cells in E. rewrite E. reflexivity. }
  apply scan_cells_date in Hd. destruct Hd as [Hd|(c & m & _ & Hm & ->)]; [discriminate|].
  destruct (found_date_is_iso c m Hm) as [_ Hn]. rewrite Hn.
  apply ExtractLynxPdfsSpec.scan_cells_amount in Ha.
  destruct Ha as [Ha|(c' & _ & -> & Hf)]; [discriminate|].
  destruct (float_of_amount _ Hf (commas_removed c')) as (q & Hq).
  assert (Hne : nonempty (replace "," "" c') = true).
  { destruct (replace "," "" c'); [exfalso; apply Hf; reflexivity|reflexivity]. }
  rewrite Hne, Hq. cbn [andb fabs gt0].
  destruct q as [n dn]. cbn [Qabs Qnum].
  destruct (Z.ltb_spec 0 (Z.abs n)).
  - split; [discriminate|]. intros [H'|[H'|(a & q & H1 & H2 & H3)]]; try discriminate.
    exfalso. assert (Ea : a = replace "," "" c') by congruence. subst a.
    rewrite Hq in H2. inversion H2; subst q.
    cbn in H3. lia.
  - split; [|reflexivity]. intros _. right. right.
    exists (replace "," "" c'), (n # dn). repeat split; [exact Hq|cbn; lia].
Qed.


(** *** The amounts of the tax report *)

Lemma float_of_amount_9a : forall pos t m,
  match_at amount_pattern_9a pos t = Some m ->
  all_chars (fun c => negb (Ascii.eqb "," c)) t = true ->
  exists q, float (group m 0) = Some (FFin q).
Proof.
  intros pos t m H Hc. apply match_at_sound in H.
  destruct H as (w & s' & g' & -> & Hs & ->). cbn [group m_text].
  unfold amount_pattern_9a, opt, plus in Hs. cbn [seq] in Hs.
  apply spans_cat in Hs. destruct Hs as (p1 & s1 & g1 & H1 & Hs).
  apply spans_cat in Hs. destruct Hs as (p2 & s2 & g2 & H2 & Hs).
  apply spans_cat in Hs. destruct Hs as (p3 & s3 & g3 & H3 & H4).
  cbn [spans] in H1, H2, H3, H4.
  destruct H1 as (w1 & E1 & A1 & _ & L1 & _ & _).
  destruct H2 as (w2 & E2 & A2 & L2 & _ & _ & _).
  destruct H3 as (w3 & E3 & A3 & _ & L3 & _ & _).
  destruct H4 as (w4 & E4 & A4 & _ & _ & _ & _).
  subst s3 s2 s1.
  assert (Hw : w = w1 ++ w2 ++ w3 ++ w4).
  { apply (append_inv_tail _ _ s'). rewrite E1, !append_assoc. reflexivity. }
  subst w. rewrite !all_chars_app in Hc.
  apply andb_true_iff in Hc. destruct Hc as [Hc _].
  apply andb_true_iff in Hc. destruct Hc as [_ Hc].
  apply andb_true_iff in Hc. destruct Hc as [Hc2 _].
  apply float_of_number; try assumption.
  apply digit_or_comma_decimal; assumption.
Qed.

(** Every match of the amount pattern in a cell becomes an amount. *)
Lemma cell_amounts_length : forall c,
  List.length (cell_amounts c)
  = List.length (finditer amount_pattern_9a (replace "," "" c)).
Proof.
  intros c. unfold cell_amounts.
  assert (H : forall m, In m (finditer amount_pattern_9a (replace "," "" c)) ->
                        exists q, float (group m 0) = Some (FFin q)).
  { intros m Hm. unfold finditer in Hm. apply finditer_sound in Hm.
    destruct Hm as (pos & t & Ht & Hm). apply (float_of_amount_9a pos t m Hm).
    apply (all_chars_endswith _ _ _ (commas_removed c) Ht). }
  induction (finditer amount_pattern_9a (replace "," "" c)) as [|m l IH];
    [reflexivity|].
  cbn [flat_map]. destruct (H m (or_introl eq_refl)) as (q & ->).
  cbn [opt_list app List.length]. f_equal. apply IH.
  intros m' Hm'. apply H. right. exact Hm'.
Qed.

Lemma endswith_split : forall s t, endswith s t = true -> exists pre, s = pre ++ t.
Proof.
  induction s as [|c s IH]; intros t H; cbn [endswith] in H.
  - rewrite orb_false_r in H. apply String.eqb_eq in H. subst. exists "". reflexivity.
  - apply orb_true_iff in H. destruct H as [H|H].
    + apply String.eqb_eq in H. subst. exists "". reflexivity.
    + destruct (IH t H) as (pre & ->). exists (String c pre). reflexivity.
Qed.

Lemma remove_commas_app : forall a b,
  replace "," "" (a ++ b) = replace "," "" a ++ replace "," "" b.
Proof.
  intros a b. unfold replace. induction a as [|c t IH]; [reflexivity|].
  cbn [append replace_scan startswith String.length Nat.sub].
  rewrite !startswith_nil, !andb_true_r.
  destruct (Ascii.eqb "," c); cbn [append]; rewrite IH; reflexivity.
Qed.


(** *** A date in a row of the tax report is also an amount *)

Lemma date_has_digits : forall c d,
  In d (cell_dates c) ->
  exists pre a b rest,
    c = pre ++ String a (String b rest) /\ digit a = true /\ digit b = true.
Proof.
  intros c d H. unfold cell_dates in H. apply in_map_iff in H.
  destruct H as (m & _ & Hm). unfold finditer in Hm. apply finditer_sound in Hm.
  destruct Hm as (pos & t & Ht & Hm). apply endswith_split in Ht.
  destruct Ht as (pre & ->). apply match_at_sound in Hm.
  destruct Hm as (w & s' & g' & -> & Hs & _).
  unfold iso_date in Hs. open_spans Hs. subst. known_lengths. digit_facts.
  cancel_tail. cbn [append].
  match goal with
  | |- context [pre ++ String ?a (String ?b ?r)] => exists pre, a, b, r
  end.
  auto.
Qed.

Lemma digit_not_comma : forall c, digit c = true -> Ascii.eqb "," c = false.
Proof.
  intros c H. destruct (Ascii.eqb_spec "," c); [subst; discriminate|reflexivity].
Qed.

(** Two digits in a row are enough for the amount pattern of the tax report. *)
Lemma two_digits_amount : forall pre a b rest,
  digit a = true -> digit b = true ->
  cell_amounts (pre ++ String a (String b rest)) <> [].
Proof.
  intros pre a b rest Ha Hb H.
  apply (f_equal (@List.length _)) in H. rewrite cell_amounts_length in H.
  apply length_zero_iff_nil in H. revert H.
  rewrite remove_commas_app.
  assert (E : replace "," "" (String a (String b rest))
              = String a (String b (replace "," "" rest))).
  { unfold replace. cbn [replace_scan startswith String.length Nat.sub].
    rewrite !startswith_nil, !andb_true_r,
      (digit_not_comma a Ha), (digit_not_comma b Hb). reflexivity. }
  rewrite E.
  apply (finditer_complete _ _ _ (String.length (replace "," "" pre) + 2)
           (replace "," "" rest) []).
  unfold amount_pattern_9a, opt, plus. cbn [seq spans].
  exists (String.length (replace "," "" pre)), (String a (String b (replace "," "" rest))), [].
  split; [exists ""; cbn; repeat split; lia|].
  exists (S (String.length (replace "," "" pre))), (String b (replace "," "" rest)), [].
  split.
  { exists (String a ""). cbn [append all_chars String.length].
    unfold digit_or_comma. unfold digit in Ha. rewrite Ha. cbn. repeat split; lia. }
  exists (S (String.length (replace "," "" pre))), (String b (replace "," "" rest)), [].
  split; [exists ""; cbn; repeat split; lia|].
  exists (String b ""). cbn [append all_chars String.length].
  rewrite Hb. cbn. repeat split; lia.
Qed.

(** X10: the amount pattern of the tax report also matches inside dates, so
    a row with a date always has amounts: a row of four cells or more gives a
    record exactly when some cell holds a date YYYY-MM-DD and the first cell,
    trimmed, has between 1 and 15 characters. *)
Theorem trade_row_accepted : forall r,
  parse_9a_trade_row r <> None
  <-> (4 <= List.length r
       /\ flat_map cell_dates (cleaned r) <> []
       /\ exists c0 cells, cleaned r = c0 :: cells
                           /\ c0 <> "" /\ String.length c0 <= 15).
Proof.
  intros r.
  assert (Hamt : flat_map cell_dates (cleaned r) <> [] ->
                 flat_map cell_amounts (cleaned r) <> []).
  { intros Hd Ha. destruct (flat_map cell_dates (cleaned r)) as [|d ds] eqn:Ed;
      [congruence|].
    assert (Hin : In d (flat_map cell_dates (cleaned r))) by (rewrite Ed; left; reflexivity).
    apply in_flat_map in Hin. destruct Hin as (c & Hc & Hin).
    apply date_has_digits in Hin. destruct Hin as (pre & a & b & rest & -> & Da & Db).
    assert (Hnil : forall x, In x (flat_map cell_amounts (cleaned r)) -> False)
      by (rewrite Ha; intros x []).
    destruct (cell_amounts (pre ++ String a (String b rest))) as [|x xs] eqn:Ex.
    - apply (two_digits_amount pre a b rest Da Db Ex).
    - apply (Hnil x). apply in_flat_map. eexists. split; [exact Hc|].
      rewrite Ex. left. reflexivity. }
  unfold parse_9a_trade_row.
  destruct (Nat.eqb_spec (List.length r) 0) as [E0|E0]; cbn [orb].
  { split; [congruence|]. intros (H & _). lia. }
  destruct (Nat.ltb_spec (List.length r) 4) as [E4|E4].
  { split; [congruence|]. intros (H & _). lia. }
  destruct (flat_map cell_dates (cleaned r)) as [|d ds] eqn:Ed.
  { cbn. split; [congruence|]. intros (_ & H & _). congruence. }
  destruct (flat_map cell_amounts (cleaned r)) as [|x xs] eqn:Ex.
  { exfalso. apply Hamt; [discriminate|reflexivity]. }
  cbn [List.length Nat.leb andb].
  destruct (cleaned r) as [|c0 cells] eqn:Ec.
  { split; [congruence|]. intros (_ & _ & c0 & cells & H & _). discriminate. }
  destruct c0 as [|ch c0'].
  { cbn. split; [congruence|]. intros (_ & _ & c1 & cells' & H & Hne & _).
    inversion H; subst. congruence. }
  cbn [nonempty andb].
  destruct (Nat.leb_spec (String.length (String ch c0')) 15) as [L|L].
  - split; [|discriminate]. intros _. split; [exact E4|]. split; [discriminate|].
    exists (String ch c0'), cells. repeat split; [discriminate|exact L].
  - split; [congruence|]. intros (_ & _ & c1 & cells' & H & _ & L').
    inversion H; subst. lia.
Qed.


(** *** The summary lines of the tax form *)

Lemma all_chars_false : forall p s,
  all_chars p s = false ->
  exists pre c rest, s = pre ++ String c rest /\ p c = false.
Proof.
  intros p. induction s as [|c t IH]; intros H; [discriminate|].
  cbn [all_chars] in H. destruct (p c) eqn:E.
  - destruct (IH H) as (pre & c' & rest & -> & Hc).
    exists (String c pre), c', rest. auto.
  - exists "", c, t. auto.
Qed.

(** The number pattern is found in a line exactly when the line has a digit
    or a comma. *)
Lemma findall_number : forall line,
  findall number_pattern line <> []
  <-> all_chars (fun c => negb (digit_or_comma c)) line = false.
Proof.
  intros line. unfold findall. split.
  - intros H. destruct (finditer number_pattern line) as [|m l] eqn:E; [cbn in H; congruence|].
    assert (Hm : In m (finditer number_pattern line)) by (rewrite E; left; reflexivity).
    unfold finditer in Hm. apply finditer_sound in Hm.
    destruct Hm as (pos & t & Ht & Hm). apply endswith_split in Ht.
    destruct Ht as (pre & ->). apply match_at_sound in Hm.
    destruct Hm as (w & s' & g' & -> & Hs & _).
    unfold number_pattern, plus in Hs. cbn [seq] in Hs.
    apply spans_cat in Hs. destruct Hs as (p1 & s1 & g1 & H1 & _).
    cbn [spans] in H1. destruct H1 as (w1 & E1 & A1 & L1 & _).
    rewrite E1. destruct w1 as [|c w1]; [cbn in L1; lia|].
    cbn [all_chars] in A1. apply andb_true_iff in A1. destruct A1 as [Hc _].
    rewrite !all_chars_app. cbn [append all_chars]. rewrite Hc.
    cbn [negb andb]. apply andb_false_r.
  - intros H Hnil. apply all_chars_false in H.
    destruct H as (pre & c & rest & -> & Hc). apply negb_false_iff in Hc.
    apply map_eq_nil in Hnil. revert Hnil.
    apply (finditer_complete _ _ _ (String.length pre + 1) rest []).
    unfold number_pattern, plus, opt, star. cbn [seq spans].
    exists (String.length pre + 1), rest, []. split.
    { exists (String c ""). cbn [append all_chars String.length]. rewrite Hc.
      repeat split; lia. }
    exists (String.length pre + 1), rest, [].
    split; exists ""; cbn; repeat split; lia.
Qed.

(** X11: a line of the tax form gives a summary record exactly when it holds
    one of the four keywords, in any case, and a digit or a comma: a comma
    alone counts as an amount. *)
Theorem summary_line_accepted : forall line,
  line_summary line <> []
  <-> (existsb (fun kw => contains kw (lower line)) summary_keywords = true
       /\ all_chars (fun c => negb (digit_or_comma c)) line = false).
Proof.
  intros line. unfold line_summary. rewrite <- findall_number.
  destruct (existsb _ summary_keywords).
  - destruct (findall number_pattern line) as [|a l].
    + split; [congruence|]. intros (_ & H). congruence.
    + split; intros _; [split; [reflexivity|discriminate]|discriminate].
  - split; [congruence|]. intros (H & _). discriminate.
Qed.

Lemma number_text : forall pos t m,
  match_at number_pattern pos t = Some m ->
  exists c w, group m 0 = String c w /\ digit_or_comma c = true
              /\ all_chars (fun c => digit_or_comma c || Ascii.eqb "." c) w = true.
Proof.
  intros pos t m H. apply match_at_sound in H.
  destruct H as (w & s' & g' & -> & Hs & ->). cbn [group m_text].
  unfold number_pattern, plus, opt, star in Hs. cbn [seq] in Hs.
  apply spans_cat in Hs. destruct Hs as (p1 & s1 & g1 & H1 & Hs).
  apply spans_cat in Hs. destruct Hs as (p2 & s2 & g2 & H2 & H3).
  cbn [spans] in H1, H2, H3.
  destruct H1 as (w1 & E1 & A1 & L1 & _).
  destruct H2 as (w2 & E2 & A2 & _).
  destruct H3 as (w3 & E3 & A3 & _).
  subst s2 s1.
  assert (Hw : w = w1 ++ w2 ++ w3).
  { apply (append_inv_tail _ _ s'). rewrite E1, !append_assoc. reflexivity. }
  subst w. destruct w1 as [|c w1]; [cbn in L1; lia|].
  cbn [all_chars] in A1. apply andb_true_iff in A1. destruct A1 as [Hc A1].
  exists c, (w1 ++ w2 ++ w3). split; [reflexivity|]. split; [exact Hc|].
  rewrite !all_chars_app.
  rewrite (all_chars_weaken _ _ w1 (fun x Hx => orb_true_intro _ _ (or_introl Hx)) A1).
  rewrite (all_chars_weaken _ _ w2 (fun x Hx => orb_true_intro _ _ (or_intror Hx)) A2).
  rewrite (all_chars_weaken digit _ w3); [reflexivity| |exact A3].
  intros x Hx. unfold digit_or_comma. unfold digit in Hx. rewrite Hx. reflexivity.
Qed.


Lemma split_on_parts : forall sep s x,
  In x (split_on sep s) -> all_chars (fun c => negb (Ascii.eqb c sep)) x = true.
Proof.
  intros sep. induction s as [|c t IH]; intros x H; cbn [split_on] in H.
  - destruct H as [<-|[]]. reflexivity.
  - destruct (Ascii.eqb c sep) eqn:E.
    + destruct H as [<-|H]; [reflexivity|apply IH, H].
    + destruct (split_on sep t) as [|y rest].
      * destruct H as [<-|[]]. cbn. rewrite E. reflexivity.
      * destruct H as [<-|H].
        -- cbn [all_chars]. rewrite E. apply IH. left. reflexivity.
        -- apply IH. right. exact H.
Qed.

(** X12: a summary record of the tax form comes from a line of the text of
    one of the first five pages; the line holds no line break and a keyword,
    the record keeps it trimmed, and its amounts are the matches of the number
    pattern in the line, as text: at least one, each starting with a digit or
    a comma and made of digits, commas and points. *)
Theorem summary_fields : forall d s,
  In s (extract_16b_summary d) ->
  exists p text line,
    In p (firstn 5 d) /\ extract_text p = Some text
    /\ In line (split_on "010" text)
    /\ all_chars (fun c => negb (Ascii.eqb c "010")) line = true
    /\ existsb (fun kw => contains kw (lower line)) summary_keywords = true
    /\ s = mk_summary (strip line) (findall number_pattern line) "16b_pdf"
    /\ s_amounts s <> []
    /\ forall a, In a (s_amounts s) ->
         exists c w, a = String c w /\ digit_or_comma c = true
           /\ all_chars (fun c => digit_or_comma c || Ascii.eqb "." c) w = true.
Proof.
  intros d s H. unfold extract_16b_summary in H. apply in_flat_map in H.
  destruct H as (p & Hp & H). unfold page_summaries in H.
  destruct (extract_text p) as [text|] eqn:Et; [|contradiction].
  destruct (nonempty text); [|contradiction].
  apply in_flat_map in H. destruct H as (line & Hl & H).
  unfold line_summary in H.
  destruct (existsb _ summary_keywords) eqn:Ek; [|contradiction].
  destruct (findall number_pattern line) as [|a0 l] eqn:Ef; [contradiction|].
  destruct H as [<-|[]].
  exists p, text, line. rewrite Ef.
  split; [exact Hp|]. split; [exact Et|]. split; [exact Hl|].
  split; [apply (split_on_parts _ _ _ Hl)|]. split; [exact Ek|].
  split; [reflexivity|]. split; [discriminate|].
  cbn [s_amounts]. rewrite <- Ef. intros a Ha. unfold findall in Ha.
  apply in_map_iff in Ha. destruct Ha as (m & <- & Hm).
  unfold finditer in Hm. apply finditer_sound in Hm.
  destruct Hm as (pos & t & _ & Hm). apply (number_text pos t m Hm).
Qed.

Lemma summary_fields_witness :
  exists p text line,
    In p (firstn 5 [mk_page [] (Some "Total 1,234.50")])
    /\ extract_text p = Some text
    /\ In line (split_on "010" text)
    /\ all_chars (fun c => negb (Ascii.eqb c "010")) line = true
    /\ existsb (fun kw => contains kw (lower line)) summary_keywords = true
    /\ mk_summary "Total 1,234.50" ["1,234.50"] "16b_pdf"
       = mk_summary (strip line) (findall number_pattern line) "16b_pdf"
    /\ s_amounts (mk_summary "Total 1,234.50" ["1,234.50"] "16b_pdf") <> []
    /\ forall a,
         In a (s_amounts (mk_summary "Total 1,234.50" ["1,234.50"] "16b_pdf")) ->
         exists c w, a = String c w /\ digit_or_comma c = true
           /\ all_chars (fun c => digit_or_comma c || Ascii.eqb "." c) w = true.
Proof.
  apply (summary_fields [mk_page [] (Some "Total 1,234.50")]
           (mk_summary "Total 1,234.50" ["1,234.50"] "16b_pdf")).
  vm_compute. left. reflexivity.
Defined.

(** *** The loop of [main] over the files *)

Lemma contains_app : forall a b s, contains (a ++ b) s = true -> contains a s = true.
Proof.
  intros a b. assert (Hs : forall s, startswith s (a ++ b) = true -> startswith s a = true).
  { induction a as [|c a IH]; intros s H; [destruct s; reflexivity|].
    destruct s as [|c' s]; [discriminate|]. cbn [append startswith] in *.
    apply andb_true_iff in H. destruct H as [-> H]. apply (IH _ H). }
  induction s as [|c t IH]; intros H; cbn [contains] in *;
    apply orb_true_iff in H; apply orb_true_iff; destruct H as [H|H]; auto.
Qed.

Lemma fold_main_step : forall files acc,
  let name := fun f => lower (pdf_name f) in
  fold_left main_step files acc
  = mk_results
      (all_dividends acc
       ++ flat_map (fun f => extract_dividends_pdf (contents f))
            (filter (fun f => contains "dividend" (name f)) files))
      (all_9a_trades acc
       ++ flat_map (fun f => extract_9a_trades (contents f))
            (filter (fun f => negb (contains "dividend" (name f))
                              && contains "9a" (name f)
                              && negb (over_mb 50 (st_size f))) files))
      (all_16b_summaries acc
       ++ flat_map (fun f => extract_16b_summary (contents f))
            (filter (fun f => negb (contains "dividend" (name f))
                              && negb (contains "9a" (name f))
                              && contains "16b" (name f)
                              && negb (over_mb 30 (st_size f))) files))
      (all_costs acc
       ++ flat_map (fun f => extract_costs (contents f))
            (filter (fun f => negb (contains "dividend" (name f))
                              && negb (contains "9a" (name f))
                              && negb (contains "16b" (name f))
                              && (contains "kustannus" (name f)
                                  || contains "cost" (name f))) files))%list.
Proof.
  intros files acc name. revert acc.
  induction files as [|f files IH]; intros acc.
  - cbn. rewrite !app_nil_r. destruct acc; reflexivity.
  - cbn [fold_left filter]. rewrite IH. unfold main_step. fold (name f).
    assert (H9 : contains "9a" (name f) || contains "9a_" (name f)
                 = contains "9a" (name f)).
    { destruct (contains "9a" (name f)) eqn:E; [reflexivity|]. cbn [orb].
      destruct (contains "9a_" (name f)) eqn:E'; [|reflexivity].
      rewrite (contains_app "9a" "_" _ E') in E. discriminate. }
    rewrite H9.
    destruct (contains "dividend" (name f)); cbn [negb andb];
      [cbn [flat_map all_dividends all_9a_trades all_16b_summaries all_costs];
       rewrite <- app_assoc; reflexivity|].
    destruct (contains "9a" (name f)); cbn [negb andb].
    { destruct (over_mb 50 (st_size f)); cbn [negb];
        [destruct acc; reflexivity|].
      cbn [flat_map all_dividends all_9a_trades all_16b_summaries all_costs].
      rewrite <- app_assoc. reflexivity. }
    destruct (contains "16b" (name f)); cbn [negb andb].
    { destruct (over_mb 30 (st_size f)); cbn [negb];
        [destruct acc; reflexivity|].
      cbn [flat_map all_dividends all_9a_trades all_16b_summaries all_costs].
      rewrite <- app_assoc. reflexivity. }
    destruct (contains "kustannus" (name f) || contains "cost" (name f));
      [|destruct acc; reflexivity].
    cbn [flat_map all_dividends all_9a_trades all_16b_summaries all_costs].
    rewrite <- app_assoc. reflexivity.
Qed.

(** X13: what [main] collects. Each list is the concatenation, in the order
    of the files and with nothing removed across files, of what the extractor
    of that kind gives for the files of that kind: the name, in lower case, is
    tested for [dividend], then [9a], then [16b], then [kustannus] or [cost],
    the first that occurs decides, and the test for [9a_] never does; a tax
    report above 50 MB and a tax form above 30 MB give nothing. *)
Theorem main_results_by_type : forall files,
  main_results files
  = mk_results
      (flat_map (fun f => extract_dividends_pdf (contents f))
         (filter (fun f => contains "dividend" (lower (pdf_name f))) files))
      (flat_map (fun f => extract_9a_trades (contents f))
         (filter (fun f => negb (contains "dividend" (lower (pdf_name f)))
                           && contains "9a" (lower (pdf_name f))
                           && negb (50 * (1024 * 1024) <? st_size f)%N) files))
      (flat_map (fun f => extract_16b_summary (contents f))
         (filter (fun f => negb (contains "dividend" (lower (pdf_name f)))
                           && negb (contains "9a" (lower (pdf_name f)))
                           && contains "16b" (lower (pdf_name f))
                           && negb (30 * (1024 * 1024) <? st_size f)%N) files))
      (flat_map (fun f => extract_costs (contents f))
         (filter (fun f => negb (contains "dividend" (lower (pdf_name f)))
                           && negb (contains "9a" (lower (pdf_name f)))
                           && negb (contains "16b" (lower (pdf_name f)))
                           && (contains "kustannus" (lower (pdf_name f))
                               || contains "cost" (lower (pdf_name f)))) files)).
Proof.
  intros files. unfold main_results. rewrite fold_main_step. reflexivity.
Qed.

(** X14: [main] writes a file for a kind only when it has a record of that
    kind: no file holds an empty list, and each name is used once. *)
Theorem written_files_nonempty : forall files,
  (forall name l, In (RecordsFile name l) (main_written files) -> l <> [])
  /\ (forall name l, In (SummariesFile name l) (main_written files) -> l <> [])
  /\ NoDup (map (fun w => match w with
                          | RecordsFile name _ | SummariesFile name _ => name
                          end) (main_written files)).
Proof.
  intros files. unfold main_written.
  destruct (main_results files) as [dv tr sm cs]. cbn [all_dividends all_9a_trades all_16b_summaries all_costs].
  split; [|split].
  - intros name l H.
    destruct dv, tr, sm, cs; cbn in H;
      repeat (destruct H as [H|H]; [inversion H; subst; discriminate|]);
      try contradiction; try discriminate.
  - intros name l H.
    destruct dv, tr, sm, cs; cbn in H;
      repeat (destruct H as [H|H]; [inversion H; subst; discriminate|]);
      try contradiction; try discriminate.
  - destruct dv, tr, sm, cs; cbn;
      repeat (constructor; [cbn; intros H; repeat (destruct H as [H|H]; [discriminate|]); exact H|]);
      constructor.
Qed.

End ExtractLynxPdfsMore.

(** ** More on the symbol translator and the fetch commands *)

Module YfinanceFetchMore.
Import PyStr PyStrFacts Re ReFacts MatchFacts YfinanceFetch YfinanceFetchSpec Samples.


Lemma endswith_app : forall a b, endswith (a ++ b) b = true.
Proof.
  induction a as [|c a IH]; intros b; cbn [append]; [apply endswith_refl|].
  apply endswith_cons, IH.
Qed.

Ltac each_override H :=
  unfold SYMBOL_OVERRIDES in H; cbn [In] in H;
  repeat (destruct H as [H|H]; [inversion H; subst; clear H|]); try contradiction.

(** X15: on an exchange that has a suffix, the Yahoo symbol always ends with
    one of the known suffixes: its own, or the one that the symbol or the
    override brings. *)
Theorem suffixed_exchange_result : forall ib_symbol exchange,
  dict_get EXCHANGE_SUFFIX exchange "" <> "" ->
  existsb (endswith (get_yahoo_symbol ib_symbol exchange)) known_suffixes = true.
Proof.
  intros s e H. unfold get_yahoo_symbol.
  destruct (overrides_get SYMBOL_OVERRIDES (s, e)) as [v|] eqn:Eo.
  - apply overrides_get_In in Eo. each_override Eo;
      try (vm_compute; reflexivity); exfalso; apply H; reflexivity.
  - unfold by_rules.
    destruct (contains "." (rewritten s e)
              && existsb (endswith (rewritten s e)) known_suffixes) eqn:E.
    + apply andb_true_iff in E. apply E.
    + apply existsb_exists. exists (dict_get EXCHANGE_SUFFIX e "").
      split; [|apply endswith_app].
      unfold known_suffixes. apply filter_In. split.
      * revert H. unfold EXCHANGE_SUFFIX. cbn [dict_get map snd].
        repeat match goal with
               | |- context [String.eqb e ?k] =>
                   destruct (String.eqb e k); [intros _; cbn; tauto|]
               end.
        congruence.
      * destruct (dict_get EXCHANGE_SUFFIX e ""); [congruence|reflexivity].
Qed.

Lemma suffixed_exchange_result_witness :
  existsb (endswith (get_yahoo_symbol "NOKIA" "HEX")) known_suffixes = true.
Proof.
  apply (suffixed_exchange_result "NOKIA" "HEX"). vm_compute. discriminate.
Defined.


Lemma not_in_keys : forall e (l : list string),
  ~ In e l -> forall k, In k l -> String.eqb e k = false.
Proof.
  intros e l H k Hk. destruct (String.eqb_spec e k); [subst; contradiction|reflexivity].
Qed.

(** X16: on an exchange that the suffix table does not list, no override and
    no rule applies and nothing is appended: the Yahoo symbol is the symbol
    with its spaces turned into hyphens. *)
Theorem unlisted_exchange_result : forall ib_symbol exchange,
  ~ In exchange (map fst EXCHANGE_SUFFIX) ->
  get_yahoo_symbol ib_symbol exchange = replace " " "-" ib_symbol.
Proof.
  intros s e H. pose proof (not_in_keys e _ H) as K.
  assert (K1 : String.eqb e "HEX" = false) by (apply K; cbn; tauto).
  assert (K2 : String.eqb e "SFB" = false) by (apply K; cbn; tauto).
  assert (K3 : String.eqb e "OSE" = false) by (apply K; cbn; tauto).
  assert (K4 : String.eqb e "TSE" = false) by (apply K; cbn; tauto).
  assert (K5 : String.eqb e "TSEJ" = false) by (apply K; cbn; tauto).
  assert (K6 : String.eqb e "SBF" = false) by (apply K; cbn; tauto).
  assert (K7 : String.eqb e "FWB" = false) by (apply K; cbn; tauto).
  assert (K8 : String.eqb e "FWB2" = false) by (apply K; cbn; tauto).
  assert (K9 : String.eqb e "IBIS" = false) by (apply K; cbn; tauto).
  assert (K10 : String.eqb e "LSE" = false) by (apply K; cbn; tauto).
  assert (K11 : String.eqb e "SEHK" = false) by (apply K; cbn; tauto).
  assert (K12 : String.eqb e "NYSE" = false) by (apply K; cbn; tauto).
  assert (K13 : String.eqb e "NASDAQ" = false) by (apply K; cbn; tauto).
  assert (K14 : String.eqb e "ARCA" = false) by (apply K; cbn; tauto).
  assert (K15 : String.eqb e "AMEX" = false) by (apply K; cbn; tauto).
  clear K H.
  unfold get_yahoo_symbol.
  destruct (overrides_get SYMBOL_OVERRIDES (s, e)) as [v|] eqn:Eo.
  { apply overrides_get_In in Eo. each_override Eo;
      match goal with
      | K : String.eqb ?a ?a = false |- _ => rewrite String.eqb_refl in K; discriminate K
      end. }
  unfold by_rules, rewritten, EXCHANGE_SUFFIX, mem.
  cbn [dict_get existsb].
  rewrite K1, K2, K3, K4, K5, K6, K7, K8, K9, K10, K11, K12, K13, K14, K15.
  cbn [andb orb]. rewrite append_nil_r.
  destruct (contains "." _ && _); reflexivity.
Qed.

Lemma unlisted_exchange_result_witness :
  get_yahoo_symbol "BRK B" "PINK" = replace " " "-" "BRK B".
Proof.
  apply (unlisted_exchange_result "BRK B" "PINK").
  cbn. intros H. repeat (destruct H as [H|H]; [discriminate H|]). exact H.
Defined.


(** *** Hong Kong codes *)

Lemma replace_absent : forall a new s,
  all_chars (fun c => negb (Ascii.eqb a c)) s = true ->
  replace (String a "") new s = s.
Proof.
  intros a new. unfold replace. induction s as [|c t IH]; intros H; [reflexivity|].
  cbn [all_chars] in H. apply andb_true_iff in H. destruct H as [Hc H].
  apply negb_true_iff in Hc.
  cbn [replace_scan startswith]. rewrite Hc. cbn [andb]. rewrite (IH H). reflexivity.
Qed.

Lemma contains_absent : forall a s,
  all_chars (fun c => negb (Ascii.eqb a c)) s = true ->
  contains (String a "") s = false.
Proof.
  intros a. induction s as [|c t IH]; intros H; [reflexivity|].
  cbn [all_chars] in H. apply andb_true_iff in H. destruct H as [Hc H].
  apply negb_true_iff in Hc.
  cbn [contains startswith]. rewrite Hc, (IH H). reflexivity.
Qed.

Lemma digit_char_plain : forall c,
  isdigit_char c = true ->
  Ascii.eqb " " c = false /\ Ascii.eqb "." c = false
  /\ Ascii.eqb c "+" = false /\ Ascii.eqb c "-" = false.
Proof.
  intros c H. repeat split.
  - destruct (Ascii.eqb_spec " " c); [subst; discriminate|reflexivity].
  - destruct (Ascii.eqb_spec "." c); [subst; discriminate|reflexivity].
  - destruct (Ascii.eqb_spec c "+"); [subst; discriminate|reflexivity].
  - destruct (Ascii.eqb_spec c "-"); [subst; discriminate|reflexivity].
Qed.

Lemma all_chars_zeros : forall n, all_chars isdigit_char (zeros n) = true.
Proof. induction n as [|n IH]; [reflexivity|]. cbn [zeros all_chars]. rewrite IH. reflexivity. Qed.

Lemma zfill_digits : forall w s,
  all_chars isdigit_char s = true -> all_chars isdigit_char (zfill w s) = true.
Proof.
  intros w s H. unfold zfill. destruct (w <=? String.length s); [exact H|].
  destruct s as [|c t]; [apply all_chars_zeros|].
  pose proof H as H'. cbn [all_chars] in H'. apply andb_true_iff in H'.
  destruct H' as [Hc _]. destruct (digit_char_plain c Hc) as (_ & _ & -> & ->).
  cbn [orb]. rewrite all_chars_app, all_chars_zeros. exact H.
Qed.

(** X17: on the Hong Kong exchange a symbol made of digits is padded with
    zeros to four digits and gets the suffix of the exchange; the overrides
    kept for that exchange give the same. *)
Theorem hong_kong_codes : forall ib_symbol,
  isdigit ib_symbol = true ->
  get_yahoo_symbol ib_symbol "SEHK" = zfill 4 ib_symbol ++ ".HK".
Proof.
  intros s H. unfold get_yahoo_symbol.
  destruct (overrides_get SYMBOL_OVERRIDES (s, "SEHK")) as [v|] eqn:Eo.
  { apply overrides_get_In in Eo. each_override Eo; vm_compute; reflexivity. }
  pose proof H as Hd. unfold isdigit in Hd. apply andb_true_iff in Hd.
  destruct Hd as [_ Hd].
  assert (Hsp : replace " " "-" s = s).
  { apply replace_absent. apply (all_chars_weaken _ _ s) with (2 := Hd).
    intros c Hc. destruct (digit_char_plain c Hc) as (-> & _). reflexivity. }
  assert (Hr : rewritten s "SEHK" = zfill 4 s).
  { unfold rewritten. rewrite Hsp.
    change (String.eqb "SEHK" "OSE") with false.
    change (String.eqb "SEHK" "HEX") with false.
    change (String.eqb "SEHK" "SEHK") with true.
    change (String.eqb "SEHK" "TSE") with false.
    change (mem "SEHK" ["NYSE"; "NASDAQ"; "AMEX"; "ARCA"]) with false.
    cbn [andb]. rewrite H. reflexivity. }
  unfold by_rules. rewrite Hr.
  change (dict_get EXCHANGE_SUFFIX "SEHK" "") with ".HK".
  rewrite contains_absent; [reflexivity|].
  apply (all_chars_weaken isdigit_char); [|apply zfill_digits, Hd].
  intros c Hc. destruct (digit_char_plain c Hc) as (_ & -> & _). reflexivity.
Qed.

Lemma hong_kong_codes_witness : get_yahoo_symbol "5" "SEHK" = zfill 4 "5" ++ ".HK".
Proof. apply (hong_kong_codes "5"). reflexivity. Defined.


(** *** Preferred shares *)

Lemma append_same_length : forall x y t t',
  String.length t = String.length t' -> x ++ t = y ++ t' -> x = y /\ t = t'.
Proof.
  induction x as [|c x IH]; intros y t t' L H.
  - destruct y as [|d y]; [auto|]. cbn [append] in H. subst t.
    cbn [String.length] in L. rewrite length_append in L. lia.
  - destruct y as [|d y].
    + cbn [append] in H. subst t'. cbn [String.length] in L.
      rewrite length_append in L. lia.
    + cbn [append] in H. inversion H; subst.
      destruct (IH _ _ _ L H2) as (-> & ->). auto.
Qed.

(** What a match of the preferred-share pattern reads. *)
Lemma preferred_text : forall s m,
  rmatch_ preferred_share s = Some m ->
  exists x u nl,
    s = x ++ "-PR" ++ String u nl /\ x <> "" /\ all_chars dot x = true
    /\ isupper_ascii u = true /\ (nl = "" \/ nl = String "010" "")
    /\ group m 1 = x /\ group m 2 = String u "".
Proof.
  intros s m H. unfold rmatch_ in H. apply match_at_spans in H.
  destruct H as (e & s' & g' & Hs & Hg).
  unfold preferred_share in Hs. cbn [seq lit] in Hs. revert Hg.
  apply spans_cat in Hs. destruct Hs as (p1 & s1 & g1 & H1 & Hs).
  apply spans_cat in Hs. destruct Hs as (p2 & s2 & g2 & H2 & Hs).
  apply spans_cat in Hs. destruct Hs as (p3 & s3 & g3 & H3 & Hs).
  apply spans_cat in Hs. destruct Hs as (p4 & s4 & g4 & H4 & Hs).
  cbn [spans] in H1. destruct H1 as (_ & -> & -> & ->).
  apply spans_group in H2. destruct H2 as (x & g0 & -> & -> & H2 & ->).
  apply spans_rep_text in H2. destruct H2 as (Hx & Lx & _ & ->).
  unfold chr in H3. cbn [spans] in H3.
  destruct H3 as (pa & sa & ga & (c1 & -> & E1 & -> & ->) & pb & sb & gb
                  & (c2 & -> & E2 & -> & ->) & (c3 & -> & E3 & -> & ->)).
  apply Ascii.eqb_eq in E1, E2, E3. subst c1 c2 c3.
  apply spans_group in H4. destruct H4 as (w & g5 & -> & -> & H4 & ->).
  cbn [spans] in H4. destruct H4 as (u & Eu & Hu & _ & ->).
  assert (w = String u "").
  { apply (append_inv_tail _ _ s4). exact Eu. }
  subst w. cbn [spans] in Hs. destruct Hs as (Hnl & _ & _ & ->).
  intros Hg. exists x, u, s4.
  split; [reflexivity|]. split; [destruct x; [cbn in Lx; lia|discriminate]|].
  split; [exact Hx|]. split; [exact Hu|]. split; [exact Hnl|].
  unfold group. rewrite Hg. cbn. split; reflexivity.
Qed.

(** X18: on the four US exchanges a symbol that reads x-PRu once its spaces
    are hyphens, u being a capital letter and x a text without a line break
    that is not empty, becomes x-Pu, and nothing is appended; the overrides
    kept for preferred shares give the same. *)
Theorem preferred_share_result : forall ib_symbol exchange x u,
  mem exchange ["NYSE"; "NASDAQ"; "AMEX"; "ARCA"] = true ->
  replace " " "-" ib_symbol = x ++ "-PR" ++ String u "" ->
  x <> "" -> all_chars dot x = true -> isupper_ascii u = true ->
  get_yahoo_symbol ib_symbol exchange = x ++ "-P" ++ String u "".
Proof.
  intros s e x u He Hs Hx Hd Hu.
  assert (Hm : exists m, rmatch_ preferred_share (x ++ "-PR" ++ String u "") = Some m
                         /\ group m 1 = x /\ group m 2 = String u "").
  { destruct (rmatch_ preferred_share (x ++ "-PR" ++ String u "")) as [m|] eqn:Em.
    - exists m. split; [reflexivity|].
      destruct (preferred_text _ _ Em) as (x' & u' & nl & E & _ & _ & _ & Hnl & -> & ->).
      destruct Hnl as [->| ->].
      + apply append_same_length in E; [|reflexivity].
        destruct E as (-> & E). inversion E. auto.
      + change (x' ++ "-PR" ++ String u' (String "010" ""))
          with (x' ++ String "-" ("PR" ++ String u' (String "010" ""))) in E.
        assert (E' : x ++ "-PR" ++ String u ""
                     = (x' ++ "-") ++ "PR" ++ String u' (String "010" "")).
        { rewrite E, append_assoc. reflexivity. }
        apply append_same_length in E'; [|reflexivity].
        destruct E' as (_ & E'). discriminate E'.
    - exfalso. revert Em. unfold rmatch_.
      apply (match_at_complete _ _ _ (String.length x + 4) ""
               [(2, String u ""); (1, x)]).
      unfold preferred_share. cbn [seq lit].
      exists 0, (x ++ "-PR" ++ String u ""), []. split; [cbn; auto|].
      exists (String.length x), ("-PR" ++ String u ""), [(1, x)]. split.
      { exists []. rewrite Nat.sub_0_r, take_append. split; [|reflexivity].
        exists x. repeat split; try assumption.
        destruct x; [congruence|cbn; lia]. }
      exists (String.length x + 3), (String u ""), [(1, x)]. split.
      { unfold chr. cbn [spans append].
        exists (S (String.length x)), (String "P" (String "R" (String u ""))), [(1, x)].
        split; [exists "-"%char; repeat split|].
        exists (S (S (String.length x))), (String "R" (String u "")), [(1, x)].
        split; [exists "P"%char; repeat split|].
        exists "R"%char. repeat split. lia. }
      exists (String.length x + 4), "", [(2, String u ""); (1, x)]. split.
      { exists [(1, x)]. split.
        - exists u. repeat split; [exact Hu|lia].
        - replace (String.length x + 4 - (String.length x + 3)) with 1 by lia.
          reflexivity. }
      cbn [spans]. auto. }
  destruct Hm as (m & Em & G1 & G2).
  assert (Hr : rewritten s e = x ++ "-P" ++ String u "").
  { unfold rewritten. rewrite Hs, He.
    assert (K : String.eqb e "OSE" = false /\ String.eqb e "HEX" = false
                /\ String.eqb e "SEHK" = false /\ String.eqb e "TSE" = false).
    { unfold mem in He. cbn [existsb] in He.
      repeat (apply orb_true_iff in He; destruct He as [He|He];
              [apply String.eqb_eq in He; subst e; repeat split; reflexivity|]).
      discriminate. }
    destruct K as (-> & -> & -> & ->). cbn [andb]. rewrite Em, G1, G2. reflexivity. }
  assert (Hsuf : dict_get EXCHANGE_SUFFIX e "" = "").
  { unfold mem in He. cbn [existsb] in He.
    repeat (apply orb_true_iff in He; destruct He as [He|He];
            [apply String.eqb_eq in He; subst e; reflexivity|]).
    discriminate. }
  unfold get_yahoo_symbol.
  destruct (overrides_get SYMBOL_OVERRIDES (s, e)) as [v|] eqn:Eo.
  { apply overrides_get_In in Eo. each_override Eo; try discriminate He;
      vm_compute in Hr; vm_compute; exact Hr. }
  unfold by_rules. rewrite Hr, Hsuf, append_nil_r.
  destruct (contains "." _ && _); reflexivity.
Qed.

Lemma preferred_share_result_witness :
  get_yahoo_symbol "PSA PRH" "NYSE" = "PSA" ++ "-P" ++ String "H" "".
Proof.
  apply (preferred_share_result "PSA PRH" "NYSE" "PSA" "H"); reflexivity || discriminate.
Defined.


(** *** No space is left in a Yahoo symbol *)

Lemma spaces_removed : forall s,
  all_chars (fun c => negb (Ascii.eqb " " c)) (replace " " "-" s) = true.
Proof.
  intros s. unfold replace. induction s as [|c t IH]; [reflexivity|].
  cbn [replace_scan startswith String.length Nat.sub].
  rewrite startswith_nil, andb_true_r.
  destruct (Ascii.eqb " " c) eqn:E; cbn [append all_chars]; [exact IH|].
  rewrite E, IH. reflexivity.
Qed.

Lemma drop_last_keeps : forall p s,
  all_chars p s = true -> all_chars p (drop_last s) = true.
Proof.
  intros p. induction s as [|c t IH]; intros H; [reflexivity|].
  cbn [all_chars] in H. apply andb_true_iff in H. destruct H as [Hc H].
  destruct t as [|d t]; [reflexivity|].
  change (drop_last (String c (String d t))) with (String c (drop_last (String d t))).
  cbn [all_chars]. rewrite Hc. apply IH, H.
Qed.

Lemma zfill_keeps : forall p w s,
  p "0"%char = true -> all_chars p s = true -> all_chars p (zfill w s) = true.
Proof.
  intros p w s H0 H. unfold zfill. destruct (w <=? String.length s); [exact H|].
  assert (Hz : forall n, all_chars p (zeros n) = true).
  { induction n as [|n IH]; [reflexivity|]. cbn [zeros all_chars]. rewrite H0, IH. reflexivity. }
  destruct s as [|c t]; [apply Hz|].
  destruct (Ascii.eqb c "+" || Ascii.eqb c "-").
  - cbn [all_chars] in *. apply andb_true_iff in H. destruct H as [-> H].
    rewrite all_chars_app, Hz, H. reflexivity.
  - rewrite all_chars_app, Hz, H. reflexivity.
Qed.

Lemma replace_scan_keeps : forall p old new s k,
  all_chars p new = true -> all_chars p s = true ->
  all_chars p (replace_scan old new k s) = true.
Proof.
  intros p old new. induction s as [|c t IH]; intros k Hn H; [reflexivity|].
  cbn [all_chars] in H. apply andb_true_iff in H. destruct H as [Hc H].
  cbn [replace_scan]. destruct k as [|k]; [|apply IH; assumption].
  destruct (startswith (String c t) old).
  - rewrite all_chars_app, Hn. apply IH; assumption.
  - cbn [all_chars]. rewrite Hc. apply IH; assumption.
Qed.

Lemma rewritten_no_space : forall s e,
  all_chars (fun c => negb (Ascii.eqb " " c)) (rewritten s e) = true.
Proof.
  intros s e. unfold rewritten.
  pose proof (spaces_removed s) as H0.
  generalize dependent (replace " " "-" s). intros s0 H0.
  assert (H1 : forall (c : bool) t, all_chars (fun c => negb (Ascii.eqb " " c)) t = true ->
                 all_chars (fun c => negb (Ascii.eqb " " c))
                   (if c then drop_last t else t) = true).
  { intros c t H. destruct c; [apply drop_last_keeps|]; exact H. }
  apply (H1 (String.eqb e "OSE" && endswith s0 "o" && (1 <? String.length s0))) in H0.
  generalize dependent (if String.eqb e "OSE" && endswith s0 "o" && (1 <? String.length s0)
                        then drop_last s0 else s0).
  clear s0. intros s1 H0.
  apply (H1 (String.eqb e "HEX" && endswith s1 "h" && (1 <? String.length s1))) in H0.
  generalize dependent (if String.eqb e "HEX" && endswith s1 "h" && (1 <? String.length s1)
                        then drop_last s1 else s1).
  clear s1 H1. intros s2 H0.
  assert (H3 : all_chars (fun c => negb (Ascii.eqb " " c))
                 (if String.eqb e "SEHK" && isdigit s2 then zfill 4 s2 else s2) = true).
  { destruct (String.eqb e "SEHK" && isdigit s2); [apply zfill_keeps; [reflexivity|]|];
      exact H0. }
  generalize dependent (if String.eqb e "SEHK" && isdigit s2 then zfill 4 s2 else s2).
  clear H0 s2. intros s3 H3.
  assert (H4 : all_chars (fun c => negb (Ascii.eqb " " c))
                 (if String.eqb e "TSE" && contains ".UN" s3
                  then replace ".UN" "-UN" s3 else s3) = true).
  { destruct (String.eqb e "TSE" && contains ".UN" s3); [|exact H3].
    apply replace_scan_keeps; [reflexivity|exact H3]. }
  generalize dependent (if String.eqb e "TSE" && contains ".UN" s3
                        then replace ".UN" "-UN" s3 else s3).
  clear H3 s3. intros s4 H4.
  destruct (mem e ["NYSE"; "NASDAQ"; "AMEX"; "ARCA"]); [|exact H4].
  destruct (rmatch_ preferred_share s4) as [m|] eqn:Em; [|exact H4].
  destruct (preferred_text _ _ Em) as (x & u & nl & E & _ & _ & Hu & _ & -> & ->).
  rewrite E, !all_chars_app in H4. apply andb_true_iff in H4. destruct H4 as [Hx _].
  rewrite !all_chars_app, Hx. cbn [all_chars andb].
  destruct (Ascii.eqb_spec " " u); [subst u; discriminate Hu|reflexivity].
Qed.

(** X19: the Yahoo symbol never holds a space, whatever the symbol and the
    exchange. *)
Theorem yahoo_symbol_has_no_space : forall ib_symbol exchange,
  contains " " (get_yahoo_symbol ib_symbol exchange) = false.
Proof.
  intros s e. apply contains_absent.
  unfold get_yahoo_symbol.
  destruct (overrides_get SYMBOL_OVERRIDES (s, e)) as [v|] eqn:Eo.
  { apply overrides_get_In in Eo. each_override Eo; vm_compute; reflexivity. }
  unfold by_rules. destruct (contains "." _ && _); [apply rewritten_no_space|].
  rewrite all_chars_app, rewritten_no_space. unfold EXCHANGE_SUFFIX. cbn [dict_get andb].
  repeat match goal with
         | |- context [String.eqb e ?k] => destruct (String.eqb e k); [reflexivity|]
         end.
  reflexivity.
Qed.


(** *** The share-class letters of Oslo and Helsinki *)

Lemma drop_last_app : forall x c, drop_last (x ++ String c "") = x.
Proof.
  induction x as [|d x IH]; intros c; [reflexivity|].
  cbn [append]. destruct x as [|d' x]; [reflexivity|].
  change (drop_last (String d (String d' x ++ String c "")))
    with (String d (drop_last (String d' x ++ String c ""))).
  rewrite IH. reflexivity.
Qed.

(** X20: a symbol of Oslo that ends with [o], or of Helsinki that ends with
    [h], loses that letter and gets the suffix of its exchange, when no
    override is kept for it and what is left is not empty and has no space
    and no point. *)
Theorem share_class_letter_dropped : forall x exchange c,
  (exchange = "OSE" /\ c = "o"%char) \/ (exchange = "HEX" /\ c = "h"%char) ->
  x <> "" ->
  all_chars (fun a => negb (Ascii.eqb " " a)) x = true ->
  all_chars (fun a => negb (Ascii.eqb "." a)) x = true ->
  overrides_get SYMBOL_OVERRIDES (x ++ String c "", exchange) = None ->
  get_yahoo_symbol (x ++ String c "") exchange
  = x ++ dict_get EXCHANGE_SUFFIX exchange "".
Proof.
  intros x e c He Hx Hsp Hpt Ho. unfold get_yahoo_symbol. rewrite Ho.
  assert (Hs : replace " " "-" (x ++ String c "") = x ++ String c "").
  { apply replace_absent. rewrite all_chars_app, Hsp.
    destruct He as [(_ & ->)|(_ & ->)]; reflexivity. }
  assert (Hl : (1 <? String.length (x ++ String c "")) = true).
  { apply Nat.ltb_lt. rewrite length_append. destruct x; [congruence|cbn; lia]. }
  assert (Hr : rewritten (x ++ String c "") e = x).
  { unfold rewritten. rewrite Hs, Hl.
    pose proof (endswith_app x (String c "")) as Hend.
    destruct He as [(-> & ->)|(-> & ->)].
    - rewrite Hend, drop_last_app.
      change (String.eqb "OSE" "OSE") with true.
      change (String.eqb "OSE" "HEX") with false.
      change (String.eqb "OSE" "SEHK") with false.
      change (String.eqb "OSE" "TSE") with false.
      change (mem "OSE" ["NYSE"; "NASDAQ"; "AMEX"; "ARCA"]) with false.
      reflexivity.
    - change (String.eqb "HEX" "OSE") with false. cbn [andb].
      rewrite Hend, Hl, drop_last_app.
      change (String.eqb "HEX" "HEX") with true.
      change (String.eqb "HEX" "SEHK") with false.
      change (String.eqb "HEX" "TSE") with false.
      change (mem "HEX" ["NYSE"; "NASDAQ"; "AMEX"; "ARCA"]) with false.
      reflexivity. }
  unfold by_rules. rewrite Hr, (contains_absent "." x Hpt). reflexivity.
Qed.

Lemma share_class_letter_dropped_witness :
  get_yahoo_symbol ("MOWI" ++ String "o" "") "OSE"
  = "MOWI" ++ dict_get EXCHANGE_SUFFIX "OSE" "".
Proof.
  apply (share_class_letter_dropped "MOWI" "OSE" "o");
    [left; split; reflexivity|discriminate|reflexivity|reflexivity|reflexivity].
Defined.


(** *** What a fetch that succeeds returns, and what the commands write *)

Section WithProvider.
Context {num infoval : Type}.
Variable round : num -> nat -> num.
Variable int : num -> result Z.
Variable truth : infoval -> bool.
Variable str : string -> infoval.
Variable P : @provider num infoval.

(** A loop whose body may raise ends well exactly when every turn does. *)
Lemma mapM_ok : forall (A B : Type) (f : A -> result B) l bs,
  mapM f l = Ok bs <-> Forall2 (fun a b => f a = Ok b) l bs.
Proof.
  intros A B f. induction l as [|a l IH]; intros bs; cbn [mapM].
  - split; intros H; [inversion H; constructor|inversion H; reflexivity].
  - split; intros H.
    + destruct (f a) as [b|msg] eqn:Ea; [|discriminate].
      cbn [bind] in H. destruct (mapM f l) as [bs'|msg] eqn:El; [|discriminate].
      cbn [bind] in H. inversion H; subst. constructor; [exact Ea|].
      apply IH. reflexivity.
    + inversion H as [|a' b l' bs' Ha Hl]; subst. rewrite Ha. cbn [bind].
      apply IH in Hl. rewrite Hl. reflexivity.
Qed.

Lemma mapM_map : forall (A B : Type) (f : A -> result B) (g : A -> B) l,
  (forall a, f a = Ok (g a)) -> mapM f l = Ok (map g l).
Proof.
  intros A B f g l H. induction l as [|a l IH]; [reflexivity|].
  cbn [mapM map]. rewrite H, IH. reflexivity.
Qed.

(** X21: [fetch_dividends] returns records exactly when the provider has a
    series that is not empty and answers the request for the company data:
    then it gives one record per payment, in the order of the series, each
    with the symbol, exchange and ISIN it was called with, the amount rounded
    to six places, and the currency of the company data, [USD] when that has
    none. *)
Theorem fetch_dividends_records : forall yahoo ib ex isin records,
  fetch_dividends round str P yahoo ib ex isin = Some records
  <-> exists items i,
        dividends P yahoo = Ok (Some items) /\ items <> []
        /\ info P yahoo = Ok i
        /\ records
           = map (fun it => mk_dividend_record ib yahoo ex isin (fst it)
                              (round (snd it) 6)
                              (match info_get i "currency" with
                               | Some c => c
                               | None => str "USD"
                               end)) items.
Proof.
  intros yahoo ib ex isin records. unfold fetch_dividends.
  destruct (dividends P yahoo) as [[items|]|msg]; cbn [bind or_none].
  2,3: split; [discriminate|intros (items' & i & H & _); discriminate].
  destruct items as [|it0 items].
  { cbn [or_none]. split; [discriminate|].
    intros (items' & i & H & Hne & _). inversion H; subst. congruence. }
  destruct (info P yahoo) as [i|msg] eqn:Ei.
  - rewrite (mapM_map _ _ _
               (fun it => mk_dividend_record ib yahoo ex isin (fst it)
                            (round (snd it) 6)
                            (match info_get i "currency" with
                             | Some c => c
                             | None => str "USD"
                             end)));
      [|intros [d a]; reflexivity].
    cbn [bind or_none]. split.
    + intros H. inversion H; subst. exists (it0 :: items), i.
      repeat split; [discriminate].
    + intros (items' & i' & H & _ & Hi & ->). inversion H; inversion Hi; subst.
      reflexivity.
  - cbn [mapM bind or_none]. destruct it0 as [d a]. cbn [bind or_none].
    split; [discriminate|]. intros (items' & i' & _ & _ & Hi & _). discriminate.
Qed.

(** X22: [fetch_history] returns records exactly when the provider has a
    frame that is not empty and [int] accepts the volume of every bar: then it
    gives one record per bar, in order, the four prices rounded to four
    places. One volume that [int] refuses loses the whole history. *)
Theorem fetch_history_records : forall yahoo ib ex period records,
  fetch_history round int P yahoo ib ex period = Some records
  <-> exists rows,
        history P yahoo period = Ok (Some rows) /\ rows <> []
        /\ Forall2 (fun b r =>
                      exists v, int (bar_volume b) = Ok v
                        /\ r = mk_history_record ib yahoo (bar_date b)
                                 (round (bar_open b) 4) (round (bar_high b) 4)
                                 (round (bar_low b) 4) (round (bar_close b) 4) v)
             rows records.
Proof.
  intros yahoo ib ex period records. unfold fetch_history.
  destruct (history P yahoo period) as [[rows|]|msg]; cbn [bind or_none].
  2,3: split; [discriminate|intros (rows' & H & _); discriminate].
  destruct rows as [|b0 rows].
  { cbn [or_none]. split; [discriminate|].
    intros (rows' & H & Hne & _). inversion H; subst. congruence. }
  set (f := fun b => _).
  assert (Hf : forall l rs,
            Forall2 (fun b r => f b = Ok r) l rs
            <-> Forall2 (fun b r =>
                      exists v, int (bar_volume b) = Ok v
                        /\ r = mk_history_record ib yahoo (bar_date b)
                                 (round (bar_open b) 4) (round (bar_high b) 4)
                                 (round (bar_low b) 4) (round (bar_close b) 4) v)
                  l rs).
  { intros l rs. split; intros H; induction H; constructor; try assumption.
    - subst f. cbv beta in H. destruct (int (bar_volume x)) as [v|msg]; [|discriminate].
      cbn [bind] in H. inversion H. exists v. auto.
    - destruct H as (v & Hv & ->). subst f. cbv beta. rewrite Hv. reflexivity. }
  destruct (mapM f (b0 :: rows)) as [rs|msg] eqn:Em; cbn [bind or_none].
  - apply mapM_ok, Hf in Em. split.
    + intros H. inversion H; subst. exists (b0 :: rows).
      repeat split; [discriminate|exact Em].
    + intros (rows' & H & _ & Hr). inversion H; subst rows'.
      apply Hf, mapM_ok in Hr. apply Hf, mapM_ok in Em. congruence.
  - split; [discriminate|]. intros (rows' & H & _ & Hr). inversion H; subst rows'.
    apply Hf, mapM_ok in Hr. congruence.
Qed.

Lemma no_slash : forall s, contains "/" (replace "/" "_" s) = false.
Proof.
  intros s. apply contains_absent. unfold replace.
  induction s as [|c t IH]; [reflexivity|].
  cbn [replace_scan startswith String.length Nat.sub].
  rewrite startswith_nil, andb_true_r.
  destruct (Ascii.eqb "/" c) eqn:E; cbn [append all_chars]; [exact IH|].
  rewrite E, IH. reflexivity.
Qed.

(** X23: a file that a command writes goes to the directory of the command,
    under a name without a slash, holds at least one record, and comes right
    after the request for the symbol it is named after. *)
Theorem saved_files : forall db symbol s pre dir name data post,
  (cmd_dividends round str P db symbol = pre ++ Saved dir name data :: post ->
   dir = "dividends" /\ contains "/" name = false
   /\ (exists r rs, data = DividendsJson (r :: rs))
   /\ exists pre' y, pre = pre' ++ [Request Dividends y]
                     /\ name = replace "/" "_" y)%list
  /\ (cmd_history round int P s = pre ++ Saved dir name data :: post ->
      dir = "history" /\ contains "/" name = false
      /\ (exists r rs, data = HistoryJson (r :: rs))
      /\ pre = [Request History s] /\ name = replace "/" "_" s)%list
  /\ (cmd_profile truth P s = pre ++ Saved dir name data :: post ->
      dir = "profiles" /\ contains "/" name = false
      /\ (exists p, data = ProfileJson p)
      /\ pre = [Request Profile s] /\ name = replace "/" "_" s)%list.
Proof.
  intros db symbol s pre dir name data post.
  assert (Hone : forall y ib ex isin pre post,
            (Request Dividends y
               :: save_dividends y (fetch_dividends round str P y ib ex isin)
             = pre ++ Saved dir name data :: post)%list ->
            dir = "dividends" /\ contains "/" name = false
            /\ (exists r rs, data = DividendsJson (r :: rs))
            /\ pre = [Request Dividends y] /\ name = replace "/" "_" y /\ post = []).
  { intros y ib ex isin pre0 post0 H. unfold save_dividends in H.
    destruct pre0 as [|ev pre0]; [discriminate|]. inversion H as [[He H']]. subst ev.
    destruct (fetch_dividends _ _ _ _ _ _ _) as [[|r rs]|];
      try (destruct pre0; discriminate).
    destruct pre0 as [|ev pre0]; [|destruct pre0; discriminate].
    inversion H'; subst. repeat split; [apply no_slash|eauto]. }
  split; [|split].
  - intros H. unfold cmd_dividends in H. destruct (wants_all symbol).
    + assert (Hall : flat_map (dividends_of_entry round str P) db
                     = (pre ++ Saved dir name data :: post)%list)
        by (destruct db; [destruct pre; discriminate|exact H]).
      clear H. revert pre Hall. induction db as [|e db IH]; intros pre Hall.
      { destruct pre; discriminate. }
      cbn [flat_map] in Hall. unfold dividends_of_entry at 1 in Hall.
      set (y := get_yahoo_symbol (e_symbol e) (e_exchange e)) in *.
      unfold save_dividends in Hall.
      destruct (fetch_dividends round str P y (e_symbol e) (e_exchange e) (e_isin e))
        as [[|r rs]|].
      * destruct pre as [|ev pre]; [discriminate|]. inversion Hall; subst ev.
        destruct (IH pre H1) as (Hd & Hn & Hdata & pre' & y' & -> & Hy).
        repeat split; try assumption. exists (Request Dividends y :: pre'), y'. auto.
      * destruct pre as [|ev pre]; [discriminate|]. inversion Hall as [[He Hall']]; subst ev.
        destruct pre as [|ev pre].
        -- inversion Hall'; subst. repeat split; [apply no_slash|eauto|].
           exists [], y. auto.
        -- inversion Hall' as [[He Hall'']]. subst ev.
           destruct (IH pre Hall'') as (Hd & Hn & Hdata & pre' & y' & -> & Hy).
           repeat split; try assumption.
           exists (Request Dividends y
                     :: Saved "dividends" (replace "/" "_" y) (DividendsJson (r :: rs))
                     :: pre'), y'. auto.
      * destruct pre as [|ev pre]; [discriminate|]. inversion Hall; subst ev.
        destruct (IH pre H1) as (Hd & Hn & Hdata & pre' & y' & -> & Hy).
        repeat split; try assumption. exists (Request Dividends y :: pre'), y'. auto.
    + apply Hone in H. destruct H as (Hd & Hn & Hdata & -> & Hy & _).
      repeat split; try assumption. eexists [], _. split; [reflexivity|exact Hy].
  - intros H. unfold cmd_history in H.
    destruct pre as [|ev pre]; [discriminate|]. inversion H as [[He H']]. subst ev.
    destruct (fetch_history _ _ _ _ _ _ _) as [[|r rs]|];
      try (destruct pre; discriminate).
    destruct pre as [|ev pre]; [|destruct pre; discriminate].
    inversion H'; subst. repeat split; [apply no_slash|eauto].
  - intros H. unfold cmd_profile in H.
    destruct pre as [|ev pre]; [discriminate|]. inversion H as [[He H']]. subst ev.
    destruct (fetch_profile _ _ _ _ _ _) as [p|];
      try (destruct pre; discriminate).
    destruct pre as [|ev pre]; [|destruct pre; discriminate].
    inversion H'; subst. repeat split; [apply no_slash|eauto].
Qed.

End WithProvider.


(** *** Reading the holdings back *)

Lemma split_on_cons : forall sep s, exists x rest, split_on sep s = x :: rest.
Proof.
  intros sep. induction s as [|c t IH]; cbn [split_on]; [eauto|].
  destruct (Ascii.eqb c sep); [eauto|]. destruct IH as (x & rest & ->). eauto.
Qed.



Lemma split_on_two : forall sep s,
  contains (String sep "") s = true -> 2 <= List.length (split_on sep s).
Proof.
  intros sep. induction s as [|c t IH]; intros H; [discriminate|].
  cbn [contains startswith] in H. cbn [split_on]. rewrite (Ascii.eqb_sym c sep).
  destruct (Ascii.eqb sep c).
  - destruct (split_on_cons sep t) as (x & rest & ->). cbn. lia.
  - cbn [andb orb] in H. specialize (IH H).
    destruct (split_on sep t) as [|x rest]; [cbn in IH; lia|exact IH].
Qed.



(** X25: a line of the standard output gives an entry exactly when it holds
    a tab and does not start with a bracket; the test on the number of parts
    never turns a line down. *)
Theorem holdings_line_accepted : forall line,
  entry_of_line line <> []
  <-> (contains (String "009" "") line = true /\ startswith line "[" = false).
Proof.
  intros line. unfold entry_of_line.
  destruct (contains (String "009" "") line) eqn:Ec; cbn [andb].
  - destruct (startswith line "["); cbn [negb].
    + split; [congruence|]. intros (_ & H). discriminate.
    + apply split_on_two in Ec. apply Nat.leb_le in Ec. rewrite Ec.
      split; [auto|discriminate].
  - split; [congruence|]. intros (H & _). discriminate.
Qed.

End YfinanceFetchMore.
